(** * blscint: the scintillation statistics engine, embedded and verified

    A shallow embedding of [blscint/diag_stats.py], [blscint/gen_pdf.py] and
    [blscint/simulations/timeseries/fft.py].

    - NumPy's [float64] is IEEE-754 binary64: the Standard Library's
      [spec_float] with [prec = 53] and [emax = 1024].  Arithmetic, square
      root and comparisons are the library's executable definitions, so
      rounding, overflow, signed zeros, infinities and NaN are the ones the
      Python code meets.
    - What the code takes from outside the repository (the C math library
      behind [np.exp] and [scipy.special.i0], [scipy.stats],
      [scipy.optimize.curve_fit], [np.fft], NumPy's random generators) is an
      interface: a type class of operations with a class of laws.  Theorems
      hold for every instance; executable instances let the model run.
    - Python control flow is explicit: a call returns, raises, or leaves the
      interpreter through [sys.exit]. *)

From Stdlib Require Import ZArith Lia List Bool.
From Stdlib Require Import Floats.SpecFloat.
From stdpp Require Import gmap strings list fin_maps.
Import ListNotations.

(** ** IEEE-754 binary64 *)

Definition prec : Z := 53.
Definition emax : Z := 1024.

Definition float : Type := spec_float.

Definition fadd : float -> float -> float := SFadd prec emax.
Definition fsub : float -> float -> float := SFsub prec emax.
Definition fmul : float -> float -> float := SFmul prec emax.
Definition fdiv : float -> float -> float := SFdiv prec emax.
Definition fsqrt : float -> float := SFsqrt prec emax.
Definition fopp : float -> float := SFopp.
Definition fabs : float -> float := SFabs.

(** Comparisons are IEEE comparisons: every one of them is false on NaN. *)
Definition fltb : float -> float -> bool := SFltb.
Definition fleb : float -> float -> bool := SFleb.
Definition feqb : float -> float -> bool := SFeqb.
Definition fgtb (x y : float) : bool := fltb y x.
Definition fgeb (x y : float) : bool := fleb y x.

Declare Scope f64_scope.
Delimit Scope f64_scope with f64.
Bind Scope f64_scope with float.
Infix "+" := fadd : f64_scope.
Infix "-" := fsub : f64_scope.
Infix "*" := fmul : f64_scope.
Infix "/" := fdiv : f64_scope.
Notation "- x" := (fopp x) : f64_scope.
Infix "<?" := fltb : f64_scope.
Infix "<=?" := fleb : f64_scope.
Infix ">?" := fgtb : f64_scope.
Infix ">=?" := fgeb : f64_scope.

Definition nan : float := S754_nan.
Definition pinf : float := S754_infinity false.
Definition ninf : float := S754_infinity true.
Definition f0 : float := S754_zero false.

(** [float(z)] for a Python [int]: the nearest binary64 number. *)
Definition of_Z (z : Z) : float := binary_normalize prec emax z 0 false.
Definition of_nat (n : nat) : float := of_Z (Z.of_nat n).

(** [2.0 ** e], for [e] in the normal range. *)
Definition pow2 (e : Z) : float := S754_finite false 4503599627370496 (e - 52).

Definition f1 : float := pow2 0.
Definition f2 : float := pow2 1.
Definition f4 : float := pow2 2.
Definition fhalf : float := pow2 (-1).

(** [np.pi = 0x1.921fb54442d18p+1]. *)
Definition np_pi : float := S754_finite false 7074237752028440 (-51).

Definition is_nan (x : float) : bool :=
  match x with S754_nan => true | _ => false end.

(** [np.isinf]: either infinity. *)
Definition is_inf (x : float) : bool :=
  match x with S754_infinity _ => true | _ => false end.

(** [np.isfinite]: neither NaN nor an infinity. *)
Definition is_finite (x : float) : bool :=
  match x with S754_zero _ | S754_finite _ _ _ => true | _ => false end.

Definition is_zero (x : float) : bool :=
  match x with S754_zero _ => true | _ => false end.

(** A float the hardware can hold: canonical mantissa, exponent in range. *)
Definition valid (x : float) : bool := valid_binary prec emax x.

(** [x >= 0] or NaN: what a product of non-negative factors can be. *)
Definition nonneg_or_nan (x : float) : bool := is_nan x || (f0 <=? x)%f64.

(** The sign bit is clear, or the number is NaN. *)
Definition sign_clear (x : float) : bool :=
  match x with
  | S754_nan => true
  | S754_zero s | S754_infinity s | S754_finite s _ _ => negb s
  end.

(** ** Python outcomes

    A call returns a value, raises an exception, or raises [SystemExit]
    through [sys.exit(code)], which ends the interpreter unless a caller
    intercepts it. *)

Inductive exn : Type :=
  | ValueError
  | IndexError
  | OverflowError
  | RuntimeError
  | ZeroDivisionError.

Inductive outcome (A : Type) : Type :=
  | Return (a : A)
  | Raise (e : exn)
  | SysExit (code : Z).
Arguments Return {A} a.
Arguments Raise {A} e.
Arguments SysExit {A} code.

Definition bind {A B : Type} (m : outcome A) (k : A -> outcome B) : outcome B :=
  match m with
  | Return a => k a
  | Raise e => Raise e
  | SysExit c => SysExit c
  end.

Notation "'let*' x ':=' m 'in' k" := (bind m (fun x => k))
  (at level 10, x name, m at level 100, k at level 200, only parsing).

(** [a[i]] on a one-dimensional array, for [0 <= i]: [IndexError] past the end. *)
Definition index {A : Type} (a : list A) (i : nat) : outcome A :=
  match a !! i with
  | Some x => Return x
  | None => Raise IndexError
  end.

(** [x / y] on Python floats: a zero divisor raises. *)
Definition py_div (x y : float) : outcome float :=
  if is_zero y then Raise ZeroDivisionError else Return (x / y)%f64.

(** ** NumPy array primitives *)

(** [np.sum]: the elements are accumulated from the left.  (NumPy adds long
    arrays pairwise, which can change the last bit of the result and nothing
    else that is stated below.) *)
Definition np_sum (a : list float) : float := fold_left fadd a f0.

(** [np.mean]: the sum over the length; NaN for an empty array. *)
Definition np_mean (a : list float) : float := (np_sum a / of_nat (length a))%f64.

(** [np.arange(n)] as floats. *)
Definition arange (n : nat) : list float := map of_nat (seq 0 n).

(** [np.linspace(0, stop, num, endpoint)]: [arange(num) * step], the step
    being [stop / div] with [div = num - 1] or [num]; a zero step multiplies
    after dividing; with [endpoint] the last sample is [stop] itself. *)
Definition linspace0 (stop : float) (num : nat) (endpoint : bool) : list float :=
  let div := if endpoint then (num - 1)%nat else num in
  let delta := (stop - f0)%f64 in
  let y := arange num in
  let y :=
    match div with
    | O => map (fun v => v * delta)%f64 y
    | _ =>
        let step := (delta / of_nat div)%f64 in
        if feqb step f0
        then map (fun v => (v / of_nat div) * delta)%f64 y
        else map (fun v => v * step)%f64 y
    end in
  let y := map (fun v => v + f0)%f64 y in
  if endpoint && (1 <? num)%nat then <[(num - 1)%nat := stop]> y else y.

(** [np.fft.fftshift] on one axis: a roll by [n // 2]. *)
Definition fftshift {A : Type} (a : list A) : list A :=
  let n := length a in
  let s := (n / 2)%nat in
  drop (n - s) a ++ take (n - s) a.

(** ** The libraries outside the repository *)

(** The C math library as NumPy, SciPy and Python expose it: [np.exp], the
    power operator on floats, [scipy.special.i0] (the modified Bessel
    function of order zero) and [hypot], which is [np.abs] on a complex. *)
Class Libm : Type := {
  np_exp : float -> float;
  np_power : float -> float -> float;
  sp_i0 : float -> float;
  np_hypot : float -> float -> float;
}.

(** What the theorems need of it: NaN goes through, [exp] of a zero is one,
    and [exp] and [I0] never return a negative number. *)
Class LibmLaws (L : Libm) : Prop := {
  exp_nan : np_exp nan = nan;
  exp_zero : forall s, np_exp (S754_zero s) = f1;
  exp_nonneg : forall x, nonneg_or_nan (np_exp x) = true;
  i0_nan : sp_i0 nan = nan;
  i0_nonneg : forall x, nonneg_or_nan (sp_i0 x) = true;
  hypot_nan : np_hypot nan nan = nan;
}.

(** [scipy.stats.kstest(ts, 'expon').statistic] and
    [scipy.stats.anderson(ts, 'expon').statistic], on a non-empty sample. *)
Class SciPyStats : Type := {
  kstest_expon : list float -> float;
  anderson_expon : list float -> float;
}.

(** [scipy.optimize.curve_fit(f, xdata, ydata, bounds=(lower, upper))]: the
    optimal parameters, or the exception it raises ([RuntimeError] when the
    least-squares iteration does not converge).  The model [f] takes the
    abscissae and the parameter vector. *)
Class SciPyOptimize : Type := {
  curve_fit :
    (list float -> list float -> outcome (list float)) ->
    list float -> list float -> list float * list float ->
    outcome (list float);
}.

(** ** blscint/diag_stats.py *)

(** [np.correlate(a, a, 'full')[-len(a):]]: lag [k] is the sum over [n] of
    [a[n+k] * a[n]], lags [0 .. len(a)-1]; an empty array is refused. *)
Definition dot (a v : list float) : float :=
  np_sum (zip_with fmul a v).

Definition correlate_full_tail (a : list float) : outcome (list float) :=
  match a with
  | [] => Raise ValueError
  | _ => Return (map (fun k => dot (drop k a) a) (seq 0 (length a)))
  end.

(** An intensity series as the functions take it: a NumPy array, or a setigen
    [TimeSeries], which carries its sampling interval. *)
Inductive series : Type :=
  | ndarray (a : list float)
  | TimeSeries (a : list float) (dt : float).

Definition array_of (ts : series) : list float :=
  match ts with ndarray a | TimeSeries a _ => a end.

(** The array [autocorr] divides: the centred series correlated with itself,
    lag 0 overwritten by lag 1 when [remove_spike]. *)
Definition raw_acf (ts : series) (remove_spike : bool) : outcome (list float) :=
  let ts := array_of ts in
  let ts := map (fun x => x - np_mean ts)%f64 ts in
  let* acf := correlate_full_tail ts in
  if remove_spike
  then let* a1 := index acf 1 in Return (<[0%nat := a1]> acf)
  else Return acf.

(** [autocorr(ts, remove_spike)]. *)
Definition autocorr (ts : series) (remove_spike : bool) : outcome (list float) :=
  let* acf := raw_acf ts remove_spike in
  let* a0 := index acf 0 in
  Return (map (fun x => x / a0)%f64 acf).

(** [triangle(x, L)], elementwise. *)
Definition triangle (x : list float) (L : float) : list float :=
  map (fun v => if (fabs v <=? L)%f64 then (f1 - fabs v / L)%f64 else f0) x.

(** [scint_acf(x, t_d, pow)], elementwise. *)
Definition scint_acf `{Libm} (x : list float) (t_d pow : float) : list float :=
  map (fun v => np_exp (- (np_power (fabs (v / t_d)) pow))%f64) x.

(** [scipy.signal.unit_impulse(n)]: one at index 0; nothing to index in an
    empty array. *)
Definition unit_impulse (n : nat) : outcome (list float) :=
  match n with
  | O => Raise IndexError
  | S k => Return (f1 :: replicate k f0)
  end.

(** [noisy_scint_acf(x, t_d, A, W, pow, use_triangle)]. *)
Definition noisy_scint_acf `{Libm} (x : list float) (t_d A W pow : float)
    (use_triangle : bool) : outcome (list float) :=
  let* factor :=
    if use_triangle
    then
      let* x1 := index x 1 in
      let* x0 := index x 0 in
      Return (triangle x (of_nat (length x) * (x1 - x0))%f64)
    else Return (replicate (length x) f1) in
  let* imp := unit_impulse (length x) in
  Return (zip_with fadd
            (zip_with fmul (map (fmul A) (scint_acf x t_d pow)) factor)
            (map (fmul W) imp)).

(** [noisy_scint_acf_gen(pow, use_triangle)]: the model with its exponent
    and taper fixed, as [curve_fit] calls it, on the abscissae and the
    parameter vector [(t_d, A, W)]. *)
Definition noisy_scint_acf_gen `{Libm} (pow : float) (use_triangle : bool)
    : list float -> list float -> outcome (list float) :=
  fun x p =>
    let* t_d := index p 0 in
    let* A := index p 1 in
    let* W := index p 2 in
    noisy_scint_acf x t_d A W pow use_triangle.

(** [fit_acf(acf, pow, use_triangle, remove_spike)]. *)
Definition fit_acf `{Libm} `{SciPyOptimize} (acf : list float) (pow : float)
    (use_triangle remove_spike : bool) : outcome (list float) :=
  let n := of_nat (length acf) in
  if remove_spike
  then
    let t_acf_func x p :=
      let* t_d := index p 0 in noisy_scint_acf x t_d f1 f0 pow use_triangle in
    let* popt := curve_fit t_acf_func (drop 1 (arange (length acf))) (drop 1 acf)
                   ([f0], [n]) in
    let* p0 := index popt 0 in
    Return [p0; f1; f0]
  else
    let t_acf_func x p :=
      let* t_d := index p 0 in
      let* A := index p 1 in
      let* W := index p 2 in
      noisy_scint_acf x t_d A W pow use_triangle in
    curve_fit t_acf_func (arange (length acf)) acf ([f0; f0; f0], [n; f1; f1]).

(** [np.std]: the root of the mean squared deviation from the mean. *)
Definition np_std (a : list float) : float :=
  let m := np_mean a in
  fsqrt (np_mean (map (fun x => fabs (x - m) * fabs (x - m))%f64 a)).

(** [np.min]: the least element, NaN as soon as one is met; an empty array
    is refused. *)
Definition np_min (a : list float) : outcome float :=
  match a with
  | [] => Raise ValueError
  | x :: a' =>
      Return (fold_left (fun m y => if (m <? y)%f64 || is_nan m then m else y) a' x)
  end.

(** A value stored in the statistics dictionary. *)
Inductive pyval : Type :=
  | PyNone
  | PyFloat (x : float)
  | PyInt (n : Z).

(** [get_diag_stats(ts, dt, pow, use_triangle)]: the dictionary is built key
    by key; a [RuntimeError] of the fit, and nothing else, is replaced by
    three NaN. *)
Definition get_diag_stats `{Libm} `{SciPyStats} `{SciPyOptimize}
    (ts : series) (dt : option float) (pow : float) (use_triangle : bool)
    : outcome (gmap string pyval) :=
  let dt := match ts with TimeSeries _ d => Some d | ndarray _ => dt end in
  let a := array_of ts in
  let diag_stats : gmap string pyval := ∅ in
  let diag_stats := <["std" := PyFloat (np_std a)]> diag_stats in
  let* m := np_min a in
  let diag_stats := <["min" := PyFloat m]> diag_stats in
  let relu_ts := a in
  let diag_stats := <["ks" := PyFloat (kstest_expon relu_ts)]> diag_stats in
  let diag_stats := <["anderson" := PyFloat (anderson_expon relu_ts)]> diag_stats in
  let* ac := autocorr (ndarray a) false in
  let* lag1 := index ac 1 in
  let diag_stats := <["lag1" := PyFloat lag1]> diag_stats in
  let* lag2 := index ac 2 in
  let diag_stats := <["lag2" := PyFloat lag2]> diag_stats in
  let* popt :=
    match fit_acf ac pow use_triangle false with
    | Raise RuntimeError => Return [nan; nan; nan]
    | r => r
    end in
  let* p0 := index popt 0 in
  let diag_stats := <["fit_t_d" := PyFloat p0]> diag_stats in
  let* p1 := index popt 1 in
  let diag_stats := <["fit_A" := PyFloat p1]> diag_stats in
  let* p2 := index popt 2 in
  let diag_stats := <["fit_W" := PyFloat p2]> diag_stats in
  let diag_stats :=
    match dt with
    | Some d => <["fit_t_d" := PyFloat (p0 * d)%f64]> diag_stats
    | None => diag_stats
    end in
  Return diag_stats.

(** [empty_diag_stats(fchans)]. *)
Definition empty_diag_stats (fchans : Z) : gmap string pyval :=
  <["std" := PyNone]> (<["min" := PyNone]> (<["ks" := PyNone]>
  (<["anderson" := PyNone]> (<["lag1" := PyNone]> (<["lag2" := PyNone]>
  (<["fchans" := PyInt fchans]> (<["l" := PyNone]> (<["r" := PyNone]>
  (<["fit_t_d" := PyNone]> (<["fit_A" := PyNone]> (<["fit_W" := PyNone]>
  ∅))))))))))).

(** The field set of the [DiagnosticRecord] schema, and its statistical part. *)
Definition stat_fields : gset string :=
  {[ "std"; "min"; "ks"; "anderson"; "lag1"; "lag2"; "fit_t_d"; "fit_A"; "fit_W" ]}.

Definition record_fields : gset string :=
  stat_fields ∪ {[ "fchans"; "l"; "r" ]}.

(** ** blscint/gen_pdf.py *)

(** NumPy's legacy global generator, the state behind [np.random.*]:
    [np.random.exponential()] and [np.random.choice(np.arange(n), p=p)],
    each reading and advancing the hidden state. *)
Class RandomState : Type := {
  rstate : Type;
  rs_exponential : rstate -> float * rstate;
  rs_choice : nat -> list float -> rstate -> outcome nat * rstate;
}.

(** [choice] returns one of the [n] entries, and refuses probabilities among
    which there is a NaN. *)
Class RandomStateLaws (R : RandomState) : Prop := {
  choice_lt : forall n p s k s', rs_choice n p s = (Return k, s') -> (k < n)%nat;
  choice_nan : forall n p s,
    existsb is_nan p = true -> fst (rs_choice n p s) = Raise ValueError;
}.

(** [blscint/factors.py] is not among the sources: its constant [hwem_m],
    which scales a half width at 1/e into a standard deviation, is a
    parameter. *)
Class Factors : Type := { hwem_m : float }.

(** [setigen.funcs.func_utils.gaussian(x, mean, std)]: the unit-amplitude
    Gaussian [exp(-0.5 * ((x - mean) / std) ** 2)]. *)
Definition gaussian `{Libm} (x x_mean x_std : float) : float :=
  np_exp (- fhalf * np_power ((x - x_mean) / x_std) f2)%f64.

(** [ndarray.argmin()]: the first least element, a NaN counting as least;
    an empty array is refused. *)
Definition argmin_step (st : float * nat * nat) (y : float) : float * nat * nat :=
  let '(mp, at_, i) := st in
  if is_nan mp then (mp, at_, S i)
  else if negb (y >=? mp)%f64 then (y, i, S i)
  else (mp, at_, S i).

Definition np_argmin (a : list float) : outcome nat :=
  match a with
  | [] => Raise ValueError
  | x :: a' => Return (snd (fst (fold_left argmin_step a' (x, O, 1%nat))))
  end.

(** [find_nearest(arr, val)]. *)
Definition find_nearest (arr : list float) (val : float) : outcome nat :=
  np_argmin (map (fun x => fabs (x - val)%f64) arr).

(** The argument of the Bessel function, and the two closed forms of the
    joint density, as [bpdf] writes them. *)
Definition bessel_arg (g1 g2 ac : float) : float :=
  (f2 * fsqrt (g1 * g2 * ac) / (f1 - ac))%f64.

Definition bpdf_asymptotic `{Libm} (g1 ac g2 : float) : float :=
  (f1 / (f1 - ac)
   * np_exp ((- (g1 + g2) + f2 * fsqrt (g1 * g2 * ac)) / (f1 - ac))
   * fsqrt (f4 * np_pi * fsqrt (g1 * g2 * ac) / (f1 - ac)))%f64.

Definition bpdf_primary `{Libm} (g1 ac g2 i_factor : float) : float :=
  (f1 / (f1 - ac) * np_exp (- (g1 + g2) / (f1 - ac)) * i_factor)%f64.

(** [bpdf(g1, g2, ac)] with [g2] an array, as the sampler calls it. *)
Definition bpdf `{Libm} (g1 : float) (g2 : list float) (ac : float) : list float :=
  let i_factor := map (fun g => sp_i0 (bessel_arg g1 g ac)) g2 in
  if existsb is_inf i_factor
  then map (bpdf_asymptotic g1 ac) g2
  else zip_with (bpdf_primary g1 ac) g2 i_factor.

(** [int(np.ceil(x))]: NaN and the infinities have no integer. *)
Definition int_ceil (x : float) : outcome Z :=
  match x with
  | S754_nan => Raise ValueError
  | S754_infinity _ => Raise OverflowError
  | S754_zero _ => Return 0%Z
  | S754_finite s m e =>
      let v := if s then Z.neg m else Z.pos m in
      Return (match e with
              | Z.neg k => (- ((- v) / 2 ^ Z.pos k))%Z
              | _ => (v * 2 ^ e)%Z
              end)
  end.

(** The rejection loop [while init_g > max_g: init_g = np.random.exponential()].
    [fuel] bounds the number of draws; [None] when it does not suffice. *)
Fixpoint draw_init `{RandomState} (fuel : nat) (max_g init_g : float) (s : rstate)
    : option (float * rstate) :=
  if (init_g >? max_g)%f64
  then
    match fuel with
    | O => None
    | S fuel' =>
        let '(g, s') := rs_exponential s in draw_init fuel' max_g g s'
    end
  else Some (init_g, s).

(** [possible_g[ts_idx]]: indexing by an array of indices. *)
Fixpoint take_idx {A : Type} (a : list A) (idx : list nat) : outcome (list A) :=
  match idx with
  | [] => Return []
  | k :: idx' =>
      let* x := index a k in
      let* r := take_idx a idx' in
      Return (x :: r)
  end.

(** The chain, [for i in range(1, num_samples)], over the remaining values
    of [i].  Whatever [np.random.choice] raises is caught by the bare
    [except], which prints [i] and calls [sys.exit(1)]. *)
Fixpoint chain `{Libm} `{RandomState} (possible_g ac_arr : list float) (steps : nat)
    (range : list nat) (ts_idx : list nat) (s : rstate)
    : outcome (list nat) * rstate :=
  match range with
  | [] => (Return ts_idx, s)
  | i :: range' =>
      let arg :=
        let* k := index ts_idx (i - 1) in
        let* g1 := index possible_g k in
        let* ac := index ac_arr 1 in
        Return (bpdf g1 possible_g ac) in
      match arg with
      | Return raw_p =>
          let p := map (fun x => x / np_sum raw_p)%f64 raw_p in
          match rs_choice steps p s with
          | (Return k, s') => chain possible_g ac_arr steps range' (<[i := k]> ts_idx) s'
          | (_, s') => (SysExit 1, s')
          end
      | Raise e => (Raise e, s)
      | SysExit c => (SysExit c, s)
      end
  end.

(** [get_ts_pdf(t_d, dt, num_samples, max_g, steps)], started in state [s]
    of the global generator; the state it leaves is returned with the
    outcome. *)
Definition get_ts_pdf `{Libm} `{RandomState} `{Factors} (fuel : nat)
    (t_d dt : float) (num_samples : nat) (max_g : float) (steps : nat) (s : rstate)
    : option (outcome (list float) * rstate) :=
  match (let* r := py_div t_d dt in py_div r hwem_m) with
  | Return sigma =>
      let ac_arr := map (fun x => gaussian x f0 sigma) (arange steps) in
      let possible_g := linspace0 max_g steps false in
      let ts_idx := replicate num_samples O in
      match draw_init fuel max_g (max_g + f1)%f64 s with
      | None => None
      | Some (init_g, s) =>
          let before_loop :=
            let* k := find_nearest possible_g init_g in
            let* _ := index ts_idx 0 in
            let ts_idx := <[0%nat := k]> ts_idx in
            let* r := py_div t_d dt in
            let* update_freq := int_ceil r in
            Return ts_idx in
          match before_loop with
          | Return ts_idx =>
              match chain possible_g ac_arr steps (seq 1 (num_samples - 1)) ts_idx s with
              | (Return ts_idx, s) => Some (take_idx possible_g ts_idx, s)
              | (Raise e, s) => Some (Raise e, s)
              | (SysExit c, s) => Some (SysExit c, s)
              end
          | Raise e => Some (Raise e, s)
          | SysExit c => Some (SysExit c, s)
          end
      end
  | Raise e => Some (Raise e, s)
  | SysExit c => Some (SysExit c, s)
  end.

(** ** blscint/simulations/timeseries/fft.py *)

(** [complex128]: a pair of binary64 numbers. *)
Record complex : Type := Complex { re : float; im : float }.

Definition of_real (x : float) : complex := Complex x f0.

Definition cadd (a b : complex) : complex :=
  Complex (re a + re b)%f64 (im a + im b)%f64.

Definition cmul (a b : complex) : complex :=
  Complex (re a * re b - im a * im b)%f64 (re a * im b + im a * re b)%f64.

(** NumPy's complex division (Smith's method). *)
Definition cdiv (a b : complex) : complex :=
  let in2r_abs := fabs (re b) in
  let in2i_abs := fabs (im b) in
  if (in2r_abs >=? in2i_abs)%f64
  then
    if is_zero in2r_abs && is_zero in2i_abs
    then Complex (re a / in2r_abs)%f64 (im a / in2r_abs)%f64
    else
      let rat := (im b / re b)%f64 in
      let scl := (f1 / (re b + im b * rat))%f64 in
      Complex ((re a + im a * rat) * scl)%f64 ((im a - re a * rat) * scl)%f64
  else
    let rat := (re b / im b)%f64 in
    let scl := (f1 / (im b + re b * rat))%f64 in
    Complex ((re a * rat + im a) * scl)%f64 ((im a * rat - re a) * scl)%f64.

(** [np.fft.fft] and [np.fft.ifft] on a non-empty one-dimensional array. *)
Class NumpyFFT : Type := {
  np_fft : list complex -> list complex;
  np_ifft : list complex -> list complex;
}.

Definition both_nan (z : complex) : bool := is_nan (re z) && is_nan (im z).

(** The transforms keep the length, and every output of the inverse
    transform is a sum over all inputs: one NaN input makes them all NaN. *)
Class NumpyFFTLaws (F : NumpyFFT) : Prop := {
  fft_length : forall a, length (np_fft a) = length a;
  ifft_length : forall a, length (np_ifft a) = length a;
  ifft_nan : forall a, existsb both_nan a = true -> forallb both_nan (np_ifft a) = true;
}.

(** A [np.random.Generator]: seeding, and [standard_normal(n)]. *)
Class Generator : Type := {
  gen : Type;
  seed_gen : Z -> gen;
  standard_normal : nat -> gen -> list float * gen;
}.

Class GeneratorLaws (G : Generator) : Prop := {
  standard_normal_length : forall n g, length (fst (standard_normal n g)) = n;
}.

(** The [seed] argument: [None], an [int], or a generator. *)
Inductive seed_arg `{Generator} : Type :=
  | SeedNone
  | SeedInt (n : Z)
  | SeedGen (g : gen).

(** [np.random.default_rng(seed)]; with [None] the generator is seeded from
    the operating system's entropy, an input of the model. *)
Definition default_rng `{Generator} (entropy : Z) (seed : seed_arg) : gen :=
  match seed with
  | SeedNone => seed_gen entropy
  | SeedInt n => seed_gen n
  | SeedGen g => g
  end.

(** [x ** y] on Python floats: an overflowing result raises. *)
Definition py_pow `{Libm} (x y : float) : outcome float :=
  let r := np_power x y in
  if is_inf r && is_finite x && is_finite y then Raise OverflowError else Return r.

(** The lag axis: [fftshift(linspace(0, n - 1, n) - n / 2)]. *)
Definition fft_lags (num_samples : nat) : list float :=
  let half := (of_nat num_samples / f2)%f64 in
  fftshift (map (fun l => l - half)%f64
              (linspace0 (of_Z (Z.of_nat num_samples - 1)) num_samples true)).

(** The target power spectrum: the real part of the transform of the model
    autocorrelation at the corrected timescale. *)
Definition fft_spectrum `{Libm} `{NumpyFFT} (t_d dt : float) (num_samples : nat)
    (pow : float) : outcome (list float) :=
  let* r := py_div t_d dt in
  let* inv := py_div f1 pow in
  let* corr := py_pow f2 inv in
  match num_samples with
  | O => Raise ValueError
  | _ =>
      Return (map re (np_fft (map of_real
                (scint_acf (fft_lags num_samples) (r * corr)%f64 pow))))
  end.

(** What follows the spectrum: the noise is shaped by its square root, taken
    as it is, transformed back and squared. *)
Definition fft_intensity `{Libm} `{NumpyFFT} (noise : list complex)
    (spectrum : list float) : list float :=
  let shaped := zip_with cmul noise (map (fun x => of_real (fsqrt x)) spectrum) in
  let I := map (fun z => let a := np_hypot (re z) (im z) in a * a)%f64 (np_ifft shaped) in
  map (fun x => x / np_mean I)%f64 I.

(** [get_ts_fft(t_d, dt, num_samples, pow, seed)]. *)
Definition get_ts_fft `{Libm} `{NumpyFFT} `{Generator} (entropy : Z)
    (t_d dt : float) (num_samples : nat) (pow : float) (seed : seed_arg)
    : outcome (list float) * gen :=
  let rng := default_rng entropy seed in
  let '(a, rng) := standard_normal num_samples rng in
  let '(b, rng) := standard_normal num_samples rng in
  let noise :=
    map (fun z => cdiv z (of_real (fsqrt f2)))
      (zip_with cadd (map of_real a) (map (fun x => cmul (Complex f0 f1) (of_real x)) b)) in
  (let* spectrum := fft_spectrum t_d dt num_samples pow in
   Return (fft_intensity noise spectrum), rng).

(** ** Executable instances of the interfaces

    Stand-ins that let the model run on concrete inputs.  The elementary
    functions are series summed in 128-bit fixed point and rounded once to
    binary64, with the special values of the C library; the transforms are
    the defining sums; the generators are small congruential ones, not
    NumPy's streams.  No theorem below is about these instances alone: each
    is stated for every instance that satisfies the laws. *)

Module Ref.

Definition P : Z := 128.
Definition one : Z := 2 ^ P.

(** [floor(ln 2 * 2^128)] and [floor(pi * 2^128)]. *)
Definition LN2 : Z := 235865763225513294137944142764154484399.
Definition PI : Z := 1069028584064966747859680373161870783300.

(** [floor(x * 2^128)] of a finite [x]. *)
Definition to_fix (x : float) : Z :=
  match x with
  | S754_finite s m e => Z.shiftl (if s then Z.neg m else Z.pos m) (e + P)
  | _ => 0
  end.

(** The binary64 number nearest to [v / 2^128]. *)
Definition of_fix (v : Z) : float := binary_normalize prec emax v (- P) false.

(** [acc + sum over k <= j < k + n] of [term * r^(j-k+1) / (k * ... * j)],
    in fixed point. *)
Fixpoint exp_series (n : nat) (k : Z) (term acc r : Z) : Z :=
  match n with
  | O => acc
  | S n' =>
      let term' := (Z.shiftr (term * r) P / k)%Z in
      exp_series n' (k + 1)%Z term' (acc + term')%Z r
  end.

(** [exp(X / 2^128)], rounded: [X = k ln 2 + r] with [0 <= r < ln 2]. *)
Definition exp_fix (X : Z) : float :=
  let k := (X / LN2)%Z in
  let r := (X - k * LN2)%Z in
  binary_round prec emax false (Z.to_pos (exp_series 40 1 one one r)) (k - P).

Definition exp (x : float) : float :=
  match x with
  | S754_nan => nan
  | S754_infinity false => pinf
  | S754_infinity true => f0
  | S754_zero _ => f1
  | S754_finite _ _ _ =>
      if (of_Z 710 <? x)%f64 then pinf
      else if (x <? of_Z (-746))%f64 then f0
      else exp_fix (to_fix x)
  end.

(** [sum over j < n] of [z^(2j+1) / (2j+1)], in fixed point. *)
Fixpoint atanh_series (n : nat) (k : Z) (zpow z2 acc : Z) : Z :=
  match n with
  | O => acc
  | S n' =>
      atanh_series n' (k + 2)%Z (Z.shiftr (zpow * z2) P) z2 (acc + zpow / k)%Z
  end.

(** [ln(m * 2^e) * 2^128]: the mantissa scaled into [1, 2), then
    [ln y = 2 atanh((y - 1) / (y + 1))]. *)
Definition ln_fix (m : positive) (e : Z) : Z :=
  let d := Z.pos (digits2_pos m) in
  let y := Z.shiftl (Z.pos m) (P - (d - 1)) in
  let z := ((y - one) * one / (y + one))%Z in
  ((e + d - 1) * LN2 + 2 * atanh_series 50 1 z (Z.shiftr (z * z) P) 0)%Z.

Definition ln (x : float) : float :=
  match x with
  | S754_nan => nan
  | S754_zero _ => ninf
  | S754_infinity false => pinf
  | S754_infinity true => nan
  | S754_finite true _ _ => nan
  | S754_finite false m e => of_fix (ln_fix m e)
  end.

(** [x ** y] for the bases the repository raises to a power (an absolute
    value, or 2): the exact cases first, then [exp(y ln x)]. *)
Definition power (x y : float) : float :=
  if is_nan x || is_nan y then (if is_zero y || feqb x f1 then f1 else nan)
  else if is_zero y || feqb x f1 then f1
  else if feqb y f1 then x
  else if feqb y f2 then (x * x)%f64
  else if feqb y fhalf then fsqrt (fabs x)
  else
    match x, y with
    | S754_zero _, _ => if (y <? f0)%f64 then pinf else f0
    | S754_infinity false, _ => if (y <? f0)%f64 then f0 else pinf
    | S754_finite false m e, S754_infinity s =>
        if xorb s (x <? f1)%f64 then pinf else f0
    | S754_finite false m e, S754_finite _ _ _ =>
        let X := Z.shiftr (to_fix y * ln_fix m e) P in
        if (710 * one <? X)%Z then pinf
        else if (X <? -746 * one)%Z then f0
        else exp_fix X
    | _, _ => nan
    end.

(** [sum over k] of [(x^2 / 4)^k / (k!)^2], in fixed point. *)
Fixpoint i0_series (n : nat) (k : Z) (term acc q : Z) : Z :=
  match n with
  | O => acc
  | S n' =>
      let term' := (Z.shiftr (term * q) P / (k * k))%Z in
      i0_series n' (k + 1)%Z term' (acc + term')%Z q
  end.

(** [scipy.special.i0]: even, and infinite as soon as [exp] of the argument
    overflows (the C routine multiplies by it). *)
Definition i0 (x : float) : float :=
  match x with
  | S754_nan => nan
  | S754_infinity _ => pinf
  | S754_zero _ => f1
  | S754_finite _ m e =>
      let a := S754_finite false m e in
      if is_inf (exp a) then pinf
      else
        let X := to_fix a in
        let q := Z.shiftr (X * X) (P + 2) in
        let n := Z.to_nat (2 * Z.shiftr X P + 60) in
        binary_round prec emax false (Z.to_pos (i0_series n 1 one one q)) (- P)
  end.

Definition hypot (a b : float) : float :=
  if is_inf a || is_inf b then pinf else fsqrt (a * a + b * b)%f64.

#[global] Instance libm : Libm :=
  {| np_exp := exp; np_power := power; sp_i0 := i0; np_hypot := hypot |}.

(** [blscint.factors.hwem_m] taken as the square root of two: the half
    width at 1/e of a unit Gaussian, in standard deviations. *)
#[global] Instance factors : Factors := {| hwem_m := fsqrt f2 |}.

(** [cos] and [sin] of [theta / 2^128], [0 <= theta < 2 pi], in fixed point:
    the two halves of the series of [exp(i theta)]. *)
Fixpoint cis_series (n : nat) (k : Z) (term c s theta : Z) : Z * Z :=
  match n with
  | O => (c, s)
  | S n' =>
      let t1 := (Z.shiftr (term * theta) P / k)%Z in
      let t2 := (Z.shiftr (t1 * theta) P / (k + 1))%Z in
      cis_series n' (k + 2)%Z (- t2)%Z (c - t2)%Z (s + t1)%Z theta
  end.

(** [exp(sign * 2 pi i * j / n)]: exact on the quarter turns. *)
Definition twiddle (inverse : bool) (n j : nat) : complex :=
  let j := (j mod n)%nat in
  let cs :=
    if (4 * j mod n =? 0)%nat
    then
      match (4 * j / n)%nat with
      | 0%nat => (f1, f0)
      | 1%nat => (f0, f1)
      | 2%nat => (- f1, f0)%f64
      | _ => (f0, - f1)%f64
      end
    else
      let theta := (2 * PI * Z.of_nat j / Z.of_nat n)%Z in
      let '(c, s) := cis_series 40 1 one one 0 theta in
      (of_fix c, of_fix s) in
  Complex (fst cs) (if inverse then snd cs else - snd cs)%f64.

(** The discrete Fourier transform as its defining sum. *)
Definition dft_term (inverse : bool) (n k : nat) (acc : complex) (jx : nat * complex)
    : complex :=
  cadd acc (cmul (snd jx) (twiddle inverse n (k * fst jx))).

Definition dft (inverse : bool) (a : list complex) : list complex :=
  let n := length a in
  map (fun k => fold_left (dft_term inverse n k) (zip (seq 0 n) a) (Complex f0 f0))
      (seq 0 n).

Definition scale (fct : float) (z : complex) : complex :=
  Complex (re z * fct)%f64 (im z * fct)%f64.

#[global] Instance fft : NumpyFFT :=
  {| np_fft := dft false;
     np_ifft := fun a => map (scale (f1 / of_nat (length a))%f64) (dft true a) |}.

(** A 64-bit linear congruential generator; a step yields 53 bits. *)
Definition lcg (s : Z) : Z :=
  ((s * 6364136223846793005 + 1442695040888963407) mod 2 ^ 64)%Z.

(** [k / 2^53] for [0 <= k < 2^53], exactly. *)
Definition u53 (k : Z) : float :=
  match k with
  | Z.pos m =>
      let d := Z.pos (digits2_pos m) in
      S754_finite false
        (match (53 - d)%Z with Z.pos sh => Pos.iter xO m sh | _ => m end) (d - 106)
  | _ => f0
  end.

(** A uniform draw from [[0, 1)]. *)
Definition uniform (s : Z) : float * Z :=
  let s' := lcg s in (u53 (s' / 2 ^ 11), s').

(** NumPy's compensated sum of the probabilities. *)
Definition kahan_step (st : float * float) (x : float) : float * float :=
  let '(sum, c) := st in
  let y := (x - c)%f64 in
  let t := (sum + y)%f64 in
  (t, (t - sum - y)%f64).

Definition kahan_sum (p : list float) : float :=
  match p with
  | [] => f0
  | x :: p' => fst (fold_left kahan_step p' (x, f0))
  end.

Definition cumsum (p : list float) : list float :=
  match p with
  | [] => []
  | x :: p' => x :: snd (fold_left (fun st y => let t := (fst st + y)%f64 in (t, snd st ++ [t])) p' (x, []))
  end.

(** [sqrt(finfo(float64).eps) = 2 ** -26]. *)
Definition atol : float := pow2 (-26).

(** [RandomState.choice(np.arange(n), p=p)]: the probabilities are checked,
    then the draw is located in their normalised cumulative sum, which is
    ascending: the index is the number of entries not above the draw. *)
Definition choice (n : nat) (p : list float) (s : Z) : outcome nat * Z :=
  let p_sum := kahan_sum p in
  if (n =? 0)%nat || negb (length p =? n)%nat then (Raise ValueError, s)
  else if is_nan p_sum then (Raise ValueError, s)
  else if existsb (fun x => x <? f0)%f64 p then (Raise ValueError, s)
  else if (fabs (p_sum - f1) >? atol)%f64 then (Raise ValueError, s)
  else
    let cdf := cumsum p in
    let cdf := map (fun c => c / List.last cdf f0)%f64 cdf in
    let '(u, s') := uniform s in
    (Return (length (List.filter (fun c => c <=? u)%f64 cdf)), s').

#[global] Instance random_state : RandomState :=
  {| rstate := Z;
     rs_exponential := fun s => let '(u, s') := uniform s in ((- ln (f1 - u))%f64, s');
     rs_choice := choice |}.

(** A state of the generator, from its 64 bits. *)
Definition state_of (z : Z) : @rstate random_state := z.

(** Normal deviates as twelve uniform draws summed, less six. *)
Fixpoint uniforms (n : nat) (s : Z) : list float * Z :=
  match n with
  | O => ([], s)
  | S n' => let '(u, s) := uniform s in let '(us, s) := uniforms n' s in (u :: us, s)
  end.

Fixpoint normals (n : nat) (s : Z) : list float * Z :=
  match n with
  | O => ([], s)
  | S n' =>
      let '(us, s) := uniforms 12 s in
      let '(xs, s) := normals n' s in
      ((np_sum us - of_Z 6)%f64 :: xs, s)
  end.

#[global] Instance generator : Generator :=
  {| gen := Z; seed_gen := fun n => (n mod 2 ^ 64)%Z; standard_normal := normals |}.

(** Insertion sort, ascending. *)
Fixpoint insert_sorted (x : float) (l : list float) : list float :=
  match l with
  | [] => [x]
  | y :: l' => if (x <=? y)%f64 then x :: l else y :: insert_sorted x l'
  end.

Definition sort (l : list float) : list float := fold_right insert_sorted [] l.

Definition fmax (x y : float) : float := if (x <? y)%f64 then y else x.

(** The distribution function of the unit exponential. *)
Definition expon_cdf (x : float) : float :=
  if (x <? f0)%f64 then f0 else (f1 - exp (- x))%f64.

(** The Kolmogorov-Smirnov distance of the sample to the unit exponential. *)
Definition kstest (a : list float) : float :=
  let n := of_nat (length a) in
  let c := map expon_cdf (sort a) in
  let i := seq 0 (length a) in
  let dplus := zip_with (fun k v => of_nat (S k) / n - v)%f64 i c in
  let dminus := zip_with (fun k v => v - of_nat k / n)%f64 i c in
  fold_left fmax (dplus ++ dminus) ninf.

(** The Anderson-Darling statistic of the sample, scaled by its mean,
    against the unit exponential. *)
Definition anderson (a : list float) : float :=
  let n := of_nat (length a) in
  let w := map (fun x => x / np_mean a)%f64 (sort a) in
  let logcdf := map (fun x => ln (expon_cdf x)) w in
  let logsf := map fopp w in
  let i := seq 1 (length a) in
  let terms := zip_with (fun k v => (f2 * of_nat k - f1) / n * v)%f64 i
                 (zip_with fadd logcdf (rev logsf)) in
  (- n - np_sum terms)%f64.

#[global] Instance stats : SciPyStats :=
  {| kstest_expon := kstest; anderson_expon := anderson |}.

(** A least-squares fit whose budget of function evaluations is spent
    before the first step: it evaluates the model once at the starting
    point, all ones as [curve_fit] takes it clipped to the bounds, and
    reports no convergence. *)
Definition clip (lo hi x : float) : float :=
  if (x <? lo)%f64 then lo else if (hi <? x)%f64 then hi else x.

Definition curve_fit_no_budget
    (f : list float -> list float -> outcome (list float))
    (xdata ydata : list float) (bounds : list float * list float)
    : outcome (list float) :=
  let p0 := zip_with (fun lo hi => clip lo hi f1) (fst bounds) (snd bounds) in
  let* _ := f xdata p0 in
  Raise RuntimeError.

#[global] Instance no_budget : SciPyOptimize := {| curve_fit := curve_fit_no_budget |}.

End Ref.

(** ** Sample inputs *)

(** A short intensity series of mean one: 0.5, 1.5, 1, 0.25, 1.75. *)
Definition sample_ts : list float :=
  map (fun z => of_Z z * pow2 (-2))%f64 [2; 6; 4; 1; 7]%Z.

Definition sample_acf : list float :=
  Eval vm_compute in
    match autocorr (ndarray sample_ts) false with Return ac => ac | _ => [] end.

(** The Kolmogorov exponent, [5/3] as Python rounds it. *)
Definition five_thirds : float := (of_Z 5 / of_Z 3)%f64.


(** ** Predicates of the statements *)

(** A probability mass vector that is all zero or holds a value that is not
    finite. *)
Definition degenerate (raw_p : list float) : bool :=
  forallb is_zero raw_p || existsb (fun x => negb (is_finite x)) raw_p.

(** Every point of the gain grid lies in [[0, max_g)]: what
    [np.linspace(0, max_g, steps, endpoint=False)] promises. *)
Definition grid_in_range (max_g : float) (steps : nat) : bool :=
  forallb (fun g => (f0 <=? g) && (g <? max_g))%f64 (linspace0 max_g steps false).

(** Two runs agree: the same outcome, and generator states related by
    [Rel]; or both want more fuel. *)
Definition same_run `{RandomState} (Rel : rstate -> rstate -> Prop)
    (r1 r2 : option (outcome (list float) * rstate)) : Prop :=
  match r1, r2 with
  | Some (o1, t1), Some (o2, t2) => o1 = o2 /\ Rel t1 t2
  | None, None => True
  | _, _ => False
  end.

(** Quarters: [z / 4] for each [z]. *)
Definition quarters (zs : list Z) : list float :=
  map (fun z => of_Z z * pow2 (-2))%f64 zs.

(** Two states of the executable generator with the same 64 bits. *)
Definition same_bits (s1 s2 : @rstate Ref.random_state) : Prop :=
  (s1 mod 2 ^ 64 = s2 mod 2 ^ 64)%Z.

(** The target spectrum of [get_ts_fft(10, 1, 4, pow=2)]. *)
Definition sample_spectrum : list float :=
  Eval vm_compute in
    match fft_spectrum (of_Z 10) f1 4 f2 with Return sp => sp | _ => [] end.

(** ** Further stand-ins for the optimizer *)

(** A least-squares fit whose tolerance is met at the starting point: the
    bounds are checked as [curve_fit] checks them, each lower bound strictly
    below its upper bound, the model is evaluated at the start, all ones
    clipped to the bounds, and the start is returned. *)
Definition curve_fit_at_start
    (f : list float -> list float -> outcome (list float))
    (xdata ydata : list float) (bounds : list float * list float)
    : outcome (list float) :=
  let '(lo, hi) := bounds in
  if (length lo =? length hi)%nat && forallb (fun b => fst b <? snd b)%f64 (combine lo hi)
  then
    let p0 := zip_with (fun lo hi => Ref.clip lo hi f1) lo hi in
    let* _ := f xdata p0 in
    Return p0
  else Raise ValueError.

Definition at_start : SciPyOptimize := {| curve_fit := curve_fit_at_start |}.

(** What a bounded fit promises: as many parameters as bounds, each within
    its bounds. *)
Class SciPyOptimizeLaws (O : SciPyOptimize) : Prop := {
  curve_fit_feasible : forall f xdata ydata lo hi popt,
    curve_fit f xdata ydata (lo, hi) = Return popt ->
    Forall2 (fun l p => (l <=? p)%f64 = true) lo popt /\
    Forall2 (fun p h => (p <=? h)%f64 = true) popt hi;
}.

(** [curve_fit] with its default [check_finite=True]: data that hold a NaN
    or an infinity are refused with [ValueError] before any fit. *)
Definition curve_fit_checked
    (f : list float -> list float -> outcome (list float))
    (xdata ydata : list float) (bounds : list float * list float)
    : outcome (list float) :=
  if forallb is_finite xdata && forallb is_finite ydata
  then Ref.curve_fit_no_budget f xdata ydata bounds
  else Raise ValueError.

Definition checked : SciPyOptimize := {| curve_fit := curve_fit_checked |}.

(** ** Predicates of the further statements *)

(** The sampling interval that scales the fitted timescale: the series' own
    when it is a [TimeSeries], the argument otherwise. *)
Definition effective_dt (ts : series) (dt : option float) : option float :=
  match ts with TimeSeries _ d => Some d | ndarray _ => dt end.

(** ** The order of the floats *)

(** The place of a number in the order of the floats: its class, then
    exponent and mantissa, mirrored for the negative numbers. *)
Definition rank (x : float) : Z * Z * Z :=
  match x with
  | S754_nan | S754_zero _ => (0, 0, 0)
  | S754_infinity true => (-2, 0, 0)
  | S754_infinity false => (2, 0, 0)
  | S754_finite true m e => (-1, - e, Z.neg m)
  | S754_finite false m e => (1, e, Z.pos m)
  end%Z.

Definition lex_compare (a b : Z * Z * Z) : comparison :=
  let '(a1, a2, a3) := a in
  let '(b1, b2, b3) := b in
  match (a1 ?= b1)%Z with
  | Eq => match (a2 ?= b2)%Z with Eq => (a3 ?= b3)%Z | c => c end
  | c => c
  end.

(** ** blscint/simulations/timeseries/dataset_generator.py *)

(** [get_ts_arta(t_d, dt, num_samples, p, pow, seed)] is not among the
    sources: it is a parameter, which draws from the generator it is given. *)
Class Arta `{Generator} : Type := {
  get_ts_arta :
    float -> float -> nat -> nat -> float -> gen -> outcome (list float) * gen;
}.

(** setigen's frames and [blscint/frame_processing.py] are not among the
    sources either.  [inject tchans df dt ts snr bw rng] stands for the frame
    built around the synthetic signal: [stg.Frame(fchans=256, ..., seed=rng)],
    [add_noise_from_obs()] and [add_signal(...)] with the series scaled to
    the signal-to-noise ratio; [extract_ts frame bound divide_std bw] for
    [frame_processing.extract_ts], which returns the extracted series with
    its bounding channels. *)
Class FrameProcessing `{Generator} : Type := {
  frame : Type;
  inject : nat -> float -> float -> list float -> float -> Z -> gen -> outcome frame * gen;
  extract_ts : frame -> string -> bool -> Z -> gen -> outcome (series * (Z * Z)) * gen;
}.

(** A [SignalGenerator]: its random generator and its frame metadata. *)
Record SignalGenerator `{Generator} : Type := {
  rng : gen;
  metadata_dt : float;
  metadata_df : float;
  metadata_tchans : nat;
}.

(** The keys [_single_trial] adds to the statistics of a series. *)
Definition trial_fields : gset string :=
  {[ "fchans"; "t_d"; "l"; "r"; "SNR"; "DriftRate" ]}.

(** [ts_stats.update({...})] of [_single_trial]. *)
Definition trial_update (fchans l r : pyval) (t_d snr : float)
    (ts_stats : gmap string pyval) : gmap string pyval :=
  <["DriftRate" := PyInt 0]> (<["SNR" := PyFloat snr]> (<["r" := r]>
  (<["l" := l]> (<["t_d" := PyFloat t_d]> (<["fchans" := fchans]> ts_stats))))).

(** [_single_trial(generator, t_d, snr, bw, injected, bound, gen_method, pow,
    divide_std, file_stem, save_ts, p)], the function and the method of the
    same body: the statistics and the series of one synthetic signal, either
    of them [None], and the generator as the trial leaves it.  An
    [IndexError] of the extraction, and nothing else, is turned into no
    series. *)
Definition _single_trial `{Libm} `{NumpyFFT} `{G : Generator} `{!Arta}
    `{!FrameProcessing} `{SciPyStats} `{SciPyOptimize}
    (generator : SignalGenerator) (t_d snr : float) (bw : Z) (injected : bool)
    (bound gen_method : string) (pow : float) (divide_std save_ts : bool)
    (p : option nat)
    : outcome (option (gmap string pyval) * option series) * gen :=
  let dt := metadata_dt generator in
  let tchans := metadata_tchans generator in
  let '(generated, rng) :=
    if String.eqb gen_method "arta" then
      let p := match p with None => (tchans / 4)%nat | Some p => p end in
      get_ts_arta t_d dt tchans p pow (rng generator)
    else if String.eqb gen_method "fft" then
      get_ts_fft 0 t_d dt tchans pow (SeedGen (rng generator))
    else (Raise ValueError, rng generator) in
  match generated with
  | Return ts =>
      let '(extracted, rng) :=
        if injected then
          match inject tchans (metadata_df generator) dt ts snr bw rng with
          | (Return fr, rng) =>
              match extract_ts fr bound divide_std bw rng with
              | (Return (ts, (l, r)), rng) =>
                  (Return (Some ts, PyInt l, PyInt r, PyInt 256), rng)
              | (Raise IndexError, rng) =>
                  (Return (None, PyNone, PyNone, PyInt 256), rng)
              | (Raise e, rng) => (Raise e, rng)
              | (SysExit c, rng) => (SysExit c, rng)
              end
          | (Raise e, rng) => (Raise e, rng)
          | (SysExit c, rng) => (SysExit c, rng)
          end
        else (Return (Some (ndarray ts), PyNone, PyNone, PyNone), rng) in
      (bind extracted (fun '(ts, l, r, fchans) =>
         let* ts_stats :=
           match ts with
           | Some ts =>
               let* ts_stats := get_diag_stats ts None five_thirds true in
               Return (Some (trial_update fchans l r t_d snr ts_stats))
           | None => Return None
           end in
         Return (ts_stats, if save_ts then ts else None)), rng)
  | Raise e => (Raise e, rng)
  | SysExit c => (SysExit c, rng)
  end.

(** Stand-ins for the code outside the sources: white intensity noise for
    the ARTA synthesizer, and a frame that holds the scaled signal, whose
    extraction finds no bounds below a signal-to-noise ratio of ten. *)
#[global] Instance arta_stand_in : @Arta Ref.generator :=
  {| get_ts_arta := fun t_d dt n p pow g =>
       let '(a, g) := standard_normal n g in (Return (map (fun x => x * x)%f64 a), g) |}.

#[global] Instance frame_stand_in : @FrameProcessing Ref.generator :=
  {| frame := list float * float;
     inject := fun tchans df dt ts snr bw g => (Return (map (fmul snr) ts, snr), g);
     extract_ts := fun fr bound divide_std bw g =>
       if (snd fr <? of_Z 10)%f64 then (Raise IndexError, g)
       else (Return (ndarray (map (fun x => x / snd fr)%f64 (fst fr)), (126, 130)%Z), g) |}.

(** A generator of frames of four time channels. *)
Definition sample_generator : @SignalGenerator Ref.generator :=
  {| rng := 1%Z; metadata_dt := f1; metadata_df := f1; metadata_tchans := 4 |}.

(** * Properties *)

(** ** Binary64 arithmetic on special values *)

Section FloatFacts.
Local Open Scope Z_scope.

Lemma fadd_nan_r (x : float) : fadd x nan = nan.
Proof. destruct x as [s|s| |s m e]; reflexivity. Qed.

Lemma fadd_nan_l (x : float) : fadd nan x = nan.
Proof. reflexivity. Qed.

Lemma fsub_nan_r (x : float) : fsub x nan = nan.
Proof. destruct x as [s|s| |s m e]; reflexivity. Qed.

Lemma fsub_nan_l (x : float) : fsub nan x = nan.
Proof. reflexivity. Qed.

Lemma fmul_nan_r (x : float) : fmul x nan = nan.
Proof. destruct x as [s|s| |s m e]; reflexivity. Qed.

Lemma fmul_nan_l (x : float) : fmul nan x = nan.
Proof. reflexivity. Qed.

Lemma fdiv_nan_r (x : float) : fdiv x nan = nan.
Proof. destruct x as [s|s| |s m e]; reflexivity. Qed.

Lemma fdiv_nan_l (x : float) : fdiv nan x = nan.
Proof. reflexivity. Qed.

Lemma is_nan_eq (x : float) : is_nan x = true -> x = nan.
Proof. destruct x; simpl; intros H; try discriminate H; reflexivity. Qed.

(** Division of a finite non-zero number by itself is exact: the quotient
    of the mantissas is a power of two with no remainder. *)
Lemma fdiv_self_finite (s : bool) (m : positive) (e : Z) :
  fdiv (S754_finite s m e) (S754_finite s m e) = f1.
Proof.
  unfold fdiv, SFdiv, SFdiv_core_binary.
  replace (Zdigits2 (Z.pos m) + e - (Zdigits2 (Z.pos m) + e)) with 0 by lia.
  replace (e - e) with 0 by lia.
  change (Z.min (fexp prec emax 0) 0) with (-53).
  change (0 - -53) with 53.
  cbv iota beta.
  rewrite Z.shiftl_mul_pow2 by lia.
  assert (Hq : Z.div_eucl (Z.pos m * 2 ^ 53) (Z.pos m) = (2 ^ 53, 0)).
  { pose proof (Z.div_eucl_eq (Z.pos m * 2 ^ 53) (Z.pos m)) as He.
    pose proof (Z.mod_pos_bound (Z.pos m * 2 ^ 53) (Z.pos m)) as Hb.
    unfold Z.modulo in Hb.
    destruct (Z.div_eucl (Z.pos m * 2 ^ 53) (Z.pos m)) as [q r].
    specialize (Hb ltac:(lia)). specialize (He ltac:(lia)).
    assert (q = 2 ^ 53) by nia. subst q. f_equal. lia. }
  rewrite Hq.
  assert (Hl : new_location (Z.pos m) 0 = loc_Exact).
  { unfold new_location. destruct (Z.even (Z.pos m)); reflexivity. }
  rewrite Hl. destruct s; vm_compute; reflexivity.
Qed.

(** Whatever [x] is, [x / x] is one or NaN. *)
Lemma fdiv_self (x : float) :
  fdiv x x = if is_finite x && negb (is_zero x) then f1 else nan.
Proof.
  destruct x as [s|s| |s m e]; try reflexivity.
  apply fdiv_self_finite.
Qed.

(** Division by a zero: NaN from a zero or a NaN, an infinity otherwise. *)
Lemma fdiv_zero (x z : float) :
  is_zero z = true ->
  fdiv x z = nan \/ is_inf (fdiv x z) = true.
Proof.
  destruct z as [sz|sz| |sz mz ez]; try discriminate. intros _.
  destruct x as [s|s| |s m e]; simpl; auto.
Qed.

Lemma fdiv_zero_zero (x z : float) :
  is_zero x = true -> is_zero z = true -> fdiv x z = nan.
Proof.
  destruct x as [s|s| |s m e]; try discriminate.
  destruct z as [sz|sz| |sz mz ez]; try discriminate. reflexivity.
Qed.

(** The square root of a negative number is NaN. *)
Lemma fsqrt_negative (x : float) : fltb x f0 = true -> fsqrt x = nan.
Proof.
  destruct x as [s|s| |s m e]; try discriminate.
  - destruct s; [reflexivity | discriminate].
  - destruct s; [reflexivity | discriminate].
Qed.

(** Rounding a positive mantissa never yields a negative number. *)
Lemma binary_round_aux_nonneg (m e : Z) (l : location) :
  nonneg_or_nan (binary_round_aux prec emax false m e l) = true.
Proof.
  unfold binary_round_aux.
  destruct (shr_fexp prec emax m e l) as [mrs' e'].
  destruct (shr_fexp prec emax _ e' loc_Exact) as [mrs'' e''].
  destruct (shr_m mrs''); try reflexivity.
  destruct (e'' <=? emax - prec); reflexivity.
Qed.

Lemma binary_round_nonneg (m : positive) (e : Z) :
  nonneg_or_nan (binary_round prec emax false m e) = true.
Proof.
  unfold binary_round.
  destruct (shl_align m e _) as [mz ez].
  apply binary_round_aux_nonneg.
Qed.

(** [x >= 0] or NaN, read off the constructor. *)
Lemma nonneg_or_nan_sign (x : float) :
  nonneg_or_nan x = true <->
  match x with
  | S754_nan | S754_zero _ => True
  | S754_infinity s | S754_finite s _ _ => s = false
  end.
Proof.
  destruct x as [s|s| |s m e]; try destruct s; vm_compute;
    split; intros; auto; discriminate.
Qed.

Lemma fmul_nonneg (x y : float) :
  nonneg_or_nan x = true -> nonneg_or_nan y = true ->
  nonneg_or_nan (fmul x y) = true.
Proof.
  rewrite !nonneg_or_nan_sign.
  destruct x as [s|s| |s m e], y as [t|t| |t n d]; intros Hx Hy; subst;
    try reflexivity; try (cbn; tauto).
  unfold fmul, SFmul. apply nonneg_or_nan_sign, binary_round_aux_nonneg.
Qed.

Lemma binary_round_aux_sign_clear (m e : Z) (l : location) :
  sign_clear (binary_round_aux prec emax false m e l) = true.
Proof.
  unfold binary_round_aux.
  destruct (shr_fexp prec emax m e l) as [mrs' e'].
  destruct (shr_fexp prec emax _ e' loc_Exact) as [mrs'' e''].
  destruct (shr_m mrs''); try reflexivity.
  destruct (e'' <=? emax - prec); reflexivity.
Qed.

(** Dividing by a number whose sign bit is clear keeps [x >= 0] or NaN. *)
Lemma fdiv_nonneg (x y : float) :
  nonneg_or_nan x = true -> sign_clear y = true ->
  nonneg_or_nan (fdiv x y) = true.
Proof.
  rewrite !nonneg_or_nan_sign.
  destruct x as [s|s| |s m e], y as [t|t| |t n d]; cbn [sign_clear];
    intros Hx Hy; subst; try apply negb_true_iff in Hy; subst;
    try reflexivity; try (cbn; tauto).
  unfold fdiv, SFdiv.
  destruct (SFdiv_core_binary prec emax (Z.pos m) e (Z.pos n) d) as [[mz ez] lz].
  apply nonneg_or_nan_sign, binary_round_aux_nonneg.
Qed.

Lemma fsqrt_nonneg (x : float) : nonneg_or_nan (fsqrt x) = true.
Proof.
  destruct x as [s|s| |s m e]; try destruct s; try reflexivity.
  unfold fsqrt, SFsqrt.
  destruct (SFsqrt_core_binary prec emax (Z.pos m) e) as [[mz ez] lz].
  apply binary_round_aux_nonneg.
Qed.
End FloatFacts.

(** ** Sums that meet a special value *)

Lemma np_sum_from_nan (a : list float) : fold_left fadd a nan = nan.
Proof. induction a as [|x a IH]; simpl; [reflexivity | exact IH]. Qed.

Lemma np_sum_has_nan (a : list float) (acc : float) :
  existsb is_nan a = true -> fold_left fadd a acc = nan.
Proof.
  revert acc. induction a as [|x a IH]; simpl; intros acc H; [discriminate|].
  apply orb_true_iff in H as [H|H].
  - apply is_nan_eq in H. subst x. rewrite fadd_nan_r. apply np_sum_from_nan.
  - apply IH, H.
Qed.

Lemma np_sum_zeros (a : list float) (acc : float) :
  is_zero acc = true -> forallb is_zero a = true ->
  is_zero (fold_left fadd a acc) = true.
Proof.
  revert acc. induction a as [|x a IH]; simpl; intros acc Hacc H; [exact Hacc|].
  apply andb_true_iff in H as [Hx H]. apply IH; [|exact H].
  destruct acc as [s|s| |s m e]; try discriminate.
  destruct x as [t|t| |t n d]; try discriminate.
  destruct s, t; reflexivity.
Qed.

(** A sum that has become infinite or NaN stays so. *)
Lemma np_sum_from_non_finite (a : list float) (acc : float) :
  is_finite acc = false -> is_finite (fold_left fadd a acc) = false.
Proof.
  revert acc. induction a as [|x a IH]; simpl; intros acc H; [exact H|].
  apply IH.
  destruct acc as [s|s| |s m e]; try discriminate;
    destruct x as [t|t| |t n d]; try destruct s; try destruct t; reflexivity.
Qed.

Lemma np_sum_has_non_finite (a : list float) (acc : float) :
  existsb (fun x => negb (is_finite x)) a = true ->
  is_finite (fold_left fadd a acc) = false.
Proof.
  revert acc. induction a as [|x a IH]; simpl; intros acc H; [discriminate|].
  apply orb_true_iff in H as [H|H]; [|apply IH, H].
  apply np_sum_from_non_finite.
  destruct x as [t|t| |t n d]; try discriminate;
    destruct acc as [s|s| |s m e]; try destruct s; try destruct t; reflexivity.
Qed.

(** A non-finite number over a non-finite number is NaN. *)
Lemma fdiv_non_finite (x y : float) :
  is_finite x = false -> is_finite y = false -> fdiv x y = nan.
Proof.
  destruct x as [s|s| |s m e]; try discriminate;
    destruct y as [t|t| |t n d]; try discriminate; reflexivity.
Qed.

Lemma lookup_map {A B : Type} (f : A -> B) (l : list A) (i : nat) :
  map f l !! i = option_map f (l !! i).
Proof.
  revert i. induction l as [|x l IH]; intros [|i]; simpl; auto.
Qed.

(** ** The autocorrelation estimator *)

(** [autocorr] divides the whole of [raw_acf] by its element 0. *)
Lemma autocorr_normalises (ts : series) (remove_spike : bool)
    (acf : list float) (a0 : float) :
  raw_acf ts remove_spike = Return acf -> acf !! 0%nat = Some a0 ->
  autocorr ts remove_spike = Return (map (fun x => x / a0)%f64 acf).
Proof.
  intros Hraw H0. unfold autocorr. rewrite Hraw. simpl.
  unfold index. rewrite H0. reflexivity.
Qed.

(** With [remove_spike], elements 0 and 1 of the array that is divided are
    the same number. *)
Lemma raw_acf_spike (ts : series) (acf : list float) (a1 : float) :
  raw_acf ts true = Return acf -> acf !! 1%nat = Some a1 ->
  acf !! 0%nat = Some a1.
Proof.
  unfold raw_acf.
  destruct (correlate_full_tail _) as [c|e|k]; simpl; try discriminate.
  unfold index. destruct (c !! 1%nat) as [c1|] eqn:Hc1; simpl; [|discriminate].
  intros [= <-] H1.
  destruct c as [|c0 [|c1' c']]; try discriminate.
  simpl in *. congruence.
Qed.

(** C2 (as the code has it).  When the array that [autocorr] is about to
    normalise has a zero at lag 0, as it has for a constant series, the
    function raises nothing: it returns the array divided by that zero,
    whose element 0 is NaN and whose every element is NaN or an infinity. *)
Theorem autocorr_zero_variance (ts : series) (remove_spike : bool)
    (acf : list float) (a0 : float) :
  raw_acf ts remove_spike = Return acf ->
  acf !! 0%nat = Some a0 ->
  is_zero a0 = true ->
  exists ac,
    autocorr ts remove_spike = Return ac /\
    ac !! 0%nat = Some nan /\
    forallb (fun x => negb (is_finite x)) ac = true.
Proof.
  intros Hraw H0 Hz.
  exists (map (fun x => x / a0)%f64 acf). split; [|split].
  - apply autocorr_normalises; assumption.
  - rewrite lookup_map, H0. simpl. f_equal.
    apply fdiv_zero_zero; assumption.
  - apply forallb_forall. intros y Hy.
    apply in_map_iff in Hy as (x & <- & _).
    destruct (fdiv_zero x a0 Hz) as [-> | Hinf]; [reflexivity|].
    destruct (x / a0)%f64; try discriminate; reflexivity.
Qed.

Lemma autocorr_zero_variance_witness :
  raw_acf (ndarray [f1; f1; f1]) false = Return [f0; f0; f0] /\
  exists ac,
    autocorr (ndarray [f1; f1; f1]) false = Return ac /\
    ac !! 0%nat = Some nan /\
    forallb (fun x => negb (is_finite x)) ac = true.
Proof.
  split; [vm_compute; reflexivity|].
  apply (autocorr_zero_variance (ndarray [f1; f1; f1]) false [f0; f0; f0] f0);
    vm_compute; reflexivity.
Defined.

(** The constant series [1, 1, 1]: no exception, three NaN. *)
Lemma autocorr_constant_returns_nan :
  autocorr (ndarray [f1; f1; f1]) false = Return [nan; nan; nan].
Proof. vm_compute. reflexivity. Qed.

(** C5 (as the code has it).  [autocorr] centres the series, keeps the
    lags 0 .. N-1 of its linear autocorrelation, overwrites lag 0 by lag 1
    when [remove_spike], and divides the whole array by its element 0.
    Whenever that divisor is finite and not zero, element 0 of the result
    is exactly 1. *)
Theorem autocorr_lag0_one (ts : series) (remove_spike : bool)
    (acf : list float) (a0 : float) :
  raw_acf ts remove_spike = Return acf ->
  acf !! 0%nat = Some a0 ->
  is_finite a0 = true ->
  is_zero a0 = false ->
  exists ac,
    autocorr ts remove_spike = Return ac /\
    ac = map (fun x => x / a0)%f64 acf /\
    ac !! 0%nat = Some f1.
Proof.
  intros Hraw H0 Hfin Hnz.
  exists (map (fun x => x / a0)%f64 acf). split; [|split].
  - apply autocorr_normalises; assumption.
  - reflexivity.
  - rewrite lookup_map, H0. simpl. f_equal.
    rewrite fdiv_self, Hfin, Hnz. reflexivity.
Qed.

Lemma autocorr_lag0_one_witness :
  raw_acf (ndarray (map of_Z [1; 2; 4; 3; 5]%Z)) true
    = Return (map of_Z [1; 1; 0; -2; -4]%Z) /\
  exists ac,
    autocorr (ndarray (map of_Z [1; 2; 4; 3; 5]%Z)) true = Return ac /\
    ac = map (fun x => x / of_Z 1)%f64 (map of_Z [1; 1; 0; -2; -4]%Z) /\
    ac !! 0%nat = Some f1.
Proof.
  split; [vm_compute; reflexivity|].
  apply (autocorr_lag0_one (ndarray (map of_Z [1; 2; 4; 3; 5]%Z)) true
           (map of_Z [1; 1; 0; -2; -4]%Z) (of_Z 1));
    vm_compute; reflexivity.
Defined.

(** The series [0, 1, 0, -1] is not constant (its lag-0 sum is 2), its
    lag-1 sum is zero: with [remove_spike] element 0 of the result is NaN. *)
Lemma autocorr_lag0_not_one :
  raw_acf (ndarray (map of_Z [0; 1; 0; -1]%Z)) false
    = Return [of_Z 2; f0; of_Z (-1); f0] /\
  autocorr (ndarray (map of_Z [0; 1; 0; -1]%Z)) true
    = Return [nan; nan; ninf; nan].
Proof. split; vm_compute; reflexivity. Qed.

(** C10 (as the code has it).  With [remove_spike], lag 0 is a copy of
    lag 1 before the division, and [autocorr] returns whatever the lag-1
    sum is: elements 0 and 1 of the result are the same number, exactly 1
    when the lag-1 sum is finite and not zero, and NaN when it is zero,
    infinite or NaN. *)
Theorem autocorr_spike_lag1_one (ts : series) (acf : list float) (a1 : float) :
  raw_acf ts true = Return acf ->
  acf !! 1%nat = Some a1 ->
  exists ac,
    autocorr ts true = Return ac /\
    ac !! 0%nat = Some (if is_finite a1 && negb (is_zero a1) then f1 else nan) /\
    ac !! 1%nat = Some (if is_finite a1 && negb (is_zero a1) then f1 else nan).
Proof.
  intros Hraw H1.
  pose proof (raw_acf_spike ts acf a1 Hraw H1) as H0.
  exists (map (fun x => x / a1)%f64 acf). split; [|split].
  - apply autocorr_normalises; assumption.
  - rewrite lookup_map, H0. cbn [option_map]. f_equal. apply fdiv_self.
  - rewrite lookup_map, H1. cbn [option_map]. f_equal. apply fdiv_self.
Qed.

Lemma autocorr_spike_lag1_one_witness :
  raw_acf (ndarray (map of_Z [1; 2; 4; 3; 5]%Z)) true
    = Return (map of_Z [1; 1; 0; -2; -4]%Z) /\
  map of_Z [1; 1; 0; -2; -4]%Z !! 1%nat = Some (of_Z 1) /\
  exists ac,
    autocorr (ndarray (map of_Z [1; 2; 4; 3; 5]%Z)) true = Return ac /\
    ac !! 0%nat
      = Some (if is_finite (of_Z 1) && negb (is_zero (of_Z 1)) then f1 else nan) /\
    ac !! 1%nat
      = Some (if is_finite (of_Z 1) && negb (is_zero (of_Z 1)) then f1 else nan).
Proof.
  split; [vm_compute; reflexivity|].
  split; [vm_compute; reflexivity|].
  apply (autocorr_spike_lag1_one (ndarray (map of_Z [1; 2; 4; 3; 5]%Z))
           (map of_Z [1; 1; 0; -2; -4]%Z) (of_Z 1));
    vm_compute; reflexivity.
Defined.

(** The series [2, 1, 0, 1], whose lag-1 sum is zero: [autocorr] with
    [remove_spike] returns, and elements 0 and 1 of what it returns are
    NaN. *)
Lemma autocorr_spike_lag1_nan :
  autocorr (ndarray (map of_Z [2; 1; 0; 1]%Z)) true
    = Return [nan; nan; ninf; nan].
Proof. vm_compute. reflexivity. Qed.

(** ** The diagnostic record *)

Lemma correlate_full_tail_length (a c : list float) :
  correlate_full_tail a = Return c -> length c = length a.
Proof.
  destruct a as [|x a]; [discriminate|]. intros [= <-].
  simpl. rewrite length_map, length_seq. reflexivity.
Qed.

(** On a non-empty array [autocorr] returns, one value per sample. *)
Lemma autocorr_returns (a : list float) :
  a <> [] ->
  exists ac, autocorr (ndarray a) false = Return ac /\ length ac = length a.
Proof.
  destruct a as [|x a]; [congruence|]. intros _.
  eexists. split; [reflexivity|].
  cbn [length map]. rewrite !length_map, length_seq. reflexivity.
Qed.

(** Whatever [get_diag_stats] returns has the nine statistical keys and no
    other. *)
Lemma get_diag_stats_fields `{Libm} `{SciPyStats} `{SciPyOptimize}
    (ts : series) (dt : option float) (pow : float) (use_triangle : bool)
    (d : gmap string pyval) :
  get_diag_stats ts dt pow use_triangle = Return d -> dom d = stat_fields.
Proof.
  unfold get_diag_stats.
  destruct (np_min _) as [m| |]; cbn [bind]; try discriminate.
  destruct (autocorr _ _) as [ac| |]; cbn [bind]; try discriminate.
  destruct (index ac 1) as [l1| |]; cbn [bind]; try discriminate.
  destruct (index ac 2) as [l2| |]; cbn [bind]; try discriminate.
  destruct (fit_acf ac pow use_triangle false) as [popt|[]|]; cbn [bind];
    try discriminate.
  all: match goal with |- context [index ?l 0] =>
         destruct (index l 0) as [p0| |]; cbn [bind]; try discriminate;
         destruct (index l 1) as [p1| |]; cbn [bind]; try discriminate;
         destruct (index l 2) as [p2| |]; cbn [bind]; try discriminate
       end.
  all: intros Hd; unfold stat_fields;
    destruct ts as [a|a d0]; [destruct dt|]; injection Hd as <-;
    rewrite !dom_insert_L, dom_empty_L; set_solver.
Qed.

(** A fit that raises [RuntimeError] costs the record its three fit
    parameters and nothing else. *)
Lemma get_diag_stats_recovers `{Libm} `{SciPyStats} `{SciPyOptimize}
    (ts : series) (dt : option float) (pow : float) (use_triangle : bool)
    (ac : list float) :
  autocorr (ndarray (array_of ts)) false = Return ac ->
  (3 <= length (array_of ts))%nat ->
  fit_acf ac pow use_triangle false = Raise RuntimeError ->
  exists d m l1 l2,
    get_diag_stats ts dt pow use_triangle = Return d /\
    np_min (array_of ts) = Return m /\
    ac !! 1%nat = Some l1 /\ ac !! 2%nat = Some l2 /\
    d !! "fit_t_d" = Some (PyFloat nan) /\
    d !! "fit_A" = Some (PyFloat nan) /\
    d !! "fit_W" = Some (PyFloat nan) /\
    d !! "std" = Some (PyFloat (np_std (array_of ts))) /\
    d !! "min" = Some (PyFloat m) /\
    d !! "ks" = Some (PyFloat (kstest_expon (array_of ts))) /\
    d !! "anderson" = Some (PyFloat (anderson_expon (array_of ts))) /\
    d !! "lag1" = Some (PyFloat l1) /\
    d !! "lag2" = Some (PyFloat l2).
Proof.
  intros Hac Hlen Hfit.
  destruct (autocorr_returns (array_of ts)) as (ac' & Hac' & Hlen').
  { destruct (array_of ts); simpl in *; [lia|congruence]. }
  rewrite Hac in Hac'. injection Hac' as <-.
  destruct (lookup_lt_is_Some_2 ac 1) as [l1 Hl1]; [lia|].
  destruct (lookup_lt_is_Some_2 ac 2) as [l2 Hl2]; [lia|].
  destruct (np_min (array_of ts)) as [m|e|c] eqn:Hmin;
    [|destruct (array_of ts); simpl in *; [lia|discriminate]..].
  unfold get_diag_stats. rewrite Hmin. cbn [bind]. rewrite Hac. cbn [bind].
  unfold index at 1 2. rewrite Hl1, Hl2. cbn [bind]. rewrite Hfit.
  change (index [nan; nan; nan] 0) with (@Return float nan).
  change (index [nan; nan; nan] 1) with (@Return float nan).
  change (index [nan; nan; nan] 2) with (@Return float nan).
  cbn [bind].
  destruct (match ts with ndarray _ => dt | TimeSeries _ d0 => Some d0 end) as [d0|];
    (eexists _, m, l1, l2; split; [reflexivity|]);
    repeat split; by simplify_map_eq.
Qed.

(** The sample series under a fit that does not converge. *)
Lemma sample_fit_fails :
  autocorr (ndarray sample_ts) false = Return sample_acf /\
  fit_acf sample_acf five_thirds true false = Raise RuntimeError.
Proof. split; vm_compute; reflexivity. Qed.

(** C6 (as the code has it).  When the optimizer does not converge,
    [curve_fit] raises [RuntimeError] and [fit_acf], which has no handler,
    raises it too: the outcome of the fit is the exception, not a triple of
    NaN.  It is [get_diag_stats] that catches it: on a series of three
    samples or more it still returns a record, whose fit parameters are
    three NaN and whose [std], [min], [ks], [anderson], [lag1] and [lag2]
    are the statistics of the series. *)
Theorem diag_stats_survives_fit_failure `{Libm} `{SciPyStats} `{SciPyOptimize}
    (ts : series) (dt : option float) (pow : float) (use_triangle : bool)
    (ac : list float) :
  autocorr (ndarray (array_of ts)) false = Return ac ->
  (3 <= length (array_of ts))%nat ->
  curve_fit (noisy_scint_acf_gen pow use_triangle) (arange (length ac)) ac
    ([f0; f0; f0], [of_nat (length ac); f1; f1]) = Raise RuntimeError ->
  fit_acf ac pow use_triangle false = Raise RuntimeError /\
  exists d m l1 l2,
    get_diag_stats ts dt pow use_triangle = Return d /\
    np_min (array_of ts) = Return m /\
    ac !! 1%nat = Some l1 /\ ac !! 2%nat = Some l2 /\
    d !! "fit_t_d" = Some (PyFloat nan) /\
    d !! "fit_A" = Some (PyFloat nan) /\
    d !! "fit_W" = Some (PyFloat nan) /\
    d !! "std" = Some (PyFloat (np_std (array_of ts))) /\
    d !! "min" = Some (PyFloat m) /\
    d !! "ks" = Some (PyFloat (kstest_expon (array_of ts))) /\
    d !! "anderson" = Some (PyFloat (anderson_expon (array_of ts))) /\
    d !! "lag1" = Some (PyFloat l1) /\
    d !! "lag2" = Some (PyFloat l2).
Proof.
  intros Hac Hlen Hfit.
  assert (Hraise : fit_acf ac pow use_triangle false = Raise RuntimeError)
    by exact Hfit.
  split; [exact Hraise|].
  apply get_diag_stats_recovers; assumption.
Qed.

(** The fit of the sample autocorrelation under an optimizer that does not
    converge: [fit_acf] raises, with or without [remove_spike], and
    returns no triple. *)
Lemma fit_acf_raises_runtime_error :
  curve_fit (noisy_scint_acf_gen five_thirds true) (arange (length sample_acf))
    sample_acf ([f0; f0; f0], [of_nat (length sample_acf); f1; f1])
    = Raise RuntimeError /\
  fit_acf sample_acf five_thirds true false = Raise RuntimeError /\
  fit_acf sample_acf five_thirds true true = Raise RuntimeError.
Proof. repeat split; vm_compute; reflexivity. Qed.

Lemma diag_stats_survives_fit_failure_witness :
  autocorr (ndarray sample_ts) false = Return sample_acf /\
  (3 <= length sample_ts)%nat /\
  curve_fit (noisy_scint_acf_gen five_thirds true) (arange (length sample_acf))
    sample_acf ([f0; f0; f0], [of_nat (length sample_acf); f1; f1])
    = Raise RuntimeError /\
  fit_acf sample_acf five_thirds true false = Raise RuntimeError /\
  exists d m l1 l2,
    get_diag_stats (ndarray sample_ts) (Some f2) five_thirds true = Return d /\
    np_min sample_ts = Return m /\
    sample_acf !! 1%nat = Some l1 /\ sample_acf !! 2%nat = Some l2 /\
    d !! "fit_t_d" = Some (PyFloat nan) /\
    d !! "fit_A" = Some (PyFloat nan) /\
    d !! "fit_W" = Some (PyFloat nan) /\
    d !! "std" = Some (PyFloat (np_std sample_ts)) /\
    d !! "min" = Some (PyFloat m) /\
    d !! "ks" = Some (PyFloat (kstest_expon sample_ts)) /\
    d !! "anderson" = Some (PyFloat (anderson_expon sample_ts)) /\
    d !! "lag1" = Some (PyFloat l1) /\
    d !! "lag2" = Some (PyFloat l2).
Proof.
  split; [vm_compute; reflexivity|].
  split; [vm_compute; lia|].
  split; [vm_compute; reflexivity|].
  apply (diag_stats_survives_fit_failure (ndarray sample_ts) (Some f2)
           five_thirds true sample_acf).
  - vm_compute; reflexivity.
  - vm_compute; lia.
  - vm_compute; reflexivity.
Defined.

(** C7 (as the code has it).  [empty_diag_stats(fchans)] carries exactly
    the twelve fields of the schema, [fchans] set and every other one
    [None].  The record [get_diag_stats] returns carries exactly the nine
    statistical fields [std], [min], [ks], [anderson], [lag1], [lag2],
    [fit_t_d], [fit_A], [fit_W]: it has no [fchans], [l] or [r]. *)
Theorem diag_record_fields `{Libm} `{SciPyStats} `{SciPyOptimize}
    (fchans : Z) (ts : series) (dt : option float) (pow : float)
    (use_triangle : bool) (d : gmap string pyval) :
  get_diag_stats ts dt pow use_triangle = Return d ->
  (dom (empty_diag_stats fchans) = record_fields /\
   empty_diag_stats fchans !! "fchans" = Some (PyInt fchans) /\
   map_Forall (fun k v => k <> "fchans" -> v = PyNone) (empty_diag_stats fchans)) /\
  (dom d = stat_fields /\
   d !! "fchans" = None /\ d !! "l" = None /\ d !! "r" = None).
Proof.
  intros Hd. split; [split; [|split]|].
  - unfold empty_diag_stats, record_fields, stat_fields.
    rewrite !dom_insert_L, dom_empty_L. set_solver.
  - unfold empty_diag_stats. by simplify_map_eq.
  - unfold empty_diag_stats.
    repeat (apply map_Forall_insert_2; [congruence|]).
    apply map_Forall_empty.
  - pose proof (get_diag_stats_fields ts dt pow use_triangle d Hd) as Hdom.
    split; [exact Hdom|].
    assert (Hnot : forall k : string,
               k = "fchans" \/ k = "l" \/ k = "r" -> d !! k = None).
    { intros k Hk. apply not_elem_of_dom. rewrite Hdom. unfold stat_fields.
      rewrite !elem_of_union, !elem_of_singleton.
      destruct Hk as [-> | [-> | ->]]; intuition discriminate. }
    repeat split; apply Hnot; auto.
Qed.

Lemma diag_record_fields_witness :
  exists d,
    get_diag_stats (ndarray sample_ts) None five_thirds true = Return d /\
    (dom (empty_diag_stats 256) = record_fields /\
     empty_diag_stats 256 !! "fchans" = Some (PyInt 256) /\
     map_Forall (fun k v => k <> "fchans" -> v = PyNone) (empty_diag_stats 256)) /\
    (dom d = stat_fields /\
     d !! "fchans" = None /\ d !! "l" = None /\ d !! "r" = None).
Proof.
  destruct sample_fit_fails as [Hac Hfit].
  destruct (get_diag_stats_recovers (ndarray sample_ts) None five_thirds true
              sample_acf Hac ltac:(vm_compute; lia) Hfit) as (d & _ & _ & _ & Hd & _).
  exists d. split; [exact Hd|].
  exact (diag_record_fields 256 (ndarray sample_ts) None five_thirds true d Hd).
Defined.

(** The record of the sample series has no [fchans], [l] or [r]. *)
Lemma valid_record_lacks_fchans :
  exists d,
    get_diag_stats (ndarray sample_ts) None five_thirds true = Return d /\
    d !! "fchans" = None /\ d !! "l" = None /\ d !! "r" = None.
Proof.
  destruct sample_fit_fails as [Hac Hfit].
  destruct (get_diag_stats_recovers (ndarray sample_ts) None five_thirds true
              sample_acf Hac ltac:(vm_compute; lia) Hfit) as (d & _ & _ & _ & Hd & _).
  exists d. split; [exact Hd|].
  pose proof (get_diag_stats_fields _ _ _ _ d Hd) as Hdom.
  assert (Hnot : forall k : string,
             k = "fchans" \/ k = "l" \/ k = "r" -> d !! k = None).
  { intros k Hk. apply not_elem_of_dom. rewrite Hdom. unfold stat_fields.
    rewrite !elem_of_union, !elem_of_singleton.
    destruct Hk as [-> | [-> | ->]]; intuition discriminate. }
  repeat split; apply Hnot; auto.
Qed.

(** ** The executable instances satisfy the laws *)

Lemma ref_exp_nonneg (x : float) : nonneg_or_nan (Ref.exp x) = true.
Proof.
  destruct x as [s|[]| |s m e]; try reflexivity.
  unfold Ref.exp.
  destruct (_ <? _)%f64; [reflexivity|].
  destruct (_ <? _)%f64; [reflexivity|].
  apply binary_round_nonneg.
Qed.

Lemma ref_i0_nonneg (x : float) : nonneg_or_nan (Ref.i0 x) = true.
Proof.
  destruct x as [s|s| |s m e]; try reflexivity.
  unfold Ref.i0.
  destruct (is_inf _); [reflexivity|].
  apply binary_round_nonneg.
Qed.

#[global] Instance ref_libm_laws : LibmLaws Ref.libm.
Proof.
  split.
  - reflexivity.
  - intros s. reflexivity.
  - apply ref_exp_nonneg.
  - reflexivity.
  - apply ref_i0_nonneg.
  - reflexivity.
Qed.

Lemma both_nan_eq (z : complex) : both_nan z = true -> z = Complex nan nan.
Proof.
  destruct z as [r i]. unfold both_nan. simpl. intros H.
  apply andb_true_iff in H as [Hr Hi].
  apply is_nan_eq in Hr, Hi. congruence.
Qed.

Lemma dft_fold_from_nan (inverse : bool) (n k : nat) (l : list (nat * complex)) :
  fold_left (Ref.dft_term inverse n k) l (Complex nan nan) = Complex nan nan.
Proof.
  induction l as [|jx l IH]; simpl; [reflexivity|]. exact IH.
Qed.

Lemma dft_fold_has_nan (inverse : bool) (n k : nat) (l : list (nat * complex))
    (acc : complex) :
  existsb (fun jx => both_nan (snd jx)) l = true ->
  fold_left (Ref.dft_term inverse n k) l acc = Complex nan nan.
Proof.
  revert acc. induction l as [|jx l IH]; simpl; intros acc H; [discriminate|].
  apply orb_true_iff in H as [H|H]; [|apply IH, H].
  apply both_nan_eq in H. unfold Ref.dft_term at 2. rewrite H.
  unfold cadd, cmul. simpl. rewrite !fadd_nan_r. apply dft_fold_from_nan.
Qed.

Lemma existsb_zip_seq (a : list complex) (i : nat) :
  existsb both_nan a = true ->
  existsb (fun jx : nat * complex => both_nan (snd jx)) (zip (seq i (length a)) a) = true.
Proof.
  revert i. induction a as [|z a IH]; simpl; intros i H; [discriminate|].
  apply orb_true_iff in H as [H|H]; apply orb_true_iff; [left|right]; auto.
Qed.

Lemma dft_has_nan (inverse : bool) (a : list complex) (z : complex) :
  existsb both_nan a = true -> In z (Ref.dft inverse a) -> z = Complex nan nan.
Proof.
  intros H Hz. unfold Ref.dft in Hz.
  apply in_map_iff in Hz as (k & <- & _).
  apply dft_fold_has_nan, existsb_zip_seq, H.
Qed.

#[global] Instance ref_fft_laws : NumpyFFTLaws Ref.fft.
Proof.
  split.
  - intros a. simpl. unfold Ref.dft. rewrite length_map, length_seq. reflexivity.
  - intros a. simpl. unfold Ref.dft. rewrite !length_map, length_seq. reflexivity.
  - intros a H. simpl. apply forallb_forall. intros z Hz.
    apply in_map_iff in Hz as (w & <- & Hw).
    rewrite (dft_has_nan true a w H Hw). reflexivity.
Qed.

Lemma normals_length (n : nat) (s : Z) : length (fst (Ref.normals n s)) = n.
Proof.
  revert s. induction n as [|n IH]; intros s; [reflexivity|].
  cbn [Ref.normals].
  destruct (Ref.uniforms 12 s) as [us s1].
  specialize (IH s1). destruct (Ref.normals n s1) as [xs s2].
  cbn [fst length] in *. congruence.
Qed.

#[global] Instance ref_generator_laws : GeneratorLaws Ref.generator.
Proof. split. apply normals_length. Qed.

(** The number of binary digits of a mantissa. *)
Lemma digits2_pos_lower (m : positive) :
  (2 ^ (Z.pos (digits2_pos m) - 1) <= Z.pos m)%Z.
Proof.
  induction m as [m IH|m IH|]; simpl digits2_pos.
  - rewrite Pos2Z.inj_succ.
    replace (Z.succ (Z.pos (digits2_pos m)) - 1)%Z
      with (Z.succ (Z.pos (digits2_pos m) - 1))%Z by lia.
    rewrite Z.pow_succ_r by lia. lia.
  - rewrite Pos2Z.inj_succ.
    replace (Z.succ (Z.pos (digits2_pos m)) - 1)%Z
      with (Z.succ (Z.pos (digits2_pos m) - 1))%Z by lia.
    rewrite Z.pow_succ_r by lia. lia.
  - simpl. lia.
Qed.

Lemma digits2_pos_le (m : positive) (n : Z) :
  (Z.pos m < 2 ^ n)%Z -> (0 <= n)%Z -> (Z.pos (digits2_pos m) <= n)%Z.
Proof.
  intros Hm Hn.
  destruct (Z.le_gt_cases (Z.pos (digits2_pos m)) n) as [H|H]; [exact H|].
  pose proof (digits2_pos_lower m) as Hl.
  assert (2 ^ n <= 2 ^ (Z.pos (digits2_pos m) - 1))%Z
    by (apply Z.pow_le_mono_r; lia).
  lia.
Qed.

(** A draw is below one. *)
Lemma u53_lt_one (k : Z) : (0 <= k < 2 ^ 53)%Z -> (f1 <=? Ref.u53 k)%f64 = false.
Proof.
  intros Hk. destruct k as [|m|m]; try reflexivity.
  pose proof (digits2_pos_le m 53 ltac:(lia) ltac:(lia)) as Hd.
  unfold Ref.u53, fleb, SFleb, f1, pow2. cbn [SFcompare].
  destruct (Z.compare_spec (0 - 52) (Z.pos (digits2_pos m) - 106)) as [H|H|H];
    try lia; reflexivity.
Qed.

Lemma uniform_lt_one (s : Z) : (f1 <=? fst (Ref.uniform s))%f64 = false.
Proof.
  unfold Ref.uniform. cbn [fst]. apply u53_lt_one.
  unfold Ref.lcg.
  pose proof (Z.mod_pos_bound (s * 6364136223846793005 + 1442695040888963407)
                (2 ^ 64) ltac:(lia)) as Hb.
  split.
  - apply Z.div_pos; lia.
  - apply Z.div_lt_upper_bound; lia.
Qed.

Lemma kahan_from_nan (p : list float) (c : float) :
  fst (fold_left Ref.kahan_step p (nan, c)) = nan.
Proof.
  revert c. induction p as [|x p IH]; intros c; simpl; [reflexivity|]. apply IH.
Qed.

Lemma kahan_has_nan (p : list float) (st : float * float) :
  existsb is_nan p = true -> fst (fold_left Ref.kahan_step p st) = nan.
Proof.
  revert st. induction p as [|x p IH]; simpl; intros st H; [discriminate|].
  apply orb_true_iff in H as [H|H]; [|apply IH, H].
  apply is_nan_eq in H. subst x. destruct st as [sum c].
  unfold Ref.kahan_step at 2. cbn [fsub SFsub]. 
  change (nan - c)%f64 with nan. rewrite fadd_nan_r. apply kahan_from_nan.
Qed.

Lemma kahan_sum_has_nan (p : list float) :
  existsb is_nan p = true -> is_nan (Ref.kahan_sum p) = true.
Proof.
  destruct p as [|x p]; simpl; [discriminate|]. intros H.
  apply orb_true_iff in H as [H|H].
  - apply is_nan_eq in H. subst x. rewrite kahan_from_nan. reflexivity.
  - rewrite kahan_has_nan by exact H. reflexivity.
Qed.

Lemma cumsum_length (p : list float) : length (Ref.cumsum p) = length p.
Proof.
  destruct p as [|x p]; simpl; [reflexivity|]. f_equal.
  assert (G : forall (l : list float) (st : float * list float),
             length (snd (fold_left (fun st y => let t := (fst st + y)%f64 in (t, snd st ++ [t])) l st))
             = (length (snd st) + length l)%nat).
  { induction l as [|y l IH]; intros st; simpl; [lia|].
    rewrite IH. simpl. rewrite length_app. simpl. lia. }
  rewrite G. reflexivity.
Qed.

Lemma filter_last_false {A : Type} (f : A -> bool) (l : list A) (d : A) :
  l <> [] -> f (List.last l d) = false ->
  (length (List.filter f l) < length l)%nat.
Proof.
  induction l as [|x l IH]; [congruence|]. intros _ H.
  destruct l as [|y l].
  - simpl in *. rewrite H. simpl. lia.
  - change (List.last (x :: y :: l) d) with (List.last (y :: l) d) in H.
    specialize (IH ltac:(discriminate) H).
    remember (y :: l) as t eqn:Ht. clear Ht H.
    cbn [List.filter]. remember (List.filter f t) as r eqn:Hr. clear Hr.
    destruct (f x); cbn [length]; lia.
Qed.

Lemma last_map {A B : Type} (g : A -> B) (l : list A) (d : A) :
  List.last (map g l) (g d) = g (List.last l d).
Proof.
  induction l as [|x l IH]; [reflexivity|].
  destruct l as [|y l]; [reflexivity|]. exact IH.
Qed.

Lemma choice_below (n : nat) (p : list float) (s : Z) (k : nat) (s' : Z) :
  Ref.choice n p s = (Return k, s') -> (k < n)%nat.
Proof.
  unfold Ref.choice.
  destruct (_ || _) eqn:Hn; [discriminate|].
  destruct (is_nan _); [discriminate|].
  destruct (existsb _ _); [discriminate|].
  destruct (_ >? _)%f64; [discriminate|].
  apply orb_false_iff in Hn as [Hn0 Hlen].
  apply Nat.eqb_neq in Hn0.
  apply negb_false_iff, Nat.eqb_eq in Hlen.
  pose proof (uniform_lt_one s) as Hu.
  destruct (Ref.uniform s) as [u s1]. cbn [fst] in Hu.
  intros [= <- <-].
  set (cdf := Ref.cumsum p).
  assert (Hc : length cdf = n) by (unfold cdf; rewrite cumsum_length; exact Hlen).
  apply Nat.lt_le_trans
    with (length (map (fun c => c / List.last cdf f0)%f64 cdf));
    [|rewrite length_map, Hc; lia].
  apply filter_last_false with (d := (f0 / List.last cdf f0)%f64).
  - destruct cdf; [simpl in Hc; lia|discriminate].
  - rewrite (last_map (fun c => c / List.last cdf f0)%f64 cdf f0).
    rewrite fdiv_self. destruct (_ && _); [exact Hu|reflexivity].
Qed.

Lemma choice_refuses_nan (n : nat) (p : list float) (s : Z) :
  existsb is_nan p = true -> fst (Ref.choice n p s) = Raise ValueError.
Proof.
  intros H. unfold Ref.choice.
  destruct (_ || _); [reflexivity|].
  rewrite (kahan_sum_has_nan p H). reflexivity.
Qed.

#[global] Instance ref_random_state_laws : RandomStateLaws Ref.random_state.
Proof.
  split.
  - apply choice_below.
  - apply choice_refuses_nan.
Qed.

(** ** The joint density *)

Lemma digits2_pos_upper (m : positive) :
  (Z.pos m < 2 ^ Z.pos (digits2_pos m))%Z.
Proof.
  induction m as [m IH|m IH|]; simpl digits2_pos;
    try (rewrite Pos2Z.inj_succ, Z.pow_succ_r by lia; lia).
  reflexivity.
Qed.

Lemma iter_xO_pow2 (p d : positive) :
  Z.pos (Pos.iter xO p d) = (Z.pos p * 2 ^ Z.pos d)%Z.
Proof.
  induction d as [|d IH] using Pos.peano_ind.
  - simpl. lia.
  - rewrite Pos.iter_succ, Pos2Z.inj_xO, IH, Pos2Z.inj_succ, Z.pow_succ_r by lia.
    lia.
Qed.

Lemma binary_normalize_sign_clear (z e : Z) :
  (0 <= z)%Z -> sign_clear (binary_normalize prec emax z e false) = true.
Proof.
  intros Hz. destruct z as [|m|m]; [reflexivity| |lia].
  unfold binary_normalize, binary_round.
  destruct (shl_align m e _) as [mz ez].
  apply binary_round_aux_sign_clear.
Qed.

(** For a binary64 number [ac < 1], the difference [1 - ac] has its sign
    bit clear. *)
Lemma one_minus_sign_clear (ac : float) :
  valid ac = true -> (ac <? f1)%f64 = true -> sign_clear (f1 - ac)%f64 = true.
Proof.
  intros Hv Hlt.
  destruct ac as [s|s| |s m e].
  - reflexivity.
  - destruct s; [reflexivity|discriminate].
  - discriminate.
  - unfold fsub, f1, pow2, SFsub.
    apply binary_normalize_sign_clear.
    destruct s.
    + unfold cond_Zopp; lia.
    + unfold fltb, SFltb, f1, pow2 in Hlt. cbn [SFcompare] in Hlt.
      unfold valid, valid_binary, bounded, canonical_mantissa in Hv.
      apply andb_true_iff in Hv as [Hc _]. apply Z.eqb_eq in Hc.
      unfold fexp, emin, prec, emax in Hc.
      pose proof (digits2_pos_upper m) as Hd.
      unfold cond_Zopp, shl_align.
      destruct (Z.compare_spec e (0 - 52)) as [He|He|He]; try discriminate.
      * subst e. change (Z.min (0 - 52) (0 - 52)) with (-52)%Z.
        change (-52 - (0 - 52))%Z with 0%Z. cbn [fst].
        rewrite Pos.compare_cont_spec in Hlt.
        destruct (Pos.compare_spec m 4503599627370496) as [Hm|Hm|Hm];
          try discriminate.
        apply Pos2Z.pos_lt_pos in Hm. lia.
      * rewrite Z.min_r by lia. replace (e - e)%Z with 0%Z by lia.
        destruct (e - (0 - 52))%Z as [|d|d] eqn:Hsub; try lia.
        cbn [fst]. rewrite iter_xO_pow2.
        assert (Z.pos (digits2_pos m) <= 53)%Z by lia.
        assert (2 ^ Z.pos (digits2_pos m) <= 2 ^ 53)%Z
          by (apply Z.pow_le_mono_r; lia).
        assert (2 ^ 1 <= 2 ^ Z.pos d)%Z by (apply Z.pow_le_mono_r; lia).
        change (2 ^ 1)%Z with 2%Z in *.
        assert (4503599627370496 * 2 <= 4503599627370496 * 2 ^ Z.pos d)%Z
          by (apply Z.mul_le_mono_nonneg_l; lia).
        replace (2 ^ 53)%Z with 9007199254740992%Z in * by reflexivity.
        lia.
Qed.

Lemma bpdf_scale_nonneg (ac : float) :
  valid ac = true -> (ac <? f1)%f64 = true ->
  nonneg_or_nan (f1 / (f1 - ac))%f64 = true.
Proof.
  intros Hv Hlt. apply fdiv_nonneg; [reflexivity|].
  apply one_minus_sign_clear; assumption.
Qed.

Lemma bpdf_asymptotic_nonneg `{L : Libm} `{!LibmLaws L} (g1 ac g2 : float) :
  valid ac = true -> (ac <? f1)%f64 = true ->
  nonneg_or_nan (bpdf_asymptotic g1 ac g2) = true.
Proof.
  intros Hv Hlt. unfold bpdf_asymptotic.
  apply fmul_nonneg; [apply fmul_nonneg|].
  - apply bpdf_scale_nonneg; assumption.
  - apply exp_nonneg.
  - apply fsqrt_nonneg.
Qed.

Lemma bpdf_primary_nonneg `{L : Libm} `{!LibmLaws L} (g1 ac g2 x : float) :
  valid ac = true -> (ac <? f1)%f64 = true ->
  nonneg_or_nan (bpdf_primary g1 ac g2 (sp_i0 x)) = true.
Proof.
  intros Hv Hlt. unfold bpdf_primary.
  apply fmul_nonneg; [apply fmul_nonneg|].
  - apply bpdf_scale_nonneg; assumption.
  - apply exp_nonneg.
  - apply i0_nonneg.
Qed.

Lemma zip_with_map_r {A B C : Type} (f : A -> B -> C) (g : A -> B) (l : list A) :
  zip_with f l (map g l) = map (fun x => f x (g x)) l.
Proof. induction l as [|x l IH]; simpl; [reflexivity|]. rewrite IH. reflexivity. Qed.

Lemma existsb_map_comp {A B : Type} (f : B -> bool) (g : A -> B) (l : list A) :
  existsb f (map g l) = existsb (fun x => f (g x)) l.
Proof. induction l as [|x l IH]; simpl; [reflexivity|]. rewrite IH. reflexivity. Qed.

(** [bpdf] is one closed form over the whole array. *)
Lemma bpdf_branches `{L : Libm} (g1 : float) (g2 : list float) (ac : float) :
  bpdf g1 g2 ac =
    if existsb (fun g => is_inf (sp_i0 (bessel_arg g1 g ac))) g2
    then map (bpdf_asymptotic g1 ac) g2
    else map (fun g => bpdf_primary g1 ac g (sp_i0 (bessel_arg g1 g ac))) g2.
Proof.
  unfold bpdf. rewrite existsb_map_comp, zip_with_map_r. reflexivity.
Qed.

(** X30.  [bpdf] evaluates the Bessel factor over the whole array first;
    if any element of the factor is infinite, every element of the result
    is the asymptotic form, otherwise every element is the primary form:
    the two are never mixed within one evaluation.  For a binary64
    correlation [ac < 1] no returned value is negative: each is
    non-negative or NaN. *)
Theorem bpdf_one_branch_nonneg `{L : Libm} `{!LibmLaws L}
    (g1 : float) (g2 : list float) (ac : float) :
  valid ac = true -> (ac <? f1)%f64 = true ->
  bpdf g1 g2 ac =
    (if existsb (fun g => is_inf (sp_i0 (bessel_arg g1 g ac))) g2
     then map (bpdf_asymptotic g1 ac) g2
     else map (fun g => bpdf_primary g1 ac g (sp_i0 (bessel_arg g1 g ac))) g2) /\
  forallb nonneg_or_nan (bpdf g1 g2 ac) = true.
Proof.
  intros Hv Hlt. split; [apply bpdf_branches|].
  rewrite bpdf_branches.
  destruct (existsb _ g2); apply forallb_forall; intros y Hy;
    apply in_map_iff in Hy as (g & <- & _).
  - apply bpdf_asymptotic_nonneg; assumption.
  - apply bpdf_primary_nonneg; assumption.
Qed.

(** Two gains of [2 ** 600] at correlation zero: their product overflows,
    infinity times zero is NaN, and NaN goes through the square root, the
    Bessel function and the primary form, whatever the math library. *)
Lemma bpdf_overflow_any `{L : Libm} `{!LibmLaws L} :
  bpdf (pow2 600) [pow2 600] f0 = [nan].
Proof.
  unfold bpdf. cbn [map existsb].
  assert (Ha : bessel_arg (pow2 600) (pow2 600) f0 = nan) by (vm_compute; reflexivity).
  rewrite Ha, i0_nan. cbn [is_inf orb zip_with]. unfold bpdf_primary.
  rewrite fmul_nan_r. reflexivity.
Qed.

(** C8 (the failing input).  [bpdf(2 ** 600, [2 ** 600], 0)]: the
    arguments are valid, two non-negative gains and a correlation in
    [[0, 1)], their product overflows, infinity times zero is NaN, the
    test [np.isinf] of the Bessel factor does not fire on it, and what
    [bpdf] returns is NaN, not a finite number. *)
Lemma bpdf_overflow_nan :
  valid (pow2 600) = true /\ valid f0 = true /\
  (f0 <=? pow2 600)%f64 = true /\ (f0 <=? f0)%f64 = true /\ (f0 <? f1)%f64 = true /\
  (pow2 600 * pow2 600)%f64 = pinf /\
  bpdf (pow2 600) [pow2 600] f0 = [nan].
Proof. repeat split; vm_compute; reflexivity. Qed.

(** A grid of gains in the overflow regime, [ac = 1 - 2 ** -10]. *)
Lemma bpdf_one_branch_nonneg_witness :
  valid (f1 - pow2 (-10))%f64 = true /\
  ((f1 - pow2 (-10)) <? f1)%f64 = true /\
  existsb (fun g => is_inf (sp_i0 (bessel_arg f4 g (f1 - pow2 (-10))%f64)))
    [f0; f1; f4] = true /\
  bpdf f4 [f0; f1; f4] (f1 - pow2 (-10))%f64 =
    (if existsb (fun g => is_inf (sp_i0 (bessel_arg f4 g (f1 - pow2 (-10))%f64)))
          [f0; f1; f4]
     then map (bpdf_asymptotic f4 (f1 - pow2 (-10))%f64) [f0; f1; f4]
     else map (fun g => bpdf_primary f4 (f1 - pow2 (-10))%f64 g
                          (sp_i0 (bessel_arg f4 g (f1 - pow2 (-10))%f64)))
            [f0; f1; f4]) /\
  forallb nonneg_or_nan (bpdf f4 [f0; f1; f4] (f1 - pow2 (-10))%f64) = true.
Proof.
  split; [vm_compute; reflexivity|].
  split; [vm_compute; reflexivity|].
  split; [vm_compute; reflexivity|].
  apply (bpdf_one_branch_nonneg (L := Ref.libm) f4 [f0; f1; f4] (f1 - pow2 (-10))%f64);
    vm_compute; reflexivity.
Defined.

(** ** The Markov-chain synthesizer *)

(** A degenerate mass vector, divided by its sum, has a NaN. *)
Lemma degenerate_pmf_nan (raw_p : list float) :
  raw_p <> [] -> degenerate raw_p = true ->
  existsb is_nan (map (fun x => x / np_sum raw_p)%f64 raw_p) = true.
Proof.
  intros Hne Hd. unfold degenerate in Hd.
  apply orb_true_iff in Hd as [Hz|Hnf].
  - pose proof (np_sum_zeros raw_p f0 eq_refl Hz) as Hs.
    fold (np_sum raw_p) in Hs.
    destruct raw_p as [|x l]; [congruence|].
    cbn [forallb] in Hz. apply andb_true_iff in Hz as [Hx _].
    cbn [map existsb]. rewrite (fdiv_zero_zero x _ Hx Hs). reflexivity.
  - pose proof (np_sum_has_non_finite raw_p f0 Hnf) as Hs.
    fold (np_sum raw_p) in Hs. rewrite existsb_map_comp.
    apply existsb_exists. apply existsb_exists in Hnf as (x & Hin & Hx).
    exists x. split; [exact Hin|].
    apply negb_true_iff in Hx. rewrite (fdiv_non_finite x _ Hx Hs). reflexivity.
Qed.

Lemma bpdf_length `{Libm} (g1 : float) (g2 : list float) (ac : float) :
  length (bpdf g1 g2 ac) = length g2.
Proof. rewrite bpdf_branches. destruct (existsb _ _); apply length_map. Qed.

(** C1 (as the code has it).  At a step of the chain whose probability
    mass vector is all zero or holds a value that is not finite, the vector
    divided by its sum has a NaN, [np.random.choice] refuses it, and the
    bare [except] ends the call through [sys.exit(1)]: the outcome is
    [SystemExit] with status 1, not an exception of the sampler's own. *)
Theorem chain_collapse_exits `{L : Libm} `{R : RandomState} `{!RandomStateLaws R}
    (possible_g ac_arr : list float) (steps i : nat) (range ts_idx : list nat)
    (s : rstate) (k : nat) (g1 ac : float) :
  ts_idx !! (i - 1)%nat = Some k ->
  possible_g !! k = Some g1 ->
  ac_arr !! 1%nat = Some ac ->
  degenerate (bpdf g1 possible_g ac) = true ->
  fst (chain possible_g ac_arr steps (i :: range) ts_idx s) = SysExit 1.
Proof.
  intros Hk Hg Hac Hd. cbn [chain]. unfold index. rewrite Hk. cbn [bind].
  rewrite Hg. cbn [bind]. rewrite Hac. cbn [bind].
  assert (Hne : bpdf g1 possible_g ac <> []).
  { intros E. apply (f_equal length) in E. rewrite bpdf_length in E.
    destruct possible_g; [discriminate|discriminate]. }
  pose proof (choice_nan steps _ s (degenerate_pmf_nan _ Hne Hd)) as Hc.
  destruct (rs_choice steps _ s) as [o s']. cbn [fst] in Hc. subst o. reflexivity.
Qed.

(** At correlation one the density at gain zero is NaN, whatever the state
    and the math library: [1 - ac] is zero, and so is the product under the
    square root. *)
Lemma bpdf_asymptotic_unit `{L : Libm} (g1 : float) :
  bpdf_asymptotic g1 f1 f0 = nan.
Proof.
  unfold bpdf_asymptotic.
  assert (Hs : fsqrt (f4 * np_pi * fsqrt (g1 * f0 * f1) / (f1 - f1))%f64 = nan).
  { destruct g1 as [s|s| |s m e]; try destruct s; reflexivity. }
  rewrite Hs. apply fmul_nan_r.
Qed.

Lemma bpdf_primary_unit `{L : Libm} `{!LibmLaws L} (g1 : float) :
  bpdf_primary g1 f1 f0 (sp_i0 (bessel_arg g1 f0 f1)) = nan.
Proof.
  assert (Ha : bessel_arg g1 f0 f1 = nan).
  { destruct g1 as [s|s| |s m e]; try destruct s; reflexivity. }
  unfold bpdf_primary. rewrite Ha, i0_nan. apply fmul_nan_r.
Qed.

Lemma bpdf_unit_correlation `{L : Libm} `{!LibmLaws L} (g1 : float) (g2 : list float) :
  degenerate (bpdf g1 (f0 :: g2) f1) = true.
Proof.
  unfold degenerate. apply orb_true_iff. right.
  rewrite bpdf_branches.
  destruct (existsb _ (f0 :: g2)); cbn [map existsb].
  - rewrite bpdf_asymptotic_unit. reflexivity.
  - rewrite bpdf_primary_unit. reflexivity.
Qed.





(** The grid of the default arguments, and of the sample runs below. *)
Lemma default_grid_in_range :
  grid_in_range (of_Z 5) 1000 = true /\ grid_in_range (of_Z 5) 20 = true.
Proof. split; vm_compute; reflexivity. Qed.

Lemma chain_collapse_exits_witness :
  [2; 0]%nat !! (1 - 1)%nat = Some 2%nat /\
  quarters [0; 5; 10; 15]%Z !! 2%nat = Some (of_Z 10 * pow2 (-2))%f64 /\
  [f1; f1] !! 1%nat = Some f1 /\
  degenerate (bpdf (of_Z 10 * pow2 (-2))%f64 (quarters [0; 5; 10; 15]%Z) f1) = true /\
  fst (chain (quarters [0; 5; 10; 15]%Z) [f1; f1] 4 [1%nat] [2; 0]%nat (Ref.state_of 1))
    = SysExit 1.
Proof.
  split; [reflexivity|].
  split; [vm_compute; reflexivity|].
  split; [reflexivity|].
  split; [vm_compute; reflexivity|].
  apply (chain_collapse_exits (L := Ref.libm) (R := Ref.random_state)
           (quarters [0; 5; 10; 15]%Z) [f1; f1] 4 1 [] [2; 0]%nat (Ref.state_of 1)
           2%nat (of_Z 10 * pow2 (-2))%f64 f1);
    vm_compute; reflexivity.
Defined.

(** [get_ts_pdf(1e9, 1, 2)]: the lag-1 correlation rounds to one, the mass
    vector of the first step is NaN, and the call leaves through
    [sys.exit(1)]. *)
Lemma get_ts_pdf_exits_process :
  gaussian f1 f0 (of_Z 1000000000 / f1 / hwem_m)%f64 = f1 /\
  option_map fst
    (get_ts_pdf 64 (of_Z 1000000000) f1 2 (of_Z 5) 1000 (Ref.state_of 1))
    = Some (SysExit 1).
Proof. split; vm_compute; reflexivity. Qed.


(** ** What the Markov-chain sampler depends on *)

Section Draws.
Context `{L : Libm} `{R : RandomState} `{F : Factors}.
Variable Rel : rstate -> rstate -> Prop.
Hypothesis exponential_rel : forall s1 s2, Rel s1 s2 ->
  fst (rs_exponential s1) = fst (rs_exponential s2) /\
  Rel (snd (rs_exponential s1)) (snd (rs_exponential s2)).
Hypothesis choice_rel : forall n p s1 s2, Rel s1 s2 ->
  fst (rs_choice n p s1) = fst (rs_choice n p s2) /\
  Rel (snd (rs_choice n p s1)) (snd (rs_choice n p s2)).

Lemma draw_init_rel (fuel : nat) (max_g init_g : float) (s1 s2 : rstate) :
  Rel s1 s2 ->
  match draw_init fuel max_g init_g s1, draw_init fuel max_g init_g s2 with
  | Some (g1, t1), Some (g2, t2) => g1 = g2 /\ Rel t1 t2
  | None, None => True
  | _, _ => False
  end.
Proof using exponential_rel.
  revert init_g s1 s2. induction fuel as [|fuel IH]; intros init_g s1 s2 Hs;
    cbn [draw_init]; destruct (init_g >? max_g)%f64; auto.
  destruct (exponential_rel s1 s2 Hs) as [Hg Ht].
  destruct (rs_exponential s1) as [g1 t1], (rs_exponential s2) as [g2 t2].
  cbn [fst snd] in *. subst g2. apply IH, Ht.
Qed.

Lemma chain_rel (possible_g ac_arr : list float) (steps : nat)
    (range ts_idx : list nat) (s1 s2 : rstate) :
  Rel s1 s2 ->
  fst (chain possible_g ac_arr steps range ts_idx s1)
    = fst (chain possible_g ac_arr steps range ts_idx s2) /\
  Rel (snd (chain possible_g ac_arr steps range ts_idx s1))
      (snd (chain possible_g ac_arr steps range ts_idx s2)).
Proof using choice_rel.
  revert ts_idx s1 s2. induction range as [|i range IH]; intros ts_idx s1 s2 Hs;
    cbn [chain]; [auto|].
  destruct (bind _ _) as [raw_p| |]; [|auto..].
  destruct (choice_rel steps (map (fun x => x / np_sum raw_p)%f64 raw_p) s1 s2 Hs)
    as [Ho Ht].
  destruct (rs_choice steps _ s1) as [o1 t1], (rs_choice steps _ s2) as [o2 t2].
  cbn [fst snd] in *. subst o2.
  destruct o1 as [k| |]; [apply IH, Ht|auto..].
Qed.

Lemma get_ts_pdf_rel (fuel : nat) (t_d dt : float) (num_samples : nat)
    (max_g : float) (steps : nat) (s1 s2 : rstate) :
  Rel s1 s2 ->
  same_run Rel (get_ts_pdf fuel t_d dt num_samples max_g steps s1)
               (get_ts_pdf fuel t_d dt num_samples max_g steps s2).
Proof using exponential_rel choice_rel.
  intros Hs. unfold get_ts_pdf.
  destruct (bind _ _) as [sigma| |]; [|cbn; auto..].
  pose proof (draw_init_rel fuel max_g (max_g + f1)%f64 s1 s2 Hs) as Hd.
  destruct (draw_init fuel max_g _ s1) as [[g1 t1]|],
           (draw_init fuel max_g _ s2) as [[g2 t2]|]; try contradiction; [|exact I].
  destruct Hd as [<- Ht].
  destruct (bind (find_nearest _ _) _) as [ts_idx| |]; [|cbn; auto..].
  destruct (chain_rel (linspace0 max_g steps false)
              (map (fun x => gaussian x f0 sigma) (arange steps)) steps
              (seq 1 (num_samples - 1)) ts_idx t1 t2 Ht) as [Ho Hu].
  destruct (chain _ _ _ _ _ t1) as [o1 u1], (chain _ _ _ _ _ t2) as [o2 u2].
  cbn [fst snd] in *. subst o2.
  destruct o1 as [t| |]; cbn; auto.
Qed.
End Draws.

Lemma lcg_mod (s1 s2 : Z) :
  (s1 mod 2 ^ 64 = s2 mod 2 ^ 64)%Z -> Ref.lcg s1 = Ref.lcg s2.
Proof.
  intros H. unfold Ref.lcg.
  rewrite (Z.add_mod (s1 * _)), (Z.add_mod (s2 * _)) by lia.
  rewrite (Z.mul_mod s1), (Z.mul_mod s2) by lia.
  rewrite H. reflexivity.
Qed.

Lemma uniform_mod (s1 s2 : Z) :
  (s1 mod 2 ^ 64 = s2 mod 2 ^ 64)%Z -> Ref.uniform s1 = Ref.uniform s2.
Proof. intros H. unfold Ref.uniform. rewrite (lcg_mod s1 s2 H). reflexivity. Qed.

(** C3 (as the code has it).  [get_ts_pdf] takes no seed: it draws from
    NumPy's global generator.  Its outcome is a function of
    [(t_d, dt, num_samples, max_g, steps)] and of the draws the generator
    yields from the state it is in at the call: started in two states
    from which the generator yields the same draws, two calls with the
    same arguments have the same outcome. *)
Theorem get_ts_pdf_depends_on_draws `{L : Libm} `{R : RandomState} `{F : Factors}
    (Rel : rstate -> rstate -> Prop)
    (fuel : nat) (t_d dt : float) (num_samples : nat)
    (max_g : float) (steps : nat) (s1 s2 : rstate) :
  (forall s1 s2, Rel s1 s2 ->
     fst (rs_exponential s1) = fst (rs_exponential s2) /\
     Rel (snd (rs_exponential s1)) (snd (rs_exponential s2))) ->
  (forall n p s1 s2, Rel s1 s2 ->
     fst (rs_choice n p s1) = fst (rs_choice n p s2) /\
     Rel (snd (rs_choice n p s1)) (snd (rs_choice n p s2))) ->
  Rel s1 s2 ->
  same_run Rel (get_ts_pdf fuel t_d dt num_samples max_g steps s1)
               (get_ts_pdf fuel t_d dt num_samples max_g steps s2).
Proof. intros He Hc. apply get_ts_pdf_rel; assumption. Qed.

Lemma get_ts_pdf_depends_on_draws_witness :
  same_bits (Ref.state_of 1) (Ref.state_of 18446744073709551617) /\
  same_run same_bits
    (get_ts_pdf 64 (of_Z 3) f1 4 (of_Z 5) 20 (Ref.state_of 1))
    (get_ts_pdf 64 (of_Z 3) f1 4 (of_Z 5) 20 (Ref.state_of 18446744073709551617)).
Proof.
  split; [reflexivity|].
  apply (get_ts_pdf_depends_on_draws (L := Ref.libm) (R := Ref.random_state)
           (F := Ref.factors) same_bits).
  - intros s1 s2 H. cbn [rs_exponential Ref.random_state].
    rewrite (uniform_mod s1 s2 H). split; reflexivity.
  - intros n p s1 s2 H. cbn [rs_choice Ref.random_state]. unfold Ref.choice.
    rewrite (uniform_mod s1 s2 H).
    repeat (match goal with |- context [if ?b then _ else _] => destruct b end);
      try (split; [reflexivity|exact H]).
    split; reflexivity.
  - reflexivity.
Defined.

(** Two calls in a row with the same five arguments: the second starts
    where the first left the generator, and returns another sequence. *)
Lemma get_ts_pdf_two_calls_differ :
  get_ts_pdf 64 (of_Z 3) f1 4 (of_Z 5) 20 (Ref.state_of 1)
    = Some (Return (quarters [2; 2; 3; 2]%Z), Ref.state_of 7062582979898595269) /\
  get_ts_pdf 64 (of_Z 3) f1 4 (of_Z 5) 20 (Ref.state_of 7062582979898595269)
    = Some (Return (quarters [6; 6; 6; 3]%Z), Ref.state_of 1206773305466921929).
Proof. split; vm_compute; reflexivity. Qed.

(** ** The spectral synthesizer *)

Lemma arange_length (n : nat) : length (arange n) = n.
Proof. unfold arange. rewrite length_map, length_seq. reflexivity. Qed.

Lemma linspace0_length (stop : float) (num : nat) (endpoint : bool) :
  length (linspace0 stop num endpoint) = num.
Proof.
  unfold linspace0.
  assert (Hy : forall y : list float, length y = num ->
            length (if endpoint && (1 <? num)%nat
                    then <[(num - 1)%nat := stop]> y else y) = num).
  { intros y Hy. destruct (_ && _); [rewrite length_insert|]; exact Hy. }
  apply Hy. rewrite length_map.
  destruct (if endpoint then (num - 1)%nat else num);
    [|destruct (feqb _ _)]; rewrite length_map; apply arange_length.
Qed.

Lemma fftshift_length {A : Type} (a : list A) : length (fftshift a) = length a.
Proof.
  unfold fftshift. rewrite length_app, length_drop, length_take. lia.
Qed.

Lemma fft_lags_length (n : nat) : length (fft_lags n) = n.
Proof.
  unfold fft_lags. rewrite fftshift_length, length_map. apply linspace0_length.
Qed.

Lemma fft_spectrum_length `{L : Libm} `{F : NumpyFFT} `{!NumpyFFTLaws F}
    (t_d dt : float) (n : nat) (pow : float) (spectrum : list float) :
  fft_spectrum t_d dt n pow = Return spectrum -> length spectrum = n.
Proof.
  unfold fft_spectrum.
  destruct (py_div t_d dt) as [r| |]; cbn [bind]; try discriminate.
  destruct (py_div f1 pow) as [inv| |]; cbn [bind]; try discriminate.
  destruct (py_pow f2 inv) as [corr| |]; cbn [bind]; try discriminate.
  destruct n as [|n]; [discriminate|].
  intros [= <-]. rewrite length_map, fft_length, length_map.
  unfold scint_acf. rewrite length_map. apply fft_lags_length.
Qed.

(** A negative value under the square root spoils its whole product. *)
Lemma shaped_has_nan (noise : list complex) (spectrum : list float) :
  length noise = length spectrum ->
  existsb (fun x => x <? f0)%f64 spectrum = true ->
  existsb both_nan
    (zip_with cmul noise (map (fun x => of_real (fsqrt x)) spectrum)) = true.
Proof.
  revert spectrum. induction noise as [|z noise IH]; intros [|x spectrum];
    cbn [length map zip_with existsb]; try discriminate.
  intros [= Hl] H. apply orb_true_iff in H as [H|H]; apply orb_true_iff.
  - left. rewrite (fsqrt_negative x H). unfold both_nan, cmul, of_real.
    cbn [re im]. rewrite !fmul_nan_r, fsub_nan_l, fadd_nan_r. reflexivity.
  - right. apply IH; assumption.
Qed.

Lemma fft_intensity_nan `{L : Libm} `{!LibmLaws L} `{F : NumpyFFT} `{!NumpyFFTLaws F}
    (noise : list complex) (spectrum : list float) :
  length noise = length spectrum ->
  existsb (fun x => x <? f0)%f64 spectrum = true ->
  length (fft_intensity noise spectrum) = length spectrum /\
  forallb is_nan (fft_intensity noise spectrum) = true.
Proof.
  intros Hl Hneg. unfold fft_intensity.
  pose proof (ifft_nan _ (shaped_has_nan noise spectrum Hl Hneg)) as Hall.
  split.
  - rewrite !length_map, ifft_length, length_zip_with, length_map. lia.
  - rewrite forallb_forall in Hall.
    apply forallb_forall. intros y Hy.
    apply in_map_iff in Hy as (x & <- & Hx).
    apply in_map_iff in Hx as (z & <- & Hz).
    apply Hall, both_nan_eq in Hz. subst z. cbn [re im].
    rewrite hypot_nan. reflexivity.
Qed.

(** C4 (as the code has it).  [get_ts_fft] takes the square root of the
    spectrum as it is, no value clamped: whenever the real part of the
    transform has a negative value, its square root is NaN, and every
    element of the series that is returned is NaN. *)
Theorem get_ts_fft_no_clamp `{L : Libm} `{!LibmLaws L}
    `{F : NumpyFFT} `{!NumpyFFTLaws F} `{G : Generator} `{!GeneratorLaws G}
    (entropy : Z) (t_d dt : float) (num_samples : nat) (pow : float)
    (seed : seed_arg) (spectrum : list float) :
  fft_spectrum t_d dt num_samples pow = Return spectrum ->
  existsb (fun x => x <? f0)%f64 spectrum = true ->
  existsb is_nan (map fsqrt spectrum) = true /\
  exists I,
    fst (get_ts_fft entropy t_d dt num_samples pow seed) = Return I /\
    length I = num_samples /\
    forallb is_nan I = true.
Proof.
  intros Hsp Hneg. split.
  { rewrite existsb_map_comp. apply existsb_exists.
    apply existsb_exists in Hneg as (x & Hin & Hx).
    exists x. split; [exact Hin|]. rewrite (fsqrt_negative x Hx). reflexivity. }
  pose proof (fft_spectrum_length _ _ _ _ _ Hsp) as Hlen.
  unfold get_ts_fft.
  pose proof (standard_normal_length num_samples (default_rng entropy seed)) as Ha.
  destruct (standard_normal num_samples (default_rng entropy seed)) as [a rng1].
  pose proof (standard_normal_length num_samples rng1) as Hb.
  destruct (standard_normal num_samples rng1) as [b rng2].
  cbn [fst] in *. rewrite Hsp. cbn [bind].
  eexists. split; [reflexivity|].
  rewrite <- Hlen at 1.
  apply fft_intensity_nan; [|exact Hneg].
  rewrite length_map, length_zip_with, !length_map. lia.
Qed.

Lemma get_ts_fft_no_clamp_witness :
  fft_spectrum (of_Z 10) f1 4 f2 = Return sample_spectrum /\
  existsb (fun x => x <? f0)%f64 sample_spectrum = true /\
  existsb is_nan (map fsqrt sample_spectrum) = true /\
  exists I,
    fst (get_ts_fft 0 (of_Z 10) f1 4 f2 (SeedInt 1)) = Return I /\
    length I = 4%nat /\
    forallb is_nan I = true.
Proof.
  split; [vm_compute; reflexivity|].
  split; [vm_compute; reflexivity|].
  apply (get_ts_fft_no_clamp (L := Ref.libm) (F := Ref.fft) (G := Ref.generator)
           0 (of_Z 10) f1 4 f2 (SeedInt 1) sample_spectrum);
    vm_compute; reflexivity.
Defined.

(** [get_ts_fft(10, 1, 4, pow=2)]: the spectrum is
    [1 + 2 a1 + a2, 1 - a2, 1 - 2 a1 + a2, 1 - a2] with [a1 = exp(-1/200)]
    and [a2 = exp(-4/200)]; its third value is negative. *)
Lemma get_ts_fft_returns_nan :
  fft_spectrum (of_Z 10) f1 4 f2 = Return sample_spectrum /\
  map (fun x => x <? f0)%f64 sample_spectrum = [false; false; true; false] /\
  map fsqrt sample_spectrum !! 2%nat = Some nan /\
  fst (get_ts_fft 0 (of_Z 10) f1 4 f2 (SeedInt 1)) = Return [nan; nan; nan; nan].
Proof. repeat split; vm_compute; reflexivity. Qed.

(** ** Order, symmetry and sign of the binary64 operations *)

Lemma SFcompare_rank (x y : float) :
  is_nan x = false -> is_nan y = false ->
  SFcompare x y = Some (lex_compare (rank x) (rank y)).
Proof.
  destruct x as [s|s| |s m e], y as [t|t| |t n d]; try discriminate; intros _ _;
    try destruct s; try destruct t; try reflexivity.
  cbn [SFcompare rank lex_compare]. rewrite Z.compare_refl.
  rewrite Z.compare_opp, (Z.compare_antisym e d).
  destruct (e ?= d)%Z; reflexivity.
Qed.

Lemma lex_compare_refl (a : Z * Z * Z) : lex_compare a a = Eq.
Proof. destruct a as [[a1 a2] a3]. cbn. rewrite !Z.compare_refl. reflexivity. Qed.

Lemma lex_compare_total (a b : Z * Z * Z) :
  lex_compare a b = Gt -> lex_compare b a = Lt.
Proof.
  destruct a as [[a1 a2] a3], b as [[b1 b2] b3]. cbn.
  rewrite (Z.compare_antisym a1 b1), (Z.compare_antisym a2 b2), (Z.compare_antisym a3 b3).
  destruct (a1 ?= b1)%Z, (a2 ?= b2)%Z, (a3 ?= b3)%Z; cbn; congruence.
Qed.

Lemma lex_compare_lt_le (a b c : Z * Z * Z) :
  lex_compare a b = Lt -> lex_compare b c <> Gt -> lex_compare a c = Lt.
Proof.
  destruct a as [[a1 a2] a3], b as [[b1 b2] b3], c as [[c1 c2] c3]. cbn.
  destruct (Z.compare_spec a1 b1), (Z.compare_spec a2 b2), (Z.compare_spec a3 b3);
    try discriminate; intros _;
    destruct (Z.compare_spec b1 c1), (Z.compare_spec b2 c2), (Z.compare_spec b3 c3);
    try congruence; intros _;
    destruct (Z.compare_spec a1 c1), (Z.compare_spec a2 c2), (Z.compare_spec a3 c3);
    try reflexivity; lia.
Qed.

Lemma fleb_rank (x y : float) :
  is_nan x = false -> is_nan y = false ->
  fleb x y = negb (match lex_compare (rank x) (rank y) with Gt => true | _ => false end).
Proof.
  intros Hx Hy. unfold fleb, SFleb. rewrite (SFcompare_rank x y Hx Hy).
  destruct (lex_compare _ _); reflexivity.
Qed.

Lemma fltb_rank (x y : float) :
  is_nan x = false -> is_nan y = false ->
  fltb x y = match lex_compare (rank x) (rank y) with Lt => true | _ => false end.
Proof.
  intros Hx Hy. unfold fltb, SFltb. rewrite (SFcompare_rank x y Hx Hy).
  destruct (lex_compare _ _); reflexivity.
Qed.

Lemma fltb_not_nan (x y : float) :
  fltb x y = true -> is_nan x = false /\ is_nan y = false.
Proof. destruct x, y; try discriminate; split; reflexivity. Qed.

Lemma fleb_not_nan (x y : float) :
  fleb x y = true -> is_nan x = false /\ is_nan y = false.
Proof. destruct x, y; try discriminate; split; reflexivity. Qed.

(** On numbers, [<=] is reflexive and total, and [<] followed by [<=] is [<=]. *)
Lemma fleb_refl (x : float) : is_nan x = false -> fleb x x = true.
Proof. intros Hx. rewrite fleb_rank, lex_compare_refl by exact Hx. reflexivity. Qed.

Lemma fleb_total (x y : float) :
  is_nan x = false -> is_nan y = false -> fleb x y = false -> fltb y x = true.
Proof.
  intros Hx Hy. rewrite fleb_rank, fltb_rank by assumption.
  destruct (lex_compare (rank x) (rank y)) eqn:E; try discriminate.
  rewrite (lex_compare_total _ _ E). reflexivity.
Qed.

Lemma fltb_fleb_trans (x y z : float) :
  is_nan z = false ->
  fltb x y = true -> fleb y z = true -> fltb x z = true.
Proof.
  intros Hz H1 H2.
  destruct (fltb_not_nan x y H1) as [Hx Hy].
  rewrite fleb_rank in H2 by assumption. rewrite fltb_rank in H1 by assumption.
  rewrite fltb_rank by assumption.
  assert (E1 : lex_compare (rank x) (rank y) = Lt)
    by (destruct (lex_compare (rank x) (rank y)); congruence).
  assert (E2 : lex_compare (rank y) (rank z) <> Gt)
    by (destruct (lex_compare (rank y) (rank z)); simpl in H2; congruence).
  rewrite (lex_compare_lt_le _ _ _ E1 E2). reflexivity.
Qed.

Lemma fltb_fleb (x y : float) : fltb x y = true -> fleb x y = true.
Proof.
  unfold fltb, fleb, SFltb, SFleb. destruct (SFcompare x y) as [[]|]; congruence.
Qed.

(** Multiplication and addition commute, bit for bit. *)
Lemma fmul_comm (x y : float) : fmul x y = fmul y x.
Proof.
  destruct x as [s|s| |s m e], y as [t|t| |t n d]; cbn;
    rewrite ?(xorb_comm s t); try reflexivity.
  rewrite (Pos.mul_comm m n), (Z.add_comm e d). reflexivity.
Qed.

Lemma fadd_comm (x y : float) : fadd x y = fadd y x.
Proof.
  destruct x as [s|s| |s m e], y as [t|t| |t n d]; try reflexivity;
    try (destruct s, t; reflexivity).
  unfold fadd, SFadd. rewrite (Z.min_comm e d), Z.add_comm. reflexivity.
Qed.

(** The magnitude of a rounded number does not depend on the sign it is
    given. *)
Lemma fabs_binary_round_aux (s t : bool) (m e : Z) (l : location) :
  fabs (binary_round_aux prec emax s m e l) = fabs (binary_round_aux prec emax t m e l).
Proof.
  unfold binary_round_aux.
  destruct (shr_fexp prec emax m e l) as [mrs' e'].
  destruct (shr_fexp prec emax _ e' loc_Exact) as [mrs'' e''].
  destruct (shr_m mrs''); try reflexivity.
  destruct (e'' <=? emax - prec)%Z; reflexivity.
Qed.

Lemma fabs_fdiv_fabs (x y : float) : fabs (fdiv x y) = fabs (fdiv (fabs x) (fabs y)).
Proof.
  destruct x as [s|s| |s m e], y as [t|t| |t n d]; try reflexivity.
  change (fabs (S754_finite s m e)) with (S754_finite false m e).
  change (fabs (S754_finite t n d)) with (S754_finite false n d).
  unfold fdiv, SFdiv.
  destruct (SFdiv_core_binary prec emax (Z.pos m) e (Z.pos n) d) as [[mz ez] lz].
  apply fabs_binary_round_aux.
Qed.

Lemma fabs_fopp (x : float) : fabs (fopp x) = fabs x.
Proof. destruct x; reflexivity. Qed.

(** Sums and squares whose sign bit is clear. *)
Lemma fadd_sign_clear (x y : float) :
  sign_clear x = true -> sign_clear y = true -> sign_clear (fadd x y) = true.
Proof.
  destruct x as [s|s| |s m e], y as [t|t| |t n d]; cbn [sign_clear];
    intros Hx Hy; try apply negb_true_iff in Hx; try apply negb_true_iff in Hy;
    subst; try reflexivity.
  unfold fadd, SFadd. cbn [cond_Zopp Z.add].
  apply binary_normalize_sign_clear. lia.
Qed.

Lemma fmul_self_sign_clear (x : float) : sign_clear (fmul x x) = true.
Proof.
  destruct x as [s|s| |s m e]; try reflexivity; destruct s; try reflexivity;
    apply binary_round_aux_sign_clear.
Qed.

Lemma np_sum_from_sign_clear (a : list float) (x : float) :
  sign_clear x = true -> forallb sign_clear a = true ->
  sign_clear (fold_left fadd a x) = true.
Proof.
  revert x. induction a as [|y a IH]; intros x Hx Ha; [exact Hx|].
  cbn in Ha. apply andb_true_iff in Ha as [Hy Ha].
  cbn [fold_left]. apply IH; [apply fadd_sign_clear; assumption | exact Ha].
Qed.

Lemma sign_clear_nonneg (x : float) : sign_clear x = true -> nonneg_or_nan x = true.
Proof.
  intros H. apply nonneg_or_nan_sign.
  destruct x as [s|s| |s m e]; cbn in H; try apply negb_true_iff in H; auto.
Qed.

Lemma fdiv_sign_clear (x y : float) :
  sign_clear x = true -> sign_clear y = true -> sign_clear (fdiv x y) = true.
Proof.
  destruct x as [s|s| |s m e], y as [t|t| |t n d]; cbn [sign_clear];
    intros Hx Hy; try apply negb_true_iff in Hx; try apply negb_true_iff in Hy;
    subst; try reflexivity.
  unfold fdiv, SFdiv.
  destruct (SFdiv_core_binary prec emax (Z.pos m) e (Z.pos n) d) as [[mz ez] lz].
  apply binary_round_aux_sign_clear.
Qed.

Lemma of_nat_sign_clear (n : nat) : sign_clear (of_nat n) = true.
Proof. apply binary_normalize_sign_clear. lia. Qed.

(** ** More on the autocorrelation estimator *)

Lemma raw_acf_returns (ts : series) (remove_spike : bool) :
  ((if remove_spike then 2 else 1) <= length (array_of ts))%nat ->
  exists r, raw_acf ts remove_spike = Return r /\ length r = length (array_of ts).
Proof.
  intros Hlen. unfold raw_acf.
  set (c := map _ (array_of ts)).
  assert (Hc : length c = length (array_of ts)) by apply length_map.
  destruct (correlate_full_tail c) as [r|e|k] eqn:Hr.
  - pose proof (correlate_full_tail_length _ _ Hr) as Hl. cbn [bind].
    destruct remove_spike.
    + destruct (lookup_lt_is_Some_2 r 1) as [a1 Ha1]; [lia|].
      unfold index. rewrite Ha1. cbn [bind].
      eexists. split; [reflexivity|]. rewrite length_insert. lia.
    + exists r. split; [reflexivity|lia].
  - destruct c; [destruct remove_spike; simpl in *; lia | discriminate].
  - destruct c; discriminate.
Qed.

(** X1.  On a series of at least one sample, two when [remove_spike] is
    set, [autocorr] returns, and returns one value per sample. *)
Theorem autocorr_keeps_length (ts : series) (remove_spike : bool) :
  ((if remove_spike then 2 else 1) <= length (array_of ts))%nat ->
  exists ac, autocorr ts remove_spike = Return ac /\
    length ac = length (array_of ts).
Proof.
  intros Hlen. destruct (raw_acf_returns ts remove_spike Hlen) as (r & Hr & Hl).
  destruct (lookup_lt_is_Some_2 r 0) as [a0 Ha0];
    [destruct remove_spike; lia|].
  rewrite (autocorr_normalises ts remove_spike r a0 Hr Ha0).
  eexists. split; [reflexivity|]. rewrite length_map. exact Hl.
Qed.

Lemma autocorr_keeps_length_witness :
  ((if true then 2 else 1) <= length (array_of (TimeSeries sample_ts f2)))%nat /\
  exists ac, autocorr (TimeSeries sample_ts f2) true = Return ac /\
    length ac = length (array_of (TimeSeries sample_ts f2)).
Proof.
  split; [vm_compute; lia|].
  apply (autocorr_keeps_length (TimeSeries sample_ts f2) true). vm_compute; lia.
Defined.

(** X2.  A shorter series makes [autocorr] raise: [ValueError] from
    [np.correlate] when it is empty, [IndexError] from [acf[1]] when it has
    one sample and [remove_spike] is set. *)
Theorem autocorr_short_series (ts : series) (remove_spike : bool) :
  (length (array_of ts) < (if remove_spike then 2 else 1))%nat ->
  autocorr ts remove_spike =
    Raise (if (length (array_of ts) =? 0)%nat then ValueError else IndexError).
Proof.
  unfold autocorr, raw_acf.
  destruct (array_of ts) as [|x [|y a]]; intros Hlen.
  - reflexivity.
  - destruct remove_spike; [reflexivity | simpl in Hlen; lia].
  - destruct remove_spike; simpl in Hlen; lia.
Qed.

Lemma autocorr_short_series_witness :
  (length (array_of (ndarray [f2])) < (if true then 2 else 1))%nat /\
  autocorr (ndarray [f2]) true =
    Raise (if (length (array_of (ndarray [f2])) =? 0)%nat
           then ValueError else IndexError).
Proof.
  split; [vm_compute; lia|].
  apply (autocorr_short_series (ndarray [f2]) true). vm_compute; lia.
Defined.

(** X3.  Whatever the series and the flag, element 0 of what [autocorr]
    returns is exactly one or NaN: it is a number divided by itself. *)
Theorem autocorr_lag0_one_or_nan (ts : series) (remove_spike : bool)
    (ac : list float) :
  autocorr ts remove_spike = Return ac ->
  ac !! 0%nat = Some f1 \/ ac !! 0%nat = Some nan.
Proof.
  unfold autocorr.
  destruct (raw_acf ts remove_spike) as [r| |]; cbn [bind]; try discriminate.
  unfold index. destruct (r !! 0%nat) as [a0|] eqn:H0; cbn [bind]; [|discriminate].
  intros [= <-]. rewrite lookup_map, H0. cbn [option_map].
  rewrite fdiv_self. destruct (_ && _); auto.
Qed.

Lemma autocorr_lag0_one_or_nan_witness :
  autocorr (ndarray sample_ts) false = Return sample_acf /\
  (sample_acf !! 0%nat = Some f1 \/ sample_acf !! 0%nat = Some nan).
Proof.
  split; [vm_compute; reflexivity|].
  apply (autocorr_lag0_one_or_nan (ndarray sample_ts) false sample_acf).
  vm_compute; reflexivity.
Defined.

Lemma squares_sign_clear (c : list float) :
  forallb sign_clear (zip_with fmul c c) = true.
Proof.
  induction c as [|x c IH]; [reflexivity|].
  cbn [zip_with forallb]. rewrite fmul_self_sign_clear. exact IH.
Qed.

(** X4.  The number [autocorr] divides by when the spike is kept, the sum
    of the squared deviations from the mean, is never negative: it is NaN,
    or its sign bit is clear. *)
Theorem raw_acf_lag0_nonneg (ts : series) (r : list float) (r0 : float) :
  raw_acf ts false = Return r -> r !! 0%nat = Some r0 ->
  sign_clear r0 = true /\ nonneg_or_nan r0 = true.
Proof.
  unfold raw_acf.
  destruct (map _ (array_of ts)) as [|x c]; [discriminate|].
  cbn [correlate_full_tail bind]. intros [= <-].
  cbn [length seq map lookup]. intros [= <-].
  assert (H : sign_clear (dot (drop 0 (x :: c)) (x :: c)) = true).
  { unfold dot, np_sum. rewrite drop_0.
    apply np_sum_from_sign_clear; [reflexivity | apply squares_sign_clear]. }
  split; [exact H | apply sign_clear_nonneg, H].
Qed.

Lemma raw_acf_lag0_nonneg_witness :
  exists r r0,
    raw_acf (ndarray sample_ts) false = Return r /\ r !! 0%nat = Some r0 /\
    sign_clear r0 = true /\ nonneg_or_nan r0 = true.
Proof.
  destruct (raw_acf_returns (ndarray sample_ts) false ltac:(vm_compute; lia))
    as (r & Hr & Hl).
  destruct (lookup_lt_is_Some_2 r 0) as [r0 H0];
    [rewrite Hl; vm_compute; lia|].
  exists r, r0. split; [exact Hr|]. split; [exact H0|].
  exact (raw_acf_lag0_nonneg (ndarray sample_ts) r r0 Hr H0).
Defined.

(** X5.  With [remove_spike] the lag-0 sum does not enter the result: lag
    [k >= 1] of what [autocorr] returns is the raw lag-[k] sum divided by
    the raw lag-1 sum. *)
Theorem autocorr_spike_other_lags (ts : series) (r : list float) (r1 : float) :
  raw_acf ts false = Return r -> r !! 1%nat = Some r1 ->
  exists ac, autocorr ts true = Return ac /\
    length ac = length r /\
    forall k x, (1 <= k)%nat -> r !! k = Some x -> ac !! k = Some (x / r1)%f64.
Proof.
  unfold autocorr, raw_acf.
  destruct (correlate_full_tail _) as [c| |]; cbn [bind]; try discriminate.
  intros [= ->] H1. unfold index at 1. rewrite H1. cbn [bind].
  assert (H0 : <[0%nat := r1]> r !! 0%nat = Some r1).
  { apply list_lookup_insert_eq. apply lookup_lt_Some in H1. lia. }
  unfold index. rewrite H0. cbn [bind].
  eexists. split; [reflexivity|].
  split; [rewrite length_map, length_insert; reflexivity|].
  intros k x Hk Hx. rewrite lookup_map, list_lookup_insert_ne by lia.
  rewrite Hx. reflexivity.
Qed.

Lemma autocorr_spike_other_lags_witness :
  exists r r1,
    raw_acf (ndarray sample_ts) false = Return r /\ r !! 1%nat = Some r1 /\
    exists ac, autocorr (ndarray sample_ts) true = Return ac /\
      length ac = length r /\
      forall k x, (1 <= k)%nat -> r !! k = Some x -> ac !! k = Some (x / r1)%f64.
Proof.
  destruct (raw_acf_returns (ndarray sample_ts) false ltac:(vm_compute; lia))
    as (r & Hr & Hl).
  destruct (lookup_lt_is_Some_2 r 1) as [r1 H1];
    [rewrite Hl; vm_compute; lia|].
  exists r, r1. split; [exact Hr|]. split; [exact H1|].
  exact (autocorr_spike_other_lags (ndarray sample_ts) r r1 Hr H1).
Defined.

(** ** More on the diagnostic record *)

(** X6.  [get_diag_stats] needs three samples: on an empty series [np.min]
    raises [ValueError], and on one of one or two samples reading [ac[1]]
    or [ac[2]] raises [IndexError]. *)
Theorem get_diag_stats_short_series `{Libm} `{SciPyStats} `{SciPyOptimize}
    (ts : series) (dt : option float) (pow : float) (use_triangle : bool) :
  (length (array_of ts) < 3)%nat ->
  get_diag_stats ts dt pow use_triangle =
    Raise (if (length (array_of ts) =? 0)%nat then ValueError else IndexError).
Proof.
  unfold get_diag_stats.
  destruct (array_of ts) as [|x [|y [|z a]]]; intros Hlen.
  - reflexivity.
  - reflexivity.
  - reflexivity.
  - simpl in Hlen. lia.
Qed.

Lemma get_diag_stats_short_series_witness :
  (length (array_of (ndarray [f1; f2])) < 3)%nat /\
  get_diag_stats (ndarray [f1; f2]) None five_thirds true =
    Raise (if (length (array_of (ndarray [f1; f2])) =? 0)%nat
           then ValueError else IndexError).
Proof.
  split; [vm_compute; lia|].
  apply (get_diag_stats_short_series (ndarray [f1; f2]) None five_thirds true).
  vm_compute; lia.
Defined.

(** What the record holds when the fit returns. *)
Lemma get_diag_stats_with_fit `{Libm} `{SciPyStats} `{SciPyOptimize}
    (ts : series) (dt : option float) (pow : float) (use_triangle : bool)
    (ac : list float) (p0 p1 p2 : float) (rest : list float) :
  autocorr (ndarray (array_of ts)) false = Return ac ->
  (3 <= length (array_of ts))%nat ->
  fit_acf ac pow use_triangle false = Return (p0 :: p1 :: p2 :: rest) ->
  exists d l1 l2,
    get_diag_stats ts dt pow use_triangle = Return d /\
    ac !! 1%nat = Some l1 /\ ac !! 2%nat = Some l2 /\
    d !! "fit_t_d" =
      Some (PyFloat (match effective_dt ts dt with
                     | Some d0 => p0 * d0
                     | None => p0
                     end)%f64) /\
    d !! "fit_A" = Some (PyFloat p1) /\
    d !! "fit_W" = Some (PyFloat p2) /\
    d !! "lag1" = Some (PyFloat l1) /\
    d !! "lag2" = Some (PyFloat l2).
Proof.
  intros Hac Hlen Hfit.
  destruct (autocorr_returns (array_of ts)) as (ac' & Hac' & Hlen').
  { destruct (array_of ts); simpl in *; [lia|congruence]. }
  rewrite Hac in Hac'. injection Hac' as <-.
  destruct (lookup_lt_is_Some_2 ac 1) as [l1 Hl1]; [lia|].
  destruct (lookup_lt_is_Some_2 ac 2) as [l2 Hl2]; [lia|].
  destruct (np_min (array_of ts)) as [m|e|c] eqn:Hmin;
    [|destruct (array_of ts); simpl in *; [lia|discriminate]..].
  unfold get_diag_stats, effective_dt. rewrite Hmin. cbn [bind]. rewrite Hac. cbn [bind].
  unfold index at 1 2. rewrite Hl1, Hl2. cbn [bind]. rewrite Hfit.
  change (index (p0 :: p1 :: p2 :: rest) 0) with (@Return float p0).
  change (index (p0 :: p1 :: p2 :: rest) 1) with (@Return float p1).
  change (index (p0 :: p1 :: p2 :: rest) 2) with (@Return float p2).
  cbn [bind].
  destruct (match ts with ndarray _ => dt | TimeSeries _ d0 => Some d0 end) as [d0|];
    (eexists _, l1, l2; split; [reflexivity|]);
    repeat split; by simplify_map_eq.
Qed.

(** The sample series under a fit that stops at its starting point. *)
Lemma sample_fit_at_start :
  autocorr (ndarray sample_ts) false = Return sample_acf /\
  @fit_acf Ref.libm at_start sample_acf five_thirds true false = Return [f1; f1; f1] /\
  exists r,
    @get_diag_stats Ref.libm Ref.stats at_start (ndarray sample_ts) None five_thirds true
      = Return r.
Proof.
  assert (Hac : autocorr (ndarray sample_ts) false = Return sample_acf)
    by (vm_compute; reflexivity).
  assert (Hfit : @fit_acf Ref.libm at_start sample_acf five_thirds true false
                 = Return [f1; f1; f1]) by (vm_compute; reflexivity).
  split; [exact Hac|]. split; [exact Hfit|].
  destruct (@get_diag_stats_with_fit Ref.libm Ref.stats at_start
              (ndarray sample_ts) None five_thirds true sample_acf f1 f1 f1 []
              Hac ltac:(vm_compute; lia) Hfit) as (r & _ & _ & Hr & _).
  exists r. exact Hr.
Qed.

(** X7.  When the fit returns its three parameters, the record holds them
    as [fit_t_d], [fit_A] and [fit_W], the first multiplied by the sampling
    interval when there is one, and the two first lags of the
    autocorrelation as [lag1] and [lag2]. *)
Theorem get_diag_stats_fit_parameters `{Libm} `{SciPyStats} `{SciPyOptimize}
    (ts : series) (dt : option float) (pow : float) (use_triangle : bool)
    (ac : list float) (p0 p1 p2 : float) (rest : list float) :
  autocorr (ndarray (array_of ts)) false = Return ac ->
  (3 <= length (array_of ts))%nat ->
  fit_acf ac pow use_triangle false = Return (p0 :: p1 :: p2 :: rest) ->
  exists d l1 l2,
    get_diag_stats ts dt pow use_triangle = Return d /\
    ac !! 1%nat = Some l1 /\ ac !! 2%nat = Some l2 /\
    d !! "fit_t_d" =
      Some (PyFloat (match effective_dt ts dt with
                     | Some d0 => p0 * d0
                     | None => p0
                     end)%f64) /\
    d !! "fit_A" = Some (PyFloat p1) /\
    d !! "fit_W" = Some (PyFloat p2) /\
    d !! "lag1" = Some (PyFloat l1) /\
    d !! "lag2" = Some (PyFloat l2).
Proof. apply get_diag_stats_with_fit. Qed.

Lemma get_diag_stats_fit_parameters_witness :
  autocorr (ndarray (array_of (TimeSeries sample_ts f2))) false = Return sample_acf /\
  (3 <= length (array_of (TimeSeries sample_ts f2)))%nat /\
  @fit_acf Ref.libm at_start sample_acf five_thirds true false = Return [f1; f1; f1] /\
  exists d l1 l2,
    @get_diag_stats Ref.libm Ref.stats at_start (TimeSeries sample_ts f2) None five_thirds true
      = Return d /\
    sample_acf !! 1%nat = Some l1 /\ sample_acf !! 2%nat = Some l2 /\
    d !! "fit_t_d" =
      Some (PyFloat (match effective_dt (TimeSeries sample_ts f2) None with
                     | Some d0 => f1 * d0
                     | None => f1
                     end)%f64) /\
    d !! "fit_A" = Some (PyFloat f1) /\
    d !! "fit_W" = Some (PyFloat f1) /\
    d !! "lag1" = Some (PyFloat l1) /\
    d !! "lag2" = Some (PyFloat l2).
Proof.
  split; [vm_compute; reflexivity|].
  split; [vm_compute; lia|].
  split; [vm_compute; reflexivity|].
  apply (@get_diag_stats_fit_parameters Ref.libm Ref.stats at_start
           (TimeSeries sample_ts f2) None five_thirds true sample_acf f1 f1 f1 []).
  - vm_compute; reflexivity.
  - vm_compute; lia.
  - vm_compute; reflexivity.
Defined.

(** X8.  The sampling interval touches [fit_t_d] and nothing else: the
    record for an interval [d], given as the argument or carried by a
    [TimeSeries] (whose own interval overrides the argument), is the record
    without an interval with [fit_t_d] multiplied by [d]. *)
Theorem get_diag_stats_dt_scales_fit_t_d `{Libm} `{SciPyStats} `{SciPyOptimize}
    (a : list float) (pow : float) (use_triangle : bool)
    (r : gmap string pyval) :
  get_diag_stats (ndarray a) None pow use_triangle = Return r ->
  exists p0,
    r !! "fit_t_d" = Some (PyFloat p0) /\
    forall (d : float) (dt : option float),
      get_diag_stats (ndarray a) (Some d) pow use_triangle
        = Return (<["fit_t_d" := PyFloat (p0 * d)%f64]> r) /\
      get_diag_stats (TimeSeries a d) dt pow use_triangle
        = Return (<["fit_t_d" := PyFloat (p0 * d)%f64]> r).
Proof.
  unfold get_diag_stats. cbn [array_of].
  destruct (np_min a) as [m| |]; cbn [bind]; try discriminate.
  destruct (autocorr _ _) as [ac| |]; cbn [bind]; try discriminate.
  destruct (index ac 1) as [l1| |]; cbn [bind]; try discriminate.
  destruct (index ac 2) as [l2| |]; cbn [bind]; try discriminate.
  destruct (match fit_acf ac pow use_triangle false with
            | Raise RuntimeError => Return [nan; nan; nan]
            | r => r
            end) as [popt| |]; cbn [bind]; try discriminate.
  destruct (index popt 0) as [p0| |]; cbn [bind]; try discriminate.
  destruct (index popt 1) as [p1| |]; cbn [bind]; try discriminate.
  destruct (index popt 2) as [p2| |]; cbn [bind]; try discriminate.
  intros [= <-]. exists p0. split; [by simplify_map_eq|].
  intros d dt. split; reflexivity.
Qed.

Lemma get_diag_stats_dt_scales_fit_t_d_witness :
  exists r,
    @get_diag_stats Ref.libm Ref.stats at_start (ndarray sample_ts) None five_thirds true
      = Return r /\
    exists p0,
      r !! "fit_t_d" = Some (PyFloat p0) /\
      forall (d : float) (dt : option float),
        @get_diag_stats Ref.libm Ref.stats at_start (ndarray sample_ts) (Some d) five_thirds true
          = Return (<["fit_t_d" := PyFloat (p0 * d)%f64]> r) /\
        @get_diag_stats Ref.libm Ref.stats at_start (TimeSeries sample_ts d) dt five_thirds true
          = Return (<["fit_t_d" := PyFloat (p0 * d)%f64]> r).
Proof.
  destruct sample_fit_at_start as (_ & _ & r & Hr).
  exists r. split; [exact Hr|].
  exact (@get_diag_stats_dt_scales_fit_t_d Ref.libm Ref.stats at_start
           sample_ts five_thirds true r Hr).
Defined.

(** X9.  Only [RuntimeError] is recovered from: any other exception of the
    fit leaves [get_diag_stats] as it is, and no record is returned. *)
Theorem get_diag_stats_propagates `{Libm} `{SciPyStats} `{SciPyOptimize}
    (ts : series) (dt : option float) (pow : float) (use_triangle : bool)
    (ac : list float) (e : exn) :
  autocorr (ndarray (array_of ts)) false = Return ac ->
  (3 <= length (array_of ts))%nat ->
  fit_acf ac pow use_triangle false = Raise e ->
  e <> RuntimeError ->
  get_diag_stats ts dt pow use_triangle = Raise e.
Proof.
  intros Hac Hlen Hfit He.
  destruct (autocorr_returns (array_of ts)) as (ac' & Hac' & Hlen').
  { destruct (array_of ts); simpl in *; [lia|congruence]. }
  rewrite Hac in Hac'. injection Hac' as <-.
  destruct (lookup_lt_is_Some_2 ac 1) as [l1 Hl1]; [lia|].
  destruct (lookup_lt_is_Some_2 ac 2) as [l2 Hl2]; [lia|].
  destruct (np_min (array_of ts)) as [m|e'|c] eqn:Hmin;
    [|destruct (array_of ts); simpl in *; [lia|discriminate]..].
  unfold get_diag_stats. rewrite Hmin. cbn [bind]. rewrite Hac. cbn [bind].
  unfold index at 1 2. rewrite Hl1, Hl2. cbn [bind]. rewrite Hfit.
  destruct e; try reflexivity. congruence.
Qed.

(** A constant series: its autocorrelation is all NaN, which [curve_fit]
    refuses with [ValueError]. *)
Lemma get_diag_stats_propagates_witness :
  autocorr (ndarray (array_of (ndarray [f1; f1; f1]))) false = Return [nan; nan; nan] /\
  (3 <= length (array_of (ndarray [f1; f1; f1])))%nat /\
  @fit_acf Ref.libm checked [nan; nan; nan] five_thirds true false = Raise ValueError /\
  @get_diag_stats Ref.libm Ref.stats checked (ndarray [f1; f1; f1]) None five_thirds true
    = Raise ValueError.
Proof.
  split; [vm_compute; reflexivity|].
  split; [vm_compute; lia|].
  split; [vm_compute; reflexivity|].
  apply (@get_diag_stats_propagates Ref.libm Ref.stats checked
           (ndarray [f1; f1; f1]) None five_thirds true [nan; nan; nan] ValueError).
  - vm_compute; reflexivity.
  - vm_compute; lia.
  - vm_compute; reflexivity.
  - discriminate.
Defined.

(** ** The model of the autocorrelation *)

(** X10.  The triangular taper of a positive width, finite or not, is
    exactly one at lag zero, and zero at every abscissa that is not within
    the width, a NaN among them; it is an even function of the lag. *)
Theorem triangle_taper (x : list float) (L : float) :
  (f0 <? L)%f64 = true ->
  (forall k v, x !! k = Some v -> is_zero v = true -> triangle x L !! k = Some f1) /\
  (forall k v, x !! k = Some v -> (fabs v <=? L)%f64 = false ->
     triangle x L !! k = Some f0) /\
  triangle (map fopp x) L = triangle x L.
Proof.
  intros HL. unfold triangle. repeat split.
  - intros k v Hk Hv. rewrite lookup_map, Hk. cbn [option_map]. f_equal.
    destruct v as [s|s| |s m e]; try discriminate.
    destruct L as [t|t| |t n d]; try destruct t; try discriminate;
      destruct s; reflexivity.
  - intros k v Hk Hv. rewrite lookup_map, Hk. cbn [option_map]. rewrite Hv.
    reflexivity.
  - rewrite map_map. apply map_ext. intros v. rewrite fabs_fopp. reflexivity.
Qed.

Lemma triangle_taper_witness :
  (f0 <? of_Z 5)%f64 = true /\
  (forall k v, arange 5 !! k = Some v -> is_zero v = true ->
     triangle (arange 5) (of_Z 5) !! k = Some f1) /\
  (forall k v, arange 5 !! k = Some v -> (fabs v <=? of_Z 5)%f64 = false ->
     triangle (arange 5) (of_Z 5) !! k = Some f0) /\
  triangle (map fopp (arange 5)) (of_Z 5) = triangle (arange 5) (of_Z 5).
Proof.
  split; [vm_compute; reflexivity|].
  apply (triangle_taper (arange 5) (of_Z 5)). vm_compute; reflexivity.
Defined.

(** X11.  The model autocorrelation [scint_acf] is even in the lag and in
    the timescale, bit for bit: only the magnitude of their ratio enters. *)
Theorem scint_acf_even `{L : Libm} (x : list float) (t_d pow : float) :
  scint_acf (map fopp x) t_d pow = scint_acf x t_d pow /\
  scint_acf x (- t_d)%f64 pow = scint_acf x t_d pow.
Proof.
  unfold scint_acf. split.
  - rewrite map_map. apply map_ext. intros v.
    rewrite (fabs_fdiv_fabs (- v)%f64 t_d), fabs_fopp, <- fabs_fdiv_fabs. reflexivity.
  - apply map_ext. intros v.
    rewrite (fabs_fdiv_fabs v (- t_d)%f64), fabs_fopp, <- fabs_fdiv_fabs. reflexivity.
Qed.

(** X12.  At lag zero the model autocorrelation is exactly one, for every
    timescale that is neither zero nor NaN, as soon as the power of zero is
    zero, which it is for a positive exponent. *)
Theorem scint_acf_zero_lag `{L : Libm} `{!LibmLaws L}
    (x : list float) (t_d pow : float) (k : nat) (v : float) :
  np_power f0 pow = f0 ->
  is_zero t_d = false -> is_nan t_d = false ->
  x !! k = Some v -> is_zero v = true ->
  scint_acf x t_d pow !! k = Some f1.
Proof.
  intros Hpow Hz Hn Hk Hv. unfold scint_acf. rewrite lookup_map, Hk. cbn [option_map].
  assert (E : fabs (v / t_d)%f64 = f0).
  { destruct v as [s|s| |s m e]; try discriminate.
    destruct t_d as [t|t| |t n d]; try discriminate; destruct s, t; reflexivity. }
  rewrite E, Hpow. change (- f0)%f64 with (S754_zero true).
  rewrite exp_zero. reflexivity.
Qed.

Lemma scint_acf_zero_lag_witness :
  np_power f0 five_thirds = f0 /\
  is_zero (of_Z 10) = false /\ is_nan (of_Z 10) = false /\
  arange 4 !! 0%nat = Some f0 /\ is_zero f0 = true /\
  scint_acf (arange 4) (of_Z 10) five_thirds !! 0%nat = Some f1.
Proof.
  split; [vm_compute; reflexivity|].
  split; [vm_compute; reflexivity|].
  split; [vm_compute; reflexivity|].
  split; [vm_compute; reflexivity|].
  split; [vm_compute; reflexivity|].
  apply (scint_acf_zero_lag (L := Ref.libm) (arange 4) (of_Z 10) five_thirds 0 f0);
    vm_compute; reflexivity.
Defined.

(** X13.  [noisy_scint_acf] returns one value per abscissa, and needs two
    abscissae to size the taper, one without it: on fewer it raises
    [IndexError]. *)
Theorem noisy_scint_acf_shape `{L : Libm} (x : list float) (t_d A W pow : float)
    (use_triangle : bool) :
  if (length x <? (if use_triangle then 2 else 1))%nat
  then noisy_scint_acf x t_d A W pow use_triangle = Raise IndexError
  else exists y, noisy_scint_acf x t_d A W pow use_triangle = Return y /\
         length y = length x.
Proof.
  unfold noisy_scint_acf.
  destruct x as [|x0 [|x1 x]], use_triangle; cbn [length Nat.ltb Nat.leb];
    try reflexivity.
  - eexists. split; [reflexivity|]. reflexivity.
  - cbn [index lookup bind unit_impulse length].
    eexists. split; [reflexivity|].
    rewrite length_zip_with, length_zip_with, !length_map.
    unfold triangle, scint_acf. rewrite !length_map. cbn [length].
    rewrite length_replicate. lia.
  - cbn [bind unit_impulse length].
    eexists. split; [reflexivity|].
    rewrite length_zip_with, length_zip_with, !length_map.
    unfold scint_acf. rewrite !length_map. cbn [length].
    rewrite !length_replicate. cbn [length]. lia.
Qed.

(** ** The nearest grid point *)

(** The position [argmin] reports lies in the part of the array it has
    seen. *)
Lemma argmin_fold_lt (l : list float) (mp : float) (at_ i : nat) :
  (at_ < i)%nat ->
  (snd (fst (fold_left argmin_step l (mp, at_, i))) < i + length l)%nat.
Proof.
  revert mp at_ i. induction l as [|y l IH]; intros mp at_ i Hlt.
  - cbn. lia.
  - cbn [fold_left length]. unfold argmin_step at 2.
    destruct (is_nan mp); [|destruct (negb _)];
      (eapply Nat.lt_le_trans; [apply IH; lia | lia]).
Qed.

Lemma np_argmin_lt (a : list float) (k : nat) :
  np_argmin a = Return k -> (k < length a)%nat.
Proof.
  destruct a as [|x a]; [discriminate|]. intros [= <-].
  apply (argmin_fold_lt a x 0 1). lia.
Qed.

Lemma find_nearest_lt (arr : list float) (val : float) (k : nat) :
  find_nearest arr val = Return k -> (k < length arr)%nat.
Proof.
  intros Hk. apply np_argmin_lt in Hk. rewrite length_map in Hk. exact Hk.
Qed.

(** Over numbers, [argmin] keeps the first least element of what it has
    seen. *)
Lemma argmin_fold_least (l pre : list float) (mp : float) (at_ : nat) :
  forallb (fun y => negb (is_nan y)) pre = true ->
  forallb (fun y => negb (is_nan y)) l = true ->
  pre !! at_ = Some mp ->
  (forall j y, pre !! j = Some y ->
     (mp <=? y)%f64 = true /\ ((j < at_)%nat -> (mp <? y)%f64 = true)) ->
  exists mp',
    (pre ++ l) !! snd (fst (fold_left argmin_step l (mp, at_, length pre))) = Some mp' /\
    forall j y, (pre ++ l) !! j = Some y ->
      (mp' <=? y)%f64 = true /\
      ((j < snd (fst (fold_left argmin_step l (mp, at_, length pre))))%nat ->
       (mp' <? y)%f64 = true).
Proof.
  revert pre mp at_. induction l as [|y l IH]; intros pre mp at_ Hpre Hl Hat Hleast.
  - cbn [fold_left fst snd]. rewrite app_nil_r. exists mp. split; assumption.
  - cbn [forallb] in Hl. apply andb_true_iff in Hl as [Hy Hl].
    apply negb_true_iff in Hy.
    assert (Hmp : is_nan mp = false).
    { rewrite forallb_forall in Hpre.
      apply negb_true_iff, Hpre, list_elem_of_In.
      eapply list_elem_of_lookup_2. exact Hat. }
    assert (Hpre' : forallb (fun y => negb (is_nan y)) (pre ++ [y]) = true).
    { rewrite forallb_app, Hpre. cbn. rewrite Hy. reflexivity. }
    assert (Hstep : argmin_step (mp, at_, length pre) y =
              if (mp <=? y)%f64 then (mp, at_, length (pre ++ [y]))
              else (y, length pre, length (pre ++ [y]))).
    { unfold argmin_step, fgeb. rewrite Hmp, length_app, Nat.add_1_r.
      destruct (mp <=? y)%f64; reflexivity. }
    cbn [fold_left]. rewrite Hstep.
    replace (pre ++ y :: l) with ((pre ++ [y]) ++ l)
      by (rewrite <- app_assoc; reflexivity).
    destruct (mp <=? y)%f64 eqn:Hle.
    + apply IH; [exact Hpre' | exact Hl | |].
      * rewrite lookup_app_l by (apply lookup_lt_Some in Hat; exact Hat). exact Hat.
      * intros j z Hj.
        destruct (Nat.lt_ge_cases j (length pre)) as [Hlt|Hge].
        -- rewrite lookup_app_l in Hj by exact Hlt. apply Hleast. exact Hj.
        -- rewrite lookup_app_r in Hj by exact Hge.
           destruct (j - length pre)%nat; [|destruct n; discriminate].
           injection Hj as <-. split; [exact Hle|].
           intros Hj'. apply lookup_lt_Some in Hat. lia.
    + pose proof (fleb_total mp y Hmp Hy Hle) as Hlt.
      apply IH; [exact Hpre' | exact Hl | |].
      * rewrite lookup_app_r by lia. rewrite Nat.sub_diag. reflexivity.
      * intros j z Hj.
        destruct (Nat.lt_ge_cases j (length pre)) as [Hj'|Hge].
        -- rewrite lookup_app_l in Hj by exact Hj'.
           destruct (Hleast j z Hj) as [Hmz _].
           assert (Hz : is_nan z = false) by (apply (fleb_not_nan mp z Hmz)).
           pose proof (fltb_fleb_trans y mp z Hz Hlt Hmz) as Hyz.
           split; [apply fltb_fleb; exact Hyz | intros _; exact Hyz].
        -- rewrite lookup_app_r in Hj by exact Hge.
           destruct (j - length pre)%nat eqn:Hd; [|destruct n; discriminate].
           injection Hj as <-. split; [apply fleb_refl; exact Hy|]. lia.
Qed.

(** X14.  On a non-empty array [find_nearest] returns a position of the
    array, and when no distance to [val] is NaN the element there is as
    near to [val] as any other and strictly nearer than every element
    before it: it is the first nearest one. *)
Theorem find_nearest_first_nearest (arr : list float) (val : float) :
  arr <> [] ->
  forallb (fun x => negb (is_nan (fabs (x - val)%f64))) arr = true ->
  exists k xk,
    find_nearest arr val = Return k /\ arr !! k = Some xk /\
    forall j x, arr !! j = Some x ->
      (fabs (xk - val) <=? fabs (x - val))%f64 = true /\
      ((j < k)%nat -> (fabs (xk - val) <? fabs (x - val))%f64 = true).
Proof.
  intros Hne Hnan. unfold find_nearest.
  destruct arr as [|x0 arr]; [congruence|].
  cbn [map np_argmin]. cbn [forallb] in Hnan.
  apply andb_true_iff in Hnan as [H0 Hnan].
  set (d := fun x : float => fabs (x - val)%f64) in *.
  change (negb (is_nan (d x0)) = true) in H0.
  destruct (argmin_fold_least (map d arr) [d x0] (d x0) 0) as (mp & Hat & Hleast).
  - cbn [forallb]. rewrite H0. reflexivity.
  - rewrite forallb_forall in Hnan. apply forallb_forall.
    intros y Hy. apply in_map_iff in Hy as (x & <- & Hx). apply Hnan, Hx.
  - reflexivity.
  - intros [|[|j]] y; try discriminate. intros [= <-].
    split; [apply fleb_refl, negb_true_iff, H0 | lia].
  - cbn [length app] in Hat, Hleast.
    set (k := snd (fst (fold_left argmin_step (map d arr) (d x0, 0%nat, 1%nat)))) in *.
    change (d x0 :: map d arr) with (map d (x0 :: arr)) in Hat, Hleast.
    rewrite lookup_map in Hat.
    destruct ((x0 :: arr) !! k) as [xk|] eqn:Hk; [|discriminate].
    injection Hat as <-.
    exists k, xk. split; [reflexivity|]. split; [exact Hk|].
    intros j x Hj. apply Hleast. rewrite lookup_map, Hj. reflexivity.
Qed.

Lemma find_nearest_first_nearest_witness :
  quarters [0; 5; 10; 15]%Z <> [] /\
  forallb (fun x => negb (is_nan (fabs (x - fhalf)%f64))) (quarters [0; 5; 10; 15]%Z)
    = true /\
  exists k xk,
    find_nearest (quarters [0; 5; 10; 15]%Z) fhalf = Return k /\
    quarters [0; 5; 10; 15]%Z !! k = Some xk /\
    forall j x, quarters [0; 5; 10; 15]%Z !! j = Some x ->
      (fabs (xk - fhalf) <=? fabs (x - fhalf))%f64 = true /\
      ((j < k)%nat -> (fabs (xk - fhalf) <? fabs (x - fhalf))%f64 = true).
Proof.
  split; [discriminate|].
  split; [vm_compute; reflexivity|].
  apply (find_nearest_first_nearest (quarters [0; 5; 10; 15]%Z) fhalf).
  - discriminate.
  - vm_compute; reflexivity.
Defined.

Lemma argmin_fold_nan (l : list float) (at_ i : nat) :
  snd (fst (fold_left argmin_step l (nan, at_, i))) = at_.
Proof.
  revert i. induction l as [|y l IH]; intros i; [reflexivity|]. apply IH.
Qed.

(** X15.  A NaN is nearest to nothing, and [find_nearest] does not say so:
    for a NaN value it returns position 0 of any non-empty array; on an
    empty array it raises [ValueError]. *)
Theorem find_nearest_nan (x : float) (arr : list float) (val : float) :
  find_nearest [] val = Raise ValueError /\
  find_nearest (x :: arr) nan = Return 0%nat.
Proof.
  split; [reflexivity|].
  unfold find_nearest. cbn [map np_argmin]. rewrite fsub_nan_r.
  change (fabs nan) with nan. rewrite argmin_fold_nan. reflexivity.
Qed.

(** ** The joint density, again *)

(** X16.  The joint density of two gains is symmetric in them, bit for
    bit, whichever of its two closed forms is taken. *)
Theorem bpdf_symmetric `{L : Libm} (g1 g2 ac : float) :
  bpdf g1 [g2] ac = bpdf g2 [g1] ac.
Proof.
  unfold bpdf, bessel_arg, bpdf_asymptotic, bpdf_primary.
  cbn [map existsb zip_with].
  rewrite (fmul_comm g2 g1), (fadd_comm g2 g1). reflexivity.
Qed.

(** ** The Markov-chain synthesizer, again *)

Lemma np_argmin_returns (a : list float) :
  a <> [] -> exists k, np_argmin a = Return k.
Proof. destruct a as [|x a]; [congruence|]. intros _. eexists. reflexivity. Qed.

Lemma find_nearest_returns (arr : list float) (val : float) :
  arr <> [] -> exists k, find_nearest arr val = Return k /\ (k < length arr)%nat.
Proof.
  intros Hne. destruct (np_argmin_returns (map (fun x => fabs (x - val)%f64) arr))
    as [k Hk].
  { destruct arr; [congruence|discriminate]. }
  exists k. split; [exact Hk|]. apply (find_nearest_lt arr val k Hk).
Qed.

Lemma take_idx_total {A : Type} (a : list A) (idx : list nat) :
  Forall (fun k => (k < length a)%nat) idx -> exists Y, take_idx a idx = Return Y.
Proof.
  induction idx as [|k idx IH]; intros Hall.
  - exists []. reflexivity.
  - inversion Hall as [|? ? Hk Hrest]; subst.
    destruct (lookup_lt_is_Some_2 a k Hk) as [x Hx].
    destruct (IH Hrest) as [Y HY].
    exists (x :: Y). cbn [take_idx]. unfold index. rewrite Hx. cbn [bind].
    rewrite HY. reflexivity.
Qed.

(** The chain keeps every index within the grid, and leaves only by
    returning or through [sys.exit(1)]. *)
Lemma chain_in_grid `{L : Libm} `{R : RandomState} `{!RandomStateLaws R}
    (possible_g ac_arr : list float) (steps : nat) (range ts_idx : list nat)
    (s s' : rstate) (o : outcome (list nat)) :
  length possible_g = steps ->
  (2 <= length ac_arr)%nat ->
  Forall (fun k => (k < steps)%nat) ts_idx ->
  Forall (fun i => (i - 1 < length ts_idx)%nat) range ->
  chain possible_g ac_arr steps range ts_idx s = (o, s') ->
  o = SysExit 1 \/ exists t, o = Return t /\ Forall (fun k => (k < steps)%nat) t.
Proof.
  intros Hg Hac. revert ts_idx s.
  induction range as [|i range IH]; intros ts_idx s Hidx Hrange; cbn [chain].
  - intros [= <- _]. right. exists ts_idx. split; [reflexivity|exact Hidx].
  - inversion Hrange as [|? ? Hi Hrest]; subst.
    destruct (lookup_lt_is_Some_2 ts_idx (i - 1) Hi) as [k Hk].
    assert (Hks : (k < length possible_g)%nat).
    { rewrite Forall_lookup in Hidx. exact (Hidx _ _ Hk). }
    destruct (lookup_lt_is_Some_2 possible_g k Hks) as [g1 Hg1].
    destruct (lookup_lt_is_Some_2 ac_arr 1) as [ac Hac1]; [lia|].
    unfold index. rewrite Hk. cbn [bind]. rewrite Hg1. cbn [bind].
    rewrite Hac1. cbn [bind].
    destruct (rs_choice _ _ s) as [[k'| |] s1] eqn:Hc.
    + apply IH.
      * apply Forall_insert; [exact Hidx|]. exact (choice_lt _ _ _ _ _ Hc).
      * rewrite length_insert. exact Hrest.
    + intros [= <- _]. left. reflexivity.
    + intros [= <- _]. left. reflexivity.
Qed.

(** X17.  With a non-zero sampling interval, a finite ratio of timescale to
    interval, a grid of two points or more and one sample or more,
    [get_ts_pdf] raises nothing once its rejection loop has ended: it
    returns a series, or leaves through [sys.exit(1)]. *)
Theorem get_ts_pdf_returns_or_exits `{L : Libm} `{R : RandomState}
    `{!RandomStateLaws R} `{F : Factors}
    (fuel : nat) (t_d dt : float) (num_samples : nat) (max_g : float)
    (steps : nat) (s s' : rstate) (o : outcome (list float)) :
  is_zero dt = false -> is_zero hwem_m = false ->
  is_finite (t_d / dt)%f64 = true ->
  (2 <= steps)%nat -> (1 <= num_samples)%nat ->
  get_ts_pdf fuel t_d dt num_samples max_g steps s = Some (o, s') ->
  o = SysExit 1 \/ exists Y, o = Return Y.
Proof.
  intros Hdt Hm Hfin Hsteps Hn. unfold get_ts_pdf, py_div.
  rewrite Hdt. cbn [bind]. rewrite Hm.
  destruct (draw_init _ _ _ _) as [[init_g s0]|]; [|discriminate].
  destruct (find_nearest_returns (linspace0 max_g steps false) init_g)
    as (k & Hk & Hlt).
  { intros E. apply (f_equal length) in E. rewrite linspace0_length in E.
    cbn in E. lia. }
  rewrite linspace0_length in Hlt.
  rewrite Hk. cbn [bind].
  destruct num_samples as [|n]; [lia|]. cbn [replicate].
  change (index (0%nat :: replicate n 0%nat) 0) with (@Return nat 0%nat).
  change (<[0%nat := k]> (0%nat :: replicate n 0%nat)) with (k :: replicate n 0%nat).
  cbn [bind].
  destruct (int_ceil (t_d / dt)%f64) as [u|e|c] eqn:Hu;
    [|destruct (t_d / dt)%f64; discriminate..].
  cbn [bind].
  destruct (chain _ _ _ _ _ _) as [oc s1] eqn:Hc.
  apply chain_in_grid in Hc.
  - destruct Hc as [-> | (t & -> & Ht)].
    + intros [= <- _]. left. reflexivity.
    + intros [= <- _]. right. apply take_idx_total.
      rewrite linspace0_length. exact Ht.
  - apply linspace0_length.
  - rewrite length_map, arange_length. exact Hsteps.
  - constructor; [exact Hlt|].
    apply Forall_forall. intros x Hx. apply elem_of_replicate in Hx as [-> _]. lia.
  - apply Forall_forall. intros i Hi. apply list_elem_of_In, in_seq in Hi.
    cbn [length]. rewrite length_replicate. lia.
Qed.

Lemma get_ts_pdf_returns_or_exits_witness :
  is_zero f1 = false /\ is_zero hwem_m = false /\
  is_finite (of_Z 3 / f1)%f64 = true /\
  (2 <= 20)%nat /\ (1 <= 4)%nat /\
  get_ts_pdf 64 (of_Z 3) f1 4 (of_Z 5) 20 (Ref.state_of 1)
    = Some (Return (quarters [2; 2; 3; 2]%Z), Ref.state_of 7062582979898595269) /\
  (Return (quarters [2; 2; 3; 2]%Z) = SysExit 1 \/
   exists Y, Return (quarters [2; 2; 3; 2]%Z) = Return Y).
Proof.
  split; [vm_compute; reflexivity|].
  split; [vm_compute; reflexivity|].
  split; [vm_compute; reflexivity|].
  split; [lia|]. split; [lia|].
  split; [vm_compute; reflexivity|].
  apply (get_ts_pdf_returns_or_exits (L := Ref.libm) (R := Ref.random_state)
           (F := Ref.factors) 64 (of_Z 3) f1 4 (of_Z 5) 20 (Ref.state_of 1)
           (Ref.state_of 7062582979898595269) (Return (quarters [2; 2; 3; 2]%Z)));
    try (vm_compute; reflexivity); lia.
Defined.

(** X18.  Sizes the sampler cannot serve: an empty grid makes
    [find_nearest] raise [ValueError]; otherwise no sample to fill makes
    [ts_idx[0]] raise [IndexError], and so does [ac_arr[1]] on a grid of one
    point as soon as a second sample is asked for. *)
Theorem get_ts_pdf_bad_sizes `{L : Libm} `{R : RandomState} `{F : Factors}
    (fuel : nat) (t_d dt : float) (num_samples : nat) (max_g : float)
    (steps : nat) (s s' : rstate) (o : outcome (list float)) :
  is_zero dt = false -> is_zero hwem_m = false ->
  is_finite (t_d / dt)%f64 = true ->
  (steps =? 0)%nat || (num_samples =? 0)%nat
    || ((steps =? 1)%nat && (2 <=? num_samples)%nat) = true ->
  get_ts_pdf fuel t_d dt num_samples max_g steps s = Some (o, s') ->
  o = Raise (if (steps =? 0)%nat then ValueError else IndexError).
Proof.
  intros Hdt Hm Hfin Hsz. unfold get_ts_pdf, py_div.
  rewrite Hdt. cbn [bind]. rewrite Hm.
  destruct (draw_init _ _ _ _) as [[init_g s0]|]; [|discriminate].
  destruct steps as [|steps].
  { intros [= <- _]. reflexivity. }
  destruct (find_nearest_returns (linspace0 max_g (S steps) false) init_g)
    as (k & Hk & Hlt).
  { intros E. apply (f_equal length) in E. rewrite linspace0_length in E.
    discriminate. }
  rewrite linspace0_length in Hlt. rewrite Hk. cbn [bind].
  destruct num_samples as [|n].
  { intros [= <- _]. reflexivity. }
  cbn [Nat.eqb orb] in Hsz. apply andb_true_iff in Hsz as [Hs1 Hn2].
  destruct steps as [|steps]; [|discriminate].
  destruct n as [|n]; [discriminate|].
  cbn [replicate].
  change (index (0%nat :: 0%nat :: replicate n 0%nat) 0) with (@Return nat 0%nat).
  change (<[0%nat := k]> (0%nat :: 0%nat :: replicate n 0%nat))
    with (k :: 0%nat :: replicate n 0%nat).
  cbn [bind].
  destruct (int_ceil (t_d / dt)%f64) as [u|e|c] eqn:Hu;
    [|destruct (t_d / dt)%f64; discriminate..].
  cbn [bind]. assert (k = 0%nat) as -> by lia.
  destruct (linspace0 max_g 1 false) as [|g0 gs] eqn:Hgrid.
  { apply (f_equal length) in Hgrid. rewrite linspace0_length in Hgrid.
    discriminate. }
  change (seq 1 (S (S n) - 1)) with (1%nat :: seq 2 n). cbn [chain].
  change (index (0%nat :: 0%nat :: replicate n 0%nat) (1 - 1)) with (@Return nat 0%nat).
  change (index (g0 :: gs) 0) with (@Return float g0).
  cbn [bind arange seq map].
  change (index [gaussian (of_nat 0) f0 (t_d / dt / hwem_m)%f64] 1)
    with (@Raise float IndexError).
  cbn [bind]. intros [= <- _]. reflexivity.
Qed.

Lemma get_ts_pdf_bad_sizes_witness :
  is_zero f1 = false /\ is_zero hwem_m = false /\
  is_finite (of_Z 3 / f1)%f64 = true /\
  (1 =? 0)%nat || (3 =? 0)%nat || ((1 =? 1)%nat && (2 <=? 3)%nat) = true /\
  get_ts_pdf 64 (of_Z 3) f1 3 (of_Z 5) 1 (Ref.state_of 1)
    = Some (Raise IndexError, Ref.state_of 7806831264735756412) /\
  @Raise (list float) IndexError =
    Raise (if (1 =? 0)%nat then ValueError else IndexError).
Proof.
  split; [vm_compute; reflexivity|].
  split; [vm_compute; reflexivity|].
  split; [vm_compute; reflexivity|].
  split; [vm_compute; reflexivity|].
  split; [vm_compute; reflexivity|].
  apply (get_ts_pdf_bad_sizes (L := Ref.libm) (R := Ref.random_state)
           (F := Ref.factors) 64 (of_Z 3) f1 3 (of_Z 5) 1 (Ref.state_of 1)
           (Ref.state_of 7806831264735756412) (Raise IndexError));
    vm_compute; reflexivity.
Defined.

(** X19.  A sampling interval of zero makes the first division raise
    [ZeroDivisionError] before any draw: whatever the other arguments, the
    generator is left as it was. *)
Theorem get_ts_pdf_zero_dt `{L : Libm} `{R : RandomState} `{F : Factors}
    (fuel : nat) (t_d dt : float) (num_samples : nat) (max_g : float)
    (steps : nat) (s : rstate) :
  is_zero dt = true ->
  get_ts_pdf fuel t_d dt num_samples max_g steps s = Some (Raise ZeroDivisionError, s).
Proof.
  intros Hdt. unfold get_ts_pdf, py_div. rewrite Hdt. reflexivity.
Qed.

Lemma get_ts_pdf_zero_dt_witness :
  is_zero f0 = true /\
  get_ts_pdf 0 (of_Z 3) f0 4 (of_Z 5) 20 (Ref.state_of 1)
    = Some (Raise ZeroDivisionError, Ref.state_of 1).
Proof.
  split; [reflexivity|].
  apply (get_ts_pdf_zero_dt (L := Ref.libm) (R := Ref.random_state)
           (F := Ref.factors) 0 (of_Z 3) f0 4 (of_Z 5) 20 (Ref.state_of 1)).
  reflexivity.
Defined.



(** ** The spectral synthesizer, again *)

(** X21.  No element of the series [get_ts_fft] returns is negative: each
    is a square divided by the mean of the squares, so it is NaN or its
    sign bit is clear, whatever spectrum shaped the noise. *)
Theorem get_ts_fft_nonneg `{L : Libm} `{F : NumpyFFT} `{G : Generator}
    (entropy : Z) (t_d dt : float) (num_samples : nat) (pow : float)
    (seed : seed_arg) (I : list float) :
  fst (get_ts_fft entropy t_d dt num_samples pow seed) = Return I ->
  forallb nonneg_or_nan I = true.
Proof.
  unfold get_ts_fft.
  destruct (standard_normal num_samples (default_rng entropy seed)) as [a rng1].
  destruct (standard_normal num_samples rng1) as [b rng2].
  cbn [fst].
  destruct (fft_spectrum t_d dt num_samples pow) as [spectrum| |]; cbn [bind];
    try discriminate.
  intros [= <-]. unfold fft_intensity.
  set (sq := map _ (np_ifft _)).
  assert (Hsq : forallb sign_clear sq = true).
  { apply forallb_forall. intros y Hy. apply in_map_iff in Hy as (z & <- & _).
    apply fmul_self_sign_clear. }
  assert (Hmean : sign_clear (np_mean sq) = true).
  { unfold np_mean. apply fdiv_sign_clear; [|apply of_nat_sign_clear].
    apply np_sum_from_sign_clear; [reflexivity|exact Hsq]. }
  apply forallb_forall. intros y Hy. apply in_map_iff in Hy as (x & <- & Hx).
  apply fdiv_nonneg; [|exact Hmean].
  rewrite forallb_forall in Hsq. apply sign_clear_nonneg, Hsq, Hx.
Qed.

Lemma get_ts_fft_nonneg_witness :
  exists I,
    fst (get_ts_fft 0 f1 f1 4 f2 (SeedInt 1)) = Return I /\
    forallb nonneg_or_nan I = true.
Proof.
  destruct (fst (get_ts_fft 0 f1 f1 4 f2 (SeedInt 1))) as [I| |] eqn:HI.
  - exists I. split; [reflexivity|].
    exact (get_ts_fft_nonneg (L := Ref.libm) (F := Ref.fft) (G := Ref.generator)
             0 f1 f1 4 f2 (SeedInt 1) I HI).
  - vm_compute in HI. discriminate.
  - vm_compute in HI. discriminate.
Defined.

(** X22.  When [get_ts_fft] returns, the series has [num_samples]
    elements. *)
Theorem get_ts_fft_length `{L : Libm} `{F : NumpyFFT} `{!NumpyFFTLaws F}
    `{G : Generator} `{!GeneratorLaws G}
    (entropy : Z) (t_d dt : float) (num_samples : nat) (pow : float)
    (seed : seed_arg) (I : list float) :
  fst (get_ts_fft entropy t_d dt num_samples pow seed) = Return I ->
  length I = num_samples.
Proof.
  unfold get_ts_fft.
  pose proof (standard_normal_length num_samples (default_rng entropy seed)) as Ha.
  destruct (standard_normal num_samples (default_rng entropy seed)) as [a rng1].
  pose proof (standard_normal_length num_samples rng1) as Hb.
  destruct (standard_normal num_samples rng1) as [b rng2].
  cbn [fst] in *.
  destruct (fft_spectrum t_d dt num_samples pow) as [spectrum| |] eqn:Hsp;
    cbn [bind]; try discriminate.
  pose proof (fft_spectrum_length _ _ _ _ _ Hsp) as Hlen.
  intros [= <-]. unfold fft_intensity.
  rewrite !length_map, ifft_length, length_zip_with, !length_map,
    length_zip_with, !length_map. lia.
Qed.

Lemma get_ts_fft_length_witness :
  exists I,
    fst (get_ts_fft 0 f1 f1 4 f2 (SeedInt 1)) = Return I /\
    length I = 4%nat.
Proof.
  destruct (fst (get_ts_fft 0 f1 f1 4 f2 (SeedInt 1))) as [I| |] eqn:HI.
  - exists I. split; [reflexivity|].
    exact (get_ts_fft_length (L := Ref.libm) (F := Ref.fft) (G := Ref.generator)
             0 f1 f1 4 f2 (SeedInt 1) I HI).
  - vm_compute in HI. discriminate.
  - vm_compute in HI. discriminate.
Defined.

(** X23.  A zero sampling interval or a zero exponent makes [get_ts_fft]
    raise [ZeroDivisionError], from [t_d / dt] or from [1 / pow]; the two
    normal vectors have been drawn by then. *)
Theorem get_ts_fft_zero_division `{L : Libm} `{F : NumpyFFT} `{G : Generator}
    (entropy : Z) (t_d dt : float) (num_samples : nat) (pow : float)
    (seed : seed_arg) :
  is_zero dt || is_zero pow = true ->
  get_ts_fft entropy t_d dt num_samples pow seed =
    (Raise ZeroDivisionError,
     snd (standard_normal num_samples
            (snd (standard_normal num_samples (default_rng entropy seed))))).
Proof.
  intros Hz. unfold get_ts_fft.
  destruct (standard_normal num_samples (default_rng entropy seed)) as [a rng1].
  cbn [snd].
  destruct (standard_normal num_samples rng1) as [b rng2].
  cbn [snd]. unfold fft_spectrum, py_div.
  destruct (is_zero dt); cbn [bind]; [reflexivity|].
  cbn [orb] in Hz. rewrite Hz. reflexivity.
Qed.

Lemma get_ts_fft_zero_division_witness :
  is_zero f1 || is_zero f0 = true /\
  get_ts_fft 0 (of_Z 10) f1 2 f0 (@SeedGen Ref.generator 1%Z) =
    (Raise ZeroDivisionError,
     snd (standard_normal 2
            (snd (standard_normal 2 (default_rng 0 (@SeedGen Ref.generator 1%Z)))))).
Proof.
  split; [reflexivity|].
  apply (get_ts_fft_zero_division (L := Ref.libm) (F := Ref.fft) (G := Ref.generator)
           0 (of_Z 10) f1 2 f0 (@SeedGen Ref.generator 1%Z)).
  reflexivity.
Defined.

(** X24.  Asked for no sample, [get_ts_fft] never returns: the transform
    refuses the empty array, when the divisions or the power have not
    raised before it. *)
Theorem get_ts_fft_no_samples `{L : Libm} `{F : NumpyFFT} `{G : Generator}
    (entropy : Z) (t_d dt pow : float) (seed : seed_arg) :
  exists e, fst (get_ts_fft entropy t_d dt 0 pow seed) = Raise e /\
    (e = ZeroDivisionError \/ e = OverflowError \/ e = ValueError).
Proof.
  unfold get_ts_fft.
  destruct (standard_normal 0 (default_rng entropy seed)) as [a rng1].
  destruct (standard_normal 0 rng1) as [b rng2].
  cbn [fst]. unfold fft_spectrum, py_div, py_pow.
  destruct (is_zero dt); cbn [bind]; [eauto|].
  destruct (is_zero pow); cbn [bind]; [eauto|].
  destruct (_ && _); cbn [bind]; eauto.
Qed.

(** ** One trial of the dataset generator *)

(** X25.  A generation method that is neither ['arta'] nor ['fft'] makes
    the trial raise [ValueError] before anything is drawn: the generator is
    left as it was. *)
Theorem single_trial_unknown_method `{Libm} `{NumpyFFT} `{G : Generator} `{!Arta}
    `{!FrameProcessing} `{SciPyStats} `{SciPyOptimize}
    (generator : SignalGenerator) (t_d snr : float) (bw : Z) (injected : bool)
    (bound gen_method : string) (pow : float) (divide_std save_ts : bool)
    (p : option nat) :
  String.eqb gen_method "arta" = false -> String.eqb gen_method "fft" = false ->
  _single_trial generator t_d snr bw injected bound gen_method pow divide_std
    save_ts p = (Raise ValueError, rng generator).
Proof.
  intros Ha Hf. unfold _single_trial. rewrite Ha, Hf. reflexivity.
Qed.

Lemma single_trial_unknown_method_witness :
  String.eqb "pdf" "arta" = false /\ String.eqb "pdf" "fft" = false /\
  _single_trial sample_generator (of_Z 10) (of_Z 25) 2 false "threshold" "pdf"
    five_thirds true false None = (Raise ValueError, rng sample_generator).
Proof.
  split; [reflexivity|]. split; [reflexivity|].
  apply (single_trial_unknown_method sample_generator (of_Z 10) (of_Z 25) 2 false
           "threshold" "pdf" five_thirds true false None); reflexivity.
Defined.

Lemma trial_update_dom (fchans l r : pyval) (t_d snr : float)
    (d : gmap string pyval) :
  dom (trial_update fchans l r t_d snr d) = dom d ∪ trial_fields.
Proof.
  unfold trial_update, trial_fields. rewrite !dom_insert_L.
  apply set_eq. intros k. rewrite !elem_of_union, !elem_of_singleton. tauto.
Qed.

(** X26.  The record of a trial carries the nine statistical fields and
    the six the trial adds: the timescale, the signal-to-noise ratio, a
    drift rate of zero, and [fchans], [l] and [r], which are [None] unless
    a frame was injected, when [fchans] is 256. *)
Theorem single_trial_record `{Libm} `{NumpyFFT} `{G : Generator} `{!Arta}
    `{!FrameProcessing} `{SciPyStats} `{SciPyOptimize}
    (generator : SignalGenerator) (t_d snr : float) (bw : Z) (injected : bool)
    (bound gen_method : string) (pow : float) (divide_std save_ts : bool)
    (p : option nat) (d : gmap string pyval) (ts : option series) :
  fst (_single_trial generator t_d snr bw injected bound gen_method pow divide_std
         save_ts p) = Return (Some d, ts) ->
  dom d = stat_fields ∪ trial_fields /\
  d !! "t_d" = Some (PyFloat t_d) /\
  d !! "SNR" = Some (PyFloat snr) /\
  d !! "DriftRate" = Some (PyInt 0) /\
  d !! "fchans" = Some (if injected then PyInt 256 else PyNone) /\
  if injected then True else d !! "l" = Some PyNone /\ d !! "r" = Some PyNone.
Proof.
  unfold _single_trial.
  destruct (if String.eqb gen_method "arta" then _ else _) as [[x| |] g0];
    cbn [fst]; try discriminate.
  assert (Hrec : forall fchans l r ts0 r0,
            get_diag_stats ts0 None five_thirds true = Return r0 ->
            dom (trial_update fchans l r t_d snr r0) = stat_fields ∪ trial_fields /\
            trial_update fchans l r t_d snr r0 !! "t_d" = Some (PyFloat t_d) /\
            trial_update fchans l r t_d snr r0 !! "SNR" = Some (PyFloat snr) /\
            trial_update fchans l r t_d snr r0 !! "DriftRate" = Some (PyInt 0) /\
            trial_update fchans l r t_d snr r0 !! "fchans" = Some fchans /\
            trial_update fchans l r t_d snr r0 !! "l" = Some l /\
            trial_update fchans l r t_d snr r0 !! "r" = Some r).
  { intros fchans l r ts0 r0 Hr0.
    rewrite trial_update_dom, (get_diag_stats_fields _ _ _ _ _ Hr0).
    unfold trial_update. repeat split; by simplify_map_eq. }
  destruct injected.
  - destruct (inject _ _ _ _ _ _ _) as [[fr| |] g1]; cbn [fst bind]; try discriminate.
    destruct (extract_ts _ _ _ _ _) as [[[ts1 [l r]]|[]|] g2]; cbn [fst bind];
      try discriminate.
    destruct (get_diag_stats ts1 None five_thirds true) as [r0| |] eqn:Hr0;
      cbn [bind]; try discriminate.
    intros [= <- _].
    destruct (Hrec (PyInt 256) (PyInt l) (PyInt r) ts1 r0 Hr0)
      as (? & ? & ? & ? & ? & _). repeat split; assumption.
  - cbn [fst bind].
    destruct (get_diag_stats (ndarray x) None five_thirds true) as [r0| |] eqn:Hr0;
      cbn [bind]; try discriminate.
    intros [= <- _].
    destruct (Hrec PyNone PyNone PyNone (ndarray x) r0 Hr0)
      as (? & ? & ? & ? & ? & ? & ?). repeat split; assumption.
Qed.

(** The non-injected trial of the spectral synthesizer, step by step. *)
Lemma single_trial_fft `{Libm} `{NumpyFFT} `{G : Generator} `{!Arta}
    `{!FrameProcessing} `{SciPyStats} `{SciPyOptimize}
    (generator : SignalGenerator) (t_d snr : float) (bw : Z)
    (bound : string) (pow : float) (divide_std save_ts : bool)
    (p : option nat) (ts : list float) (r : gmap string pyval) :
  fst (get_ts_fft 0 t_d (metadata_dt generator) (metadata_tchans generator) pow
         (SeedGen (rng generator))) = Return ts ->
  get_diag_stats (ndarray ts) None five_thirds true = Return r ->
  fst (_single_trial generator t_d snr bw false bound "fft" pow divide_std save_ts p)
    = Return (Some (trial_update PyNone PyNone PyNone t_d snr r),
              if save_ts then Some (ndarray ts) else None).
Proof.
  intros Hts Hr. unfold _single_trial.
  change (String.eqb "fft" "arta") with false.
  change (String.eqb "fft" "fft") with true. cbn iota.
  destruct (get_ts_fft _ _ _ _ _ _) as [o g0]. cbn [fst] in Hts. subst o.
  cbn [fst bind]. rewrite Hr. reflexivity.
Qed.

(** X27.  A trial of the spectral synthesizer without injection is the
    series of [get_ts_fft] and its statistics, to which the six trial
    fields are added.  The statistics are those of [get_diag_stats(ts)]
    with its defaults: the fit of the autocorrelation takes the exponent
    5/3 and the taper, whatever exponent generated the series. *)
Theorem single_trial_fft_statistics `{Libm} `{NumpyFFT} `{G : Generator} `{!Arta}
    `{!FrameProcessing} `{SciPyStats} `{SciPyOptimize}
    (generator : SignalGenerator) (t_d snr : float) (bw : Z)
    (bound : string) (pow : float) (divide_std save_ts : bool)
    (p : option nat) (ts : list float) (r : gmap string pyval) :
  fst (get_ts_fft 0 t_d (metadata_dt generator) (metadata_tchans generator) pow
         (SeedGen (rng generator))) = Return ts ->
  get_diag_stats (ndarray ts) None five_thirds true = Return r ->
  fst (_single_trial generator t_d snr bw false bound "fft" pow divide_std save_ts p)
    = Return (Some (trial_update PyNone PyNone PyNone t_d snr r),
              if save_ts then Some (ndarray ts) else None).
Proof. apply single_trial_fft. Qed.

(** The sample generator, the exponent 2 and a timescale of one sample. *)
Lemma sample_trial :
  exists ts r,
    fst (get_ts_fft 0 f1 (metadata_dt sample_generator)
           (metadata_tchans sample_generator) f2 (SeedGen (rng sample_generator)))
      = Return ts /\
    get_diag_stats (ndarray ts) None five_thirds true = Return r.
Proof.
  destruct (fst (get_ts_fft 0 f1 (metadata_dt sample_generator)
                   (metadata_tchans sample_generator) f2
                   (SeedGen (rng sample_generator)))) as [ts| |] eqn:Hts;
    [|vm_compute in Hts; discriminate..].
  destruct (get_diag_stats (ndarray ts) None five_thirds true) as [r| |] eqn:Hr.
  - exists ts, r. split; [reflexivity|exact Hr].
  - exfalso. vm_compute in Hts. injection Hts as <-. vm_compute in Hr. discriminate.
  - exfalso. vm_compute in Hts. injection Hts as <-. vm_compute in Hr. discriminate.
Qed.

Lemma single_trial_fft_statistics_witness :
  exists ts r,
    fst (get_ts_fft 0 f1 (metadata_dt sample_generator)
           (metadata_tchans sample_generator) f2 (SeedGen (rng sample_generator)))
      = Return ts /\
    get_diag_stats (ndarray ts) None five_thirds true = Return r /\
    fst (_single_trial sample_generator f1 (of_Z 25) 2 false "threshold" "fft" f2
           true true None)
      = Return (Some (trial_update PyNone PyNone PyNone f1 (of_Z 25) r),
                if true then Some (ndarray ts) else None).
Proof.
  destruct sample_trial as (ts & r & Hts & Hr).
  exists ts, r. split; [exact Hts|]. split; [exact Hr|].
  exact (single_trial_fft_statistics sample_generator f1 (of_Z 25) 2 "threshold" f2
           true true None ts r Hts Hr).
Defined.

Lemma single_trial_record_witness :
  exists d ts,
    fst (_single_trial sample_generator f1 (of_Z 25) 2 false "threshold" "fft" f2
           true true None) = Return (Some d, ts) /\
    dom d = stat_fields ∪ trial_fields /\
    d !! "t_d" = Some (PyFloat f1) /\
    d !! "SNR" = Some (PyFloat (of_Z 25)) /\
    d !! "DriftRate" = Some (PyInt 0) /\
    d !! "fchans" = Some (if false then PyInt 256 else PyNone) /\
    if false then True else d !! "l" = Some PyNone /\ d !! "r" = Some PyNone.
Proof.
  destruct sample_trial as (ts & r & Hts & Hr).
  pose proof (single_trial_fft sample_generator f1 (of_Z 25) 2 "threshold" f2
                true true None ts r Hts Hr) as Ht.
  eexists _, _. split; [exact Ht|].
  exact (single_trial_record sample_generator f1 (of_Z 25) 2 false "threshold" "fft"
           f2 true true None _ _ Ht).
Defined.



(** ** The bounds of the fit *)

Lemma clip_within (l h : float) :
  (l <? h)%f64 = true ->
  (l <=? Ref.clip l h f1)%f64 = true /\ (Ref.clip l h f1 <=? h)%f64 = true.
Proof.
  intros Hlh. destruct (fltb_not_nan l h Hlh) as [Hl Hh].
  pose proof (fltb_fleb l h Hlh) as Hle.
  unfold Ref.clip.
  destruct (f1 <? l)%f64 eqn:H1; [split; [apply fleb_refl, Hl | exact Hle]|].
  destruct (h <? f1)%f64 eqn:H2; [split; [exact Hle | apply fleb_refl, Hh]|].
  split.
  - destruct (l <=? f1)%f64 eqn:E; [reflexivity|].
    rewrite (fleb_total l f1 Hl eq_refl E) in H1. discriminate.
  - destruct (f1 <=? h)%f64 eqn:E; [reflexivity|].
    rewrite (fleb_total f1 h eq_refl Hh E) in H2. discriminate.
Qed.

Lemma clipped_start_within (lo hi : list float) :
  length lo = length hi ->
  forallb (fun b => fst b <? snd b)%f64 (combine lo hi) = true ->
  Forall2 (fun l p => (l <=? p)%f64 = true) lo
    (zip_with (fun l h => Ref.clip l h f1) lo hi) /\
  Forall2 (fun p h => (p <=? h)%f64 = true)
    (zip_with (fun l h => Ref.clip l h f1) lo hi) hi.
Proof.
  revert hi. induction lo as [|l lo IH]; intros [|h hi]; try discriminate.
  - intros _ _. split; constructor.
  - cbn [length combine forallb fst snd zip_with]. intros [= Hlen] Hall.
    apply andb_true_iff in Hall as [Hlh Hall].
    destruct (IH hi Hlen Hall) as [H1 H2].
    destruct (clip_within l h Hlh) as [Hl Hh].
    split; constructor; assumption.
Qed.

Lemma at_start_laws : SciPyOptimizeLaws at_start.
Proof.
  constructor. intros f xdata ydata lo hi popt. cbn [curve_fit at_start].
  unfold curve_fit_at_start.
  destruct (_ && _) eqn:Hb; [|discriminate].
  apply andb_true_iff in Hb as [Hlen Hall]. apply Nat.eqb_eq in Hlen.
  destruct (f xdata _) as [y| |]; cbn [bind]; try discriminate.
  intros [= <-]. apply clipped_start_within; assumption.
Qed.

(** X29.  Whatever a fit that honours its bounds returns through
    [fit_acf] is three parameters within the bounds [fit_acf] sets: the
    timescale between zero and the number of lags, the amplitude and the
    noise between zero and one; with [remove_spike], the amplitude is one
    and the noise zero. *)
Theorem fit_acf_within_bounds `{L : Libm} `{O : SciPyOptimize} `{!SciPyOptimizeLaws O}
    (acf : list float) (pow : float) (use_triangle remove_spike : bool)
    (popt : list float) :
  fit_acf acf pow use_triangle remove_spike = Return popt ->
  exists t_d A W,
    popt = [t_d; A; W] /\
    (f0 <=? t_d)%f64 = true /\ (t_d <=? of_nat (length acf))%f64 = true /\
    (f0 <=? A)%f64 = true /\ (A <=? f1)%f64 = true /\
    (f0 <=? W)%f64 = true /\ (W <=? f1)%f64 = true /\
    (if remove_spike then A = f1 /\ W = f0 else True).
Proof.
  unfold fit_acf. destruct remove_spike.
  - destruct (curve_fit _ _ _ _) as [p| |] eqn:Hfit; cbn [bind]; try discriminate.
    destruct (curve_fit_feasible _ _ _ _ _ _ Hfit) as [Hlo Hhi].
    inversion Hlo as [|? t ? p' Ht Hrest]; subst. inversion Hrest; subst.
    inversion Hhi as [|? ? ? ? Ht' _]; subst.
    change (index [t] 0) with (@Return float t). cbn [bind]. intros [= <-].
    exists t, f1, f0. repeat split; try assumption; reflexivity.
  - intros Hfit.
    destruct (curve_fit_feasible _ _ _ _ _ _ Hfit) as [Hlo Hhi].
    inversion Hlo as [|? t ? p1 Ht H1]; subst.
    inversion H1 as [|? A ? p2 HA H2]; subst.
    inversion H2 as [|? W ? p3 HW H3]; subst. inversion H3; subst.
    inversion Hhi as [|? ? ? ? Ht' H1']; subst.
    inversion H1' as [|? ? ? ? HA' H2']; subst.
    inversion H2' as [|? ? ? ? HW' _]; subst.
    exists t, A, W. repeat split; assumption.
Qed.

Lemma fit_acf_within_bounds_witness :
  @fit_acf Ref.libm at_start sample_acf five_thirds true false = Return [f1; f1; f1] /\
  exists t_d A W,
    [f1; f1; f1] = [t_d; A; W] /\
    (f0 <=? t_d)%f64 = true /\ (t_d <=? of_nat (length sample_acf))%f64 = true /\
    (f0 <=? A)%f64 = true /\ (A <=? f1)%f64 = true /\
    (f0 <=? W)%f64 = true /\ (W <=? f1)%f64 = true /\
    (if false then A = f1 /\ W = f0 else True).
Proof.
  split; [vm_compute; reflexivity|].
  apply (@fit_acf_within_bounds Ref.libm at_start at_start_laws
           sample_acf five_thirds true false [f1; f1; f1]).
  vm_compute; reflexivity.
Defined.
